(** * The Secret Spot content API (src/main.py): a shallow embedding

    The program is a FastAPI application that keeps one JSON document
    (content.json) with a hero video, twelve named image slots and a
    gallery, and updates it through four token-protected endpoints.

    The embedding follows the source top to bottom:
    - [ModuleInit]: the order in which the module binds its top-level names;
    - Python values as they come out of [json.load] ([pyval]), with the
      dict, list and str operations the handlers use and the exceptions
      these raise;
    - the process state: the file content.json, the module-level object
      [DEFAULT_CONTENT] (a mutable dict that [load_content] hands out
      without copying), the non-reentrant [LOCK], the local uploads
      directory and a log of the calls made to the media backend and to
      [save_content];
    - [load_content], [save_content] and the endpoint handlers, written in a
      state-and-exception monad with a third outcome for a thread that
      waits on [LOCK] forever. *)

From Stdlib Require Import ZArith String.
From Stdlib.Floats Require Import SpecFloat.
From stdpp Require Import base gmap strings list sets option.

Set Warnings "-register-all,-clear-no-such-hyp".
Local Open Scope string_scope.

(** ** Module initialisation

    Python executes the top-level statements of main.py in order; a
    statement that reads a global name not yet bound raises [NameError].
    Function bodies are not executed at definition time, so a [def] only
    reads the names of its decorators and default values. *)
Module ModuleInit.

Inductive init_error := NameError (name : string).

Definition namespace := gset string.

(** Names every module starts with. *)
Definition builtins : namespace :=
  {[ "bool"; "set"; "str"; "open"; "enumerate"; "next"; "Exception"; "__file__" ]}.

(** One top-level statement: the global names it evaluates and the names
    it binds. *)
Record stmt := Stmt { line : nat; reads : list string; binds : list string }.

Fixpoint first_unbound (ns : namespace) (names : list string) : option string :=
  match names with
  | [] => None
  | x :: rest => if decide (x ∈ ns) then first_unbound ns rest else Some x
  end.

Definition exec_stmt (ns : namespace) (s : stmt) : init_error + namespace :=
  match first_unbound ns (reads s) with
  | Some x => inl (NameError x)
  | None => inr (list_to_set (binds s) ∪ ns)
  end.

Fixpoint exec (ns : namespace) (prog : list stmt) : (nat * init_error) + namespace :=
  match prog with
  | [] => inr ns
  | s :: rest =>
      match exec_stmt ns s with
      | inl e => inl (line s, e)
      | inr ns' => exec ns' rest
      end
  end.

(** The top-level statements of main.py, by source line. *)
Definition main_py : list stmt :=
  [ Stmt 2 [] ["FastAPI"; "File"; "UploadFile"; "HTTPException"; "Depends"; "Header"; "Form"];
    Stmt 3 [] ["CORSMiddleware"];
    Stmt 4 [] ["HTMLResponse"];
    Stmt 5 [] ["StaticFiles"];
    Stmt 6 [] ["BaseModel"];
    Stmt 7 [] ["List"; "Optional"; "Dict"];
    Stmt 8 [] ["uuid4"];
    Stmt 9 [] ["cloudinary"];
    Stmt 10 [] ["cloudinary"];
    Stmt 11 [] ["os"];
    Stmt 12 [] ["json"];
    Stmt 13 [] ["threading"];
    Stmt 14 [] ["Path"];
    Stmt 17 ["cloudinary"; "os"] [];
    Stmt 25 ["bool"; "os"] ["USE_CLOUDINARY"];
    Stmt 31 ["BASE_DIR"] ["UPLOADS_DIR"];
    Stmt 32 ["UPLOADS_DIR"] [];
    Stmt 36 ["os"] ["ADMIN_TOKEN"];
    Stmt 38 ["str"; "Header"] ["verify_token"];
    Stmt 44 ["Path"; "__file__"] ["BASE_DIR"];
    Stmt 45 ["BASE_DIR"] ["CONTENT_PATH"];
    Stmt 46 ["threading"] ["LOCK"];
    Stmt 48 [] ["DEFAULT_CONTENT"];
    Stmt 67 [] ["load_content"];
    Stmt 88 [] ["save_content"];
    Stmt 94 ["BaseModel"; "str"] ["GalleryItem"];
    Stmt 100 ["BaseModel"; "Optional"; "Dict"; "List"; "str"; "GalleryItem"] ["ContentResponse"];
    Stmt 106 ["FastAPI"] ["app"];
    Stmt 108 ["app"; "CORSMiddleware"] [];
    Stmt 117 ["app"; "StaticFiles"; "str"; "UPLOADS_DIR"] [];
    Stmt 120 ["app"; "HTMLResponse"] ["serve_panel"];
    Stmt 129 ["app"; "ContentResponse"] ["get_content"];
    Stmt 142 ["app"; "UploadFile"; "File"; "str"; "Depends"; "verify_token"] ["upload_hero_video"];
    Stmt 177 ["set"; "DEFAULT_CONTENT"] ["VALID_SLOTS"];
    Stmt 178 ["app"; "str"; "Form"; "UploadFile"; "File"; "Depends"; "verify_token"] ["upload_slot_image"];
    Stmt 224 ["app"; "List"; "GalleryItem"] ["get_gallery"];
    Stmt 229 ["app"; "str"; "Form"; "UploadFile"; "File"; "Depends"; "verify_token"] ["upload_gallery_image"];
    Stmt 274 ["app"; "str"; "Depends"; "verify_token"] ["delete_gallery_image"] ].

Definition import_main : (nat * init_error) + namespace := exec builtins main_py.

(** Whether an import ran through and left [name] bound. *)
Definition binds_name (name : string) (r : (nat * init_error) + namespace) : bool :=
  match r with
  | inr ns => bool_decide (name ∈ ns)
  | inl _ => false
  end.

(** The same statements with the [BASE_DIR] assignment of line 44 moved in
    front of line 31, for comparison. *)
Definition main_py_reordered : list stmt :=
  take 15 main_py ++ [Stmt 44 ["Path"; "__file__"] ["BASE_DIR"]]
    ++ drop 15 (take 19 main_py) ++ drop 20 main_py.

End ModuleInit.

(** ** Python values

    What [json.load] can return, and so what the content document and
    everything inside it is made of.  A [str] is represented by its UTF-8
    bytes; a dict with string keys is a finite map (the program never
    depends on the order of keys). *)
Inductive pyval : Type :=
| PNone
| PBool (b : bool)
| PInt (n : Z)
| PFloat (f : spec_float)
| PStr (s : string)
| PList (l : list pyval)
| PDict (m : gmap string pyval).

Inductive exn : Type :=
| TypeError
| KeyError (key : string)
| IndexError
| AttributeError (attr : string)
| OSError
| CloudinaryError
| ValidationError
| RequestValidationError
| HTTPException (status_code : Z) (detail : string).

(** Pure evaluation that may raise. *)
Definition res (A : Type) : Type := exn + A.

Definition res_bind {A B} (x : res A) (f : A -> res B) : res B :=
  match x with
  | inl e => inl e
  | inr a => f a
  end.

Declare Scope res_scope.
Delimit Scope res_scope with res.
Notation "'let?' x := c 'in' k" := (res_bind c (fun x => k))
  (at level 10, x name, c at level 100, k at level 200) : res_scope.

(** [key in obj] for a string [key]. *)
Definition py_contains (key : string) (obj : pyval) : res bool :=
  match obj with
  | PDict m => inr (bool_decide (is_Some (m !! key)))
  | PList l => inr (existsb (fun x => match x with PStr s => String.eqb s key | _ => false end) l)
  | PStr s => inr (match String.index 0 key s with Some _ => true | None => false end)
  | PNone | PBool _ | PInt _ | PFloat _ => inl TypeError
  end.

(** [obj[key]] for a string [key]. *)
Definition py_getitem (obj : pyval) (key : string) : res pyval :=
  match obj with
  | PDict m => match m !! key with Some v => inr v | None => inl (KeyError key) end
  | _ => inl TypeError
  end.

(** [obj[key] = v] for a string [key]. *)
Definition py_setitem (obj : pyval) (key : string) (v : pyval) : res pyval :=
  match obj with
  | PDict m => inr (PDict (<[key := v]> m))
  | _ => inl TypeError
  end.

(** [d.setdefault(k, v)] on a dict. *)
Definition dict_setdefault (k : string) (v : pyval) (m : gmap string pyval) : gmap string pyval :=
  match m !! k with
  | Some _ => m
  | None => <[k := v]> m
  end.

(** [obj.setdefault(k, v)]: only dicts have the method. *)
Definition py_setdefault (obj : pyval) (k : string) (v : pyval) : res pyval :=
  match obj with
  | PDict m => inr (PDict (dict_setdefault k v m))
  | _ => inl (AttributeError "setdefault")
  end.

(** [obj.items()], as the list the [for] loop walks through. *)
Definition py_items (obj : pyval) : res (list (string * pyval)) :=
  match obj with
  | PDict m => inr (map_to_list m)
  | _ => inl (AttributeError "items")
  end.

(** [obj.append(x)]: only lists have the method. *)
Definition py_append (obj : pyval) (x : pyval) : res pyval :=
  match obj with
  | PList l => inr (PList (l ++ [x]))
  | _ => inl (AttributeError "append")
  end.

(** The elements [enumerate(obj)] yields. *)
Definition py_iter (obj : pyval) : res (list pyval) :=
  match obj with
  | PList l => inr l
  | PDict m => inr (PStr <$> (map_to_list m).*1)
  | PStr s => inr ((fun c => PStr (String c EmptyString)) <$> list_ascii_of_string s)
  | PNone | PBool _ | PInt _ | PFloat _ => inl TypeError
  end.

(** [v == s] for a string [s]. *)
Definition py_eq_str (v : pyval) (s : string) : bool :=
  match v with
  | PStr s' => String.eqb s' s
  | _ => false
  end.

(** [del obj[idx]] for an integer index in range. *)
Definition py_delitem (obj : pyval) (idx : nat) : res pyval :=
  match obj with
  | PList l => inr (PList (delete idx l))
  | PDict _ => inl (KeyError "")
  | _ => inl TypeError
  end.

(** [obj[idx]] for an integer index. *)
Definition py_index (obj : pyval) (idx : nat) : res pyval :=
  match obj with
  | PList l => match l !! idx with Some x => inr x | None => inl IndexError end
  | PStr s => match String.get idx s with
              | Some c => inr (PStr (String c EmptyString))
              | None => inl IndexError
              end
  | PDict _ => inl (KeyError "")
  | PNone | PBool _ | PInt _ | PFloat _ => inl TypeError
  end.

Fixpoint res_mapM {A B} (f : A -> res B) (l : list A) : res (list B) :=
  match l with
  | [] => inr []
  | x :: rest =>
      (let? y := f x in
       let? ys := res_mapM f rest in
       inr (y :: ys))%res
  end.

(** [obj.get(key, dflt)] on a dict. *)
Definition py_get (obj : pyval) (key : string) (dflt : pyval) : res pyval :=
  match obj with
  | PDict m => inr (default dflt (m !! key))
  | _ => inl (AttributeError "get")
  end.

(** ** The process state *)

(** What [json.load] makes of the bytes of content.json: it raises (the
    bytes are not JSON, or not UTF-8), or it returns a value.  [json.dump]
    writes a value that [json.load] reads back unchanged.  The file itself
    is one the process can open, for reading and for writing: a run in which
    opening content.json fails is not among the runs described here. *)
Inductive file_content : Type :=
| Garbage
| Json (v : pyval).

(** A multipart file part as the handlers see it. *)
Record UploadFile := { filename : option string; body : string }.

Record UUID := { hex : string; str : string }.

(** Calls that leave the process: to the media backend, and whole-file
    writes of content.json. *)
Inductive call : Type :=
| CloudinaryUpload (contents folder resource_type : string)
| LocalWrite (fname contents : string)
| CloudinaryDestroy (public_id : pyval)
| LocalUnlink (fname : string)
| Save (doc : pyval).

Record state := State {
  content_json : option file_content;   (* None: CONTENT_PATH does not exist *)
  DEFAULT_CONTENT : pyval;              (* the module-level dict object *)
  LOCK : bool;                          (* true: held *)
  uploads : gmap string string;         (* files in UPLOADS_DIR *)
  uuid_count : nat;                     (* uuid4() calls made so far *)
  calls : list call                     (* newest first *)
}.

Definition set_content_json (f : option file_content) (st : state) : state :=
  State f (DEFAULT_CONTENT st) (LOCK st) (uploads st) (uuid_count st) (calls st).
Definition set_DEFAULT_CONTENT (v : pyval) (st : state) : state :=
  State (content_json st) v (LOCK st) (uploads st) (uuid_count st) (calls st).
Definition set_LOCK (b : bool) (st : state) : state :=
  State (content_json st) (DEFAULT_CONTENT st) b (uploads st) (uuid_count st) (calls st).
Definition set_uploads (u : gmap string string) (st : state) : state :=
  State (content_json st) (DEFAULT_CONTENT st) (LOCK st) u (uuid_count st) (calls st).
Definition set_uuid_count (n : nat) (st : state) : state :=
  State (content_json st) (DEFAULT_CONTENT st) (LOCK st) (uploads st) n (calls st).
Definition log_call (c : call) (st : state) : state :=
  State (content_json st) (DEFAULT_CONTENT st) (LOCK st) (uploads st) (uuid_count st) (c :: calls st).

(** How one request ends: it returns, it raises, or its thread waits for
    [LOCK] and is never woken. *)
Inductive outcome (A : Type) : Type :=
| Ret (a : A) (st : state)
| Raise (e : exn) (st : state)
| Blocked (st : state).
Arguments Ret {A} a st.
Arguments Raise {A} e st.
Arguments Blocked {A} st.

Definition M (A : Type) : Type := state -> outcome A.

Definition ret {A} (a : A) : M A := fun st => Ret a st.
Definition raise {A} (e : exn) : M A := fun st => Raise e st.
Definition bind {A B} (c : M A) (k : A -> M B) : M B := fun st =>
  match c st with
  | Ret a st' => k a st'
  | Raise e st' => Raise e st'
  | Blocked st' => Blocked st'
  end.
Definition lift {A} (x : res A) : M A := fun st =>
  match x with
  | inl e => Raise e st
  | inr a => Ret a st
  end.
Definition get_state : M state := fun st => Ret st st.
Definition modify (f : state -> state) : M unit := fun st => Ret tt (f st).

Declare Scope py_scope.
Delimit Scope py_scope with py.
Notation "x <- c ;; k" := (bind c (fun x => k))
  (at level 100, c at next level, right associativity) : py_scope.
Notation "c ;;; k" := (bind c (fun _ => k))
  (at level 100, right associativity) : py_scope.
Local Open Scope py_scope.

(** [with LOCK: body].  [threading.Lock] is not reentrant: acquiring it while
    it is held waits until it is released, and inside one request nobody
    but the waiting thread itself would release it.  The lock is released
    when the body returns or raises. *)
Definition with_LOCK {A} (body : M A) : M A := fun st =>
  if LOCK st then Blocked st
  else match body (set_LOCK true st) with
       | Ret a st' => Ret a (set_LOCK false st')
       | Raise e st' => Raise e (set_LOCK false st')
       | Blocked st' => Blocked st'
       end.

(** The object a local variable [data] refers to: the module-level
    [DEFAULT_CONTENT] itself, or a dict that [json.load] built for this call
    and that nothing else refers to. *)
Inductive docref : Type :=
| Shared
| Owned (d : pyval).

Definition deref (st : state) (r : docref) : pyval :=
  match r with
  | Shared => DEFAULT_CONTENT st
  | Owned d => d
  end.

(** An in-place update of the object behind [r]; through [Shared] it
    changes [DEFAULT_CONTENT] for every later reader. *)
Definition mutate (r : docref) (f : pyval -> res pyval) : M docref := fun st =>
  match f (deref st r) with
  | inl e => Raise e st
  | inr v =>
      match r with
      | Shared => Ret Shared (set_DEFAULT_CONTENT v st)
      | Owned _ => Ret (Owned v) st
      end
  end.

Definition read (r : docref) : M pyval := fun st => Ret (deref st r) st.

(** ** Configuration and the outside world

    What is fixed when the process starts (the environment variables) and
    the behaviour of the libraries the handlers call into. *)
(** What a path built from a stored reference names: a file directly in
    UPLOADS_DIR, content.json itself (as "../content.json" does), or
    something else, which exists or not and is no part of the state. *)
Inductive path_kind : Type :=
| UploadedFile (name : string)
| ContentFile
| OtherPath (exists_ : bool).

Record config := Config {
  ADMIN_TOKEN : string;
  USE_CLOUDINARY : bool;
  (* cloudinary.uploader.upload(contents, folder=, resource_type=):
     raises (inl, with the text of the exception) or returns a dict *)
  cloudinary_upload : string -> string -> string -> string + gmap string pyval;
  (* cloudinary.uploader.destroy(public_id): false when it raises *)
  cloudinary_destroy : pyval -> bool;
  (* Path.unlink() on an existing file: false when it raises *)
  unlink : string -> bool;
  (* the n-th value uuid4() returns *)
  uuid4_source : nat -> UUID;
  (* pydantic's validation of a value against a field of type str *)
  pydantic_str : pyval -> option string;
  (* what the path UPLOADS_DIR / public_id names *)
  path_target : string -> path_kind;
  (* open(UPLOADS_DIR / fname, "wb") and the write succeed for this name;
     false for instance when the client's file name contains a "/" *)
  local_write_ok : string -> bool
}.

(** ** DEFAULT_CONTENT as the module creates it (lines 48-65) *)
Definition default_slots : gmap string pyval :=
  {[ "servicio_1" := PNone; "servicio_2" := PNone; "servicio_3" := PNone;
     "servicio_4" := PNone; "about_img" := PNone; "team_group" := PNone;
     "staff_1" := PNone; "staff_2" := PNone; "staff_3" := PNone;
     "staff_4" := PNone; "staff_5" := PNone; "staff_6" := PNone ]}.

Definition default_document : pyval :=
  PDict {[ "heroVideo" := PNone; "slots" := PDict default_slots; "gallery" := PList [] ]}.

(** The fixed slot-key set. *)
Definition FIXED_SLOT_KEYS : gset string :=
  {[ "servicio_1"; "servicio_2"; "servicio_3"; "servicio_4"; "about_img";
     "team_group"; "staff_1"; "staff_2"; "staff_3"; "staff_4"; "staff_5";
     "staff_6" ]}.

(** [VALID_SLOTS = set(DEFAULT_CONTENT["slots"].keys())], evaluated once
    while the module is imported (line 177). *)
Definition VALID_SLOTS : gset string := dom default_slots.

(** The state right after import, given what is on disk. *)
Definition initial_state (file : option file_content) (dir : gmap string string) : state :=
  State file default_document false dir 0 [].

(** ** Content store (lines 67-91) *)

(** [save_content(data)]: rewrite the whole file under the lock.  The file
    can be opened for writing (see [file_content]), and [json.dump] takes
    every value the handlers pass: what [json.load] returned, with strings,
    None and lists of such put in. *)
Definition save_content (data : docref) : M unit :=
  with_LOCK (
    d <- read data ;;
    modify (fun st => log_call (Save d) (set_content_json (Some (Json d)) st))).

(** One round of the loop of lines 78-81, for the pair [(k, v)]. *)
Definition merge_step (data : pyval) (kv : string * pyval) : res pyval :=
  (let? present := py_contains "slots" data in
   let? data := (if negb present then py_setitem data "slots" (PDict ∅) else inr data) in
   let? slots := py_getitem data "slots" in
   let? slots := py_setdefault slots kv.1 kv.2 in
   py_setitem data "slots" slots)%res.

Fixpoint merge_slots (items : list (string * pyval)) (data : pyval) : res pyval :=
  match items with
  | [] => inr data
  | kv :: rest => (let? data := merge_step data kv in merge_slots rest data)%res
  end.

(** Lines 78-85: the merge of the defaults into [data], where [items] is
    [DEFAULT_CONTENT["slots"].items()]. *)
Definition merge_defaults (items : list (string * pyval)) (data : pyval) : res pyval :=
  (let? data := merge_slots items data in
   let? has_gallery := py_contains "gallery" data in
   let? data := (if negb has_gallery then py_setitem data "gallery" (PList []) else inr data) in
   let? has_hero := py_contains "heroVideo" data in
   if negb has_hero then py_setitem data "heroVideo" PNone else inr data)%res.

(** [load_content()].  When the file is missing it calls [save_content]
    while it still holds [LOCK].  When [json.load] raises, [data] is bound
    to the object [DEFAULT_CONTENT] itself, and that object is what the
    caller gets.  The merge then runs in place on whatever [data] refers to;
    on [DEFAULT_CONTENT] itself it cannot raise once the items have been
    read, so no half-done merge is ever left behind in it. *)
Definition load_content : M docref :=
  with_LOCK (
    st <- get_state ;;
    match content_json st with
    | None => save_content Shared ;;; ret Shared
    | Some file =>
        let data := match file with Json v => Owned v | Garbage => Shared end in
        dc <- read Shared ;;
        items <- lift (let? slots := py_getitem dc "slots" in py_items slots)%res ;;
        mutate data (merge_defaults items)
    end).

(** The generator of line 278:
    [next((i for i, it in enumerate(gallery) if it["id"] == item_id), None)].
    It stops at the first match and raises what [it["id"]] raises on the
    way there. *)
Fixpoint find_index (item_id : string) (i : nat) (items : list pyval) : res (option nat) :=
  match items with
  | [] => inr None
  | it :: rest =>
      (let? v := py_getitem it "id" in
       if py_eq_str v item_id then inr (Some i) else find_index item_id (S i) rest)%res
  end.

(** [try: body except Exception: pass]. *)
Definition try_pass (body : M unit) : M unit := fun st =>
  match body st with
  | Raise _ st' => Ret tt st'
  | o => o
  end.

(** The response models (lines 94-103). *)
Module GalleryItem.
Record t := Make { id : string; url : string; public_id : string; category : string }.
End GalleryItem.

Module ContentResponse.
Record t := Make {
  heroVideo : option string;
  slots : gmap string (option string);
  gallery : list GalleryItem.t
}.
End ContentResponse.

(** ** Requests *)
Section Handlers.

Variable cfg : config.

(** [verify_token] (lines 38-41). *)
Definition verify_token (authorization : string) : M unit :=
  let expected := "Bearer " ++ ADMIN_TOKEN cfg in
  if negb (String.eqb authorization expected)
  then raise (HTTPException 401 "Unauthorized")
  else ret tt.

(** [token = Depends(verify_token)] with [authorization: str = Header(...)]:
    the header is a required parameter, so FastAPI answers a request
    without it with a request-validation error (422) and calls neither
    [verify_token] nor the handler. *)
Definition Depends_verify_token {A} (authorization : option string) (handler : M A) : M A :=
  match authorization with
  | None => raise RequestValidationError
  | Some a => verify_token a ;;; handler
  end.

(** [not file] tests the truth value of the [UploadFile] object; the class
    defines neither [__bool__] nor [__len__], so every instance is true,
    whatever its size. *)
Definition UploadFile_bool (file : UploadFile) : bool := true.

(** [{file.filename}] inside an f-string. *)
Definition format_filename (file : UploadFile) : string :=
  match filename file with
  | Some s => s
  | None => "None"
  end.

Definition uuid4 : M UUID := fun st =>
  Ret (uuid4_source cfg (uuid_count st)) (set_uuid_count (S (uuid_count st)) st).

(** The block the three upload handlers share (lines 150-169, 191-209,
    241-259); they differ in [folder] and [resource_type] only.  It
    returns [(url, public_id)].  Both branches log the call before its
    outcome is known; the local one raises when the file cannot be
    opened or written. *)
Definition store_upload (file : UploadFile) (folder resource_type : string) : M (pyval * pyval) :=
  if USE_CLOUDINARY cfg then
    modify (log_call (CloudinaryUpload (body file) folder resource_type)) ;;;
    match cloudinary_upload cfg (body file) folder resource_type with
    | inl e => raise (HTTPException 500 ("Cloudinary error: " ++ e))
    | inr result =>
        url <- lift (py_getitem (PDict result) "secure_url") ;;
        public_id <- lift (py_get (PDict result) "public_id" PNone) ;;
        ret (url, public_id)
    end
  else
    let contents := body file in
    u <- uuid4 ;;
    let fname := hex u ++ "_" ++ format_filename file in
    modify (log_call (LocalWrite fname contents)) ;;;
    if local_write_ok cfg fname then
      modify (fun st => set_uploads (<[fname := contents]> (uploads st)) st) ;;;
      ret (PStr ("/uploads/" ++ fname), PStr fname)
    else raise OSError.

(** POST /api/hero-video (lines 142-174). *)
Definition upload_hero_video (file : UploadFile) : M pyval :=
  if negb (UploadFile_bool file) then raise (HTTPException 400 "No file uploaded")
  else
    stored <- store_upload file "thesecretspot/hero/api" "video" ;;
    let url := stored.1 in
    let public_id := stored.2 in
    data <- load_content ;;
    data <- mutate data (fun d => py_setitem d "heroVideo" url) ;;
    save_content data ;;;
    ret (PDict {[ "url" := url; "public_id" := public_id;
                  "message" := PStr "Hero video actualizado" ]}).

(** POST /api/slot-image (lines 178-220). *)
Definition upload_slot_image (slot_key : string) (file : UploadFile) : M pyval :=
  if negb (bool_decide (slot_key ∈ VALID_SLOTS))
  then raise (HTTPException 400 "slot_key inválido")
  else if negb (UploadFile_bool file) then raise (HTTPException 400 "No file uploaded")
  else
    stored <- store_upload file ("thesecretspot/slots/" ++ slot_key ++ "/api") "image" ;;
    let url := stored.1 in
    let public_id := stored.2 in
    data <- load_content ;;
    data <- mutate data (fun d =>
              (let? slots := py_getitem d "slots" in
               let? slots := py_setitem slots slot_key url in
               py_setitem d "slots" slots)%res) ;;
    save_content data ;;;
    ret (PDict {[ "slot_key" := PStr slot_key; "url" := url; "public_id" := public_id;
                  "message" := PStr "Imagen de sección actualizada" ]}).

Definition CATEGORIES : list string :=
  ["damas"; "caballeros"; "ninos"; "manicura"; "pedicura"].

(** POST /api/gallery (lines 229-272). *)
Definition upload_gallery_image (category : string) (file : UploadFile) : M pyval :=
  if negb (UploadFile_bool file) then raise (HTTPException 400 "No file uploaded")
  else if negb (bool_decide (category ∈ CATEGORIES))
  then raise (HTTPException 400 "Categoría inválida")
  else
    stored <- store_upload file ("thesecretspot/gallery/" ++ category) "image" ;;
    let url := stored.1 in
    let public_id := stored.2 in
    u <- uuid4 ;;
    let item := PDict {[ "id" := PStr (str u); "url" := url; "public_id" := public_id;
                         "category" := PStr category ]} in
    data <- load_content ;;
    data <- mutate data (fun d =>
              (let? gallery := py_getitem d "gallery" in
               let? gallery := py_append gallery item in
               py_setitem d "gallery" gallery)%res) ;;
    save_content data ;;;
    ret (PDict {[ "item" := item; "message" := PStr "Imagen añadida a galería" ]}).

(** Lines 284-298: delete the media, whatever happens.  With local
    storage the reference is joined to UPLOADS_DIR as a path, and what that
    path names is unlinked if it exists: an uploaded file, content.json
    itself when the reference climbs out of the directory, or something the
    state does not hold (a directory, as for the empty reference, or a file
    elsewhere). *)
Definition best_effort_delete (item : pyval) : M unit :=
  try_pass (
    if USE_CLOUDINARY cfg then
      public_id <- lift (py_getitem item "public_id") ;;
      modify (log_call (CloudinaryDestroy public_id)) ;;;
      if cloudinary_destroy cfg public_id then ret tt else raise CloudinaryError
    else
      public_id <- lift (py_get item "public_id" (PStr "")) ;;
      match public_id with
      | PStr fname =>
          st <- get_state ;;
          match path_target cfg fname with
          | UploadedFile name =>
              if bool_decide (is_Some (uploads st !! name)) then
                try_pass (
                  modify (log_call (LocalUnlink fname)) ;;;
                  if unlink cfg fname
                  then modify (fun st => set_uploads (delete name (uploads st)) st)
                  else raise OSError)
              else ret tt
          | ContentFile =>
              if bool_decide (is_Some (content_json st)) then
                try_pass (
                  modify (log_call (LocalUnlink fname)) ;;;
                  if unlink cfg fname
                  then modify (set_content_json None)
                  else raise OSError)
              else ret tt
          | OtherPath true => try_pass (modify (log_call (LocalUnlink fname)))
          | OtherPath false => ret tt
          end
      | _ => raise TypeError
      end).

(** DELETE /api/gallery/{item_id} (lines 274-305). *)
Definition delete_gallery_image (item_id : string) : M pyval :=
  data <- load_content ;;
  d <- read data ;;
  gallery <- lift (py_getitem d "gallery") ;;
  items <- lift (py_iter gallery) ;;
  idx <- lift (find_index item_id 0 items) ;;
  match idx with
  | None => raise (HTTPException 404 "Imagen no encontrada")
  | Some idx =>
      item <- lift (py_index gallery idx) ;;
      best_effort_delete item ;;;
      data <- mutate data (fun d =>
                (let? gallery := py_getitem d "gallery" in
                 let? gallery := py_delitem gallery idx in
                 py_setitem d "gallery" gallery)%res) ;;
      save_content data ;;;
      ret (PDict {[ "message" := PStr "Imagen eliminada"; "id" := PStr item_id ]})
  end.

(** The constructor [GalleryItem] applied to the entries of [item] as
    keyword arguments (the double-star call of lines 134 and 227):
    [item] must be a mapping, every field must be there and pass as a
    str, and other entries are ignored. *)
Definition validate_str (m : gmap string pyval) (field : string) : res string :=
  match m !! field with
  | Some v => match pydantic_str cfg v with Some s => inr s | None => inl ValidationError end
  | None => inl ValidationError
  end.

Definition GalleryItem_new (item : pyval) : res GalleryItem.t :=
  match item with
  | PDict m =>
      (let? id := validate_str m "id" in
       let? url := validate_str m "url" in
       let? public_id := validate_str m "public_id" in
       let? category := validate_str m "category" in
       inr (GalleryItem.Make id url public_id category))%res
  | _ => inl TypeError
  end.

Definition validate_optional_str (v : pyval) : res (option string) :=
  match v with
  | PNone => inr None
  | _ => match pydantic_str cfg v with Some s => inr (Some s) | None => inl ValidationError end
  end.

Definition validate_slots (v : pyval) : res (gmap string (option string)) :=
  match v with
  | PDict m =>
      (let? kvs := res_mapM (fun kv : string * pyval =>
                               let? v := validate_optional_str kv.2 in inr (kv.1, v))
                            (map_to_list m) in
       inr (list_to_map kvs))%res
  | _ => inl ValidationError
  end.

(** GET /api/content (lines 129-139). *)
Definition get_content : M ContentResponse.t :=
  data <- load_content ;;
  d <- read data ;;
  gallery_items <- lift (let? g := py_getitem d "gallery" in
                         let? items := py_iter g in
                         res_mapM GalleryItem_new items)%res ;;
  lift (let? hero := py_getitem d "heroVideo" in
        let? slots := py_getitem d "slots" in
        let? hero := validate_optional_str hero in
        let? slots := validate_slots slots in
        inr (ContentResponse.Make hero slots gallery_items))%res.

(** GET /api/gallery (lines 224-227). *)
Definition get_gallery : M (list GalleryItem.t) :=
  data <- load_content ;;
  d <- read data ;;
  lift (let? g := py_getitem d "gallery" in
        let? items := py_iter g in
        res_mapM GalleryItem_new items)%res.

(** The four mutating routes as FastAPI runs them: the dependency first,
    then the handler. *)
Definition POST_hero_video (authorization : option string) (file : UploadFile) : M pyval :=
  Depends_verify_token authorization (upload_hero_video file).

Definition POST_slot_image (authorization : option string) (slot_key : string)
    (file : UploadFile) : M pyval :=
  Depends_verify_token authorization (upload_slot_image slot_key file).

Definition POST_gallery (authorization : option string) (category : string)
    (file : UploadFile) : M pyval :=
  Depends_verify_token authorization (upload_gallery_image category file).

Definition DELETE_gallery (authorization : option string) (item_id : string) : M pyval :=
  Depends_verify_token authorization (delete_gallery_image item_id).

End Handlers.

(** ** Well-formed documents and reachable states *)

Definition is_optional_str (v : pyval) : bool :=
  match v with
  | PNone | PStr _ => true
  | _ => false
  end.

Definition is_str (v : option pyval) : bool :=
  match v with
  | Some (PStr _) => true
  | _ => false
  end.

(** A gallery item of section 3 of the specification: four string fields, the
    category one of the five. *)
Definition is_gallery_item (item : pyval) : bool :=
  match item with
  | PDict m =>
      is_str (m !! "id") && is_str (m !! "url") && is_str (m !! "public_id")
      && match m !! "category" with
         | Some (PStr c) => bool_decide (c ∈ CATEGORIES)
         | _ => false
         end
  | _ => false
  end.

(** The ids of the items of a gallery, in order (items without a string id
    are skipped; a well-formed gallery has none). *)
Definition item_id (item : pyval) : option string :=
  match item with
  | PDict m => match m !! "id" with Some (PStr s) => Some s | _ => None end
  | _ => None
  end.

Definition gallery_ids (g : list pyval) : list string := omap item_id g.

(** A well-formed ContentDocument: an optional hero video, exactly the fixed
    slot keys with optional strings, and a gallery of items with pairwise
    different ids. *)
Definition well_formed (d : pyval) : bool :=
  match d with
  | PDict m =>
      match m !! "heroVideo", m !! "slots", m !! "gallery" with
      | Some hero, Some (PDict s), Some (PList g) =>
          is_optional_str hero
          && bool_decide (dom s = FIXED_SLOT_KEYS)
          && bool_decide (map_Forall (fun _ v => is_optional_str v = true) s)
          && forallb is_gallery_item g
          && bool_decide (NoDup (gallery_ids g))
      | _, _, _ => false
      end
  | _ => false
  end.

(** What every request finds in [DEFAULT_CONTENT]: the dict of lines 48-65
    up to the values that earlier requests wrote into it. *)
Definition default_ok (st : state) : Prop :=
  exists m s,
    DEFAULT_CONTENT st = PDict m /\ m !! "slots" = Some (PDict s) /\
    dom s = FIXED_SLOT_KEYS /\ is_Some (m !! "gallery") /\ is_Some (m !! "heroVideo").

(** The slot keys the persisted file carries, if it holds a document. *)
Definition persisted_slot_keys (st : state) : gset string :=
  match content_json st with
  | Some (Json (PDict m)) =>
      match m !! "slots" with
      | Some (PDict s) => dom s
      | _ => ∅
      end
  | _ => ∅
  end.

(** The result of the merge in closed form: the slots a dict starts the loop
    with (none when the key is missing), and the dict it ends as. *)
Definition slots_view (m : gmap string pyval) : option (gmap string pyval) :=
  match m !! "slots" with
  | None => Some ∅
  | Some (PDict s) => Some s
  | Some _ => None
  end.

Definition merged (dslots : gmap string pyval) (m s : gmap string pyval) : gmap string pyval :=
  let m1 := <["slots" := PDict (s ∪ dslots)]> m in
  let m2 := match m1 !! "gallery" with Some _ => m1 | None => <["gallery" := PList []]> m1 end in
  match m2 !! "heroVideo" with Some _ => m2 | None => <["heroVideo" := PNone]> m2 end.

(** The state [save_content] leaves behind. *)
Definition saved (d : pyval) (st : state) : state :=
  log_call (Save d) (set_content_json (Some (Json d)) st).

(** Configurations and inputs for the concrete runs.  In their file
    system UPLOADS_DIR holds plain files only: a reference without "/" names
    the upload of that name, also behind a leading "./"; "../content.json"
    names the document; the empty reference and the dots name directories;
    no other path exists.  A file name with a "/" in it cannot be written. *)
Definition no_slash (fname : string) : bool :=
  match String.index 0 "/" fname with
  | Some _ => false
  | None => true
  end.

Fixpoint flat_path (fname : string) : path_kind :=
  if String.eqb fname "../content.json" then ContentFile
  else if String.eqb fname "" || String.eqb fname "." || String.eqb fname ".."
       then OtherPath true
  else if no_slash fname then UploadedFile fname
  else match fname with
       | String c (String c' rest) =>
           if String.eqb (String c (String c' "")) "./" then flat_path rest
           else OtherPath false
       | _ => OtherPath false
       end.

Definition local_config : config :=
  Config "123456" false (fun _ _ _ => inl "unreachable") (fun _ => true) (fun _ => true)
         (fun n => Build_UUID ("00aa" ++ String (Ascii.ascii_of_nat (48 + n)) "")
                              ("00aa-" ++ String (Ascii.ascii_of_nat (48 + n)) ""))
         (fun v => match v with PStr s => Some s | _ => None end)
         flat_path no_slash.

Definition cloud_config : config :=
  Config "123456" true
         (fun _ folder _ => inr {[ "secure_url" := PStr ("https://cdn/" ++ folder);
                                   "public_id" := PStr folder ]})
         (fun _ => false) (fun _ => false)
         (fun n => Build_UUID ("00aa" ++ String (Ascii.ascii_of_nat (48 + n)) "")
                              ("00aa-" ++ String (Ascii.ascii_of_nat (48 + n)) ""))
         (fun v => match v with PStr s => Some s | _ => None end)
         flat_path no_slash.

(** The slot keys of a document. *)
Definition slot_keys (d : pyval) : option (gset string) :=
  match d with
  | PDict m => match m !! "slots" with Some (PDict s) => Some (dom s) | _ => None end
  | _ => None
  end.

(** A persisted document with a slot key of its own. *)
Definition promo_document : pyval :=
  PDict {[ "slots" := PDict {[ "promo" := PNone ]} ]}.

(** A well-formed document with content. *)
Definition sample_item (id category : string) : pyval :=
  PDict {[ "id" := PStr id; "url" := PStr ("https://cdn/" ++ id ++ ".jpg");
           "public_id" := PStr id; "category" := PStr category ]}.

Definition sample_gallery : list pyval :=
  [sample_item "a1" "damas"; sample_item "b2" "ninos"].

Definition sample_fields : gmap string pyval :=
  {[ "heroVideo" := PStr "https://cdn/x.mp4";
     "slots" := PDict (<["about_img" := PStr "https://cdn/about.jpg"]> default_slots);
     "gallery" := PList sample_gallery ]}.

Definition sample_document : pyval := PDict sample_fields.

Definition sample_on_disk : state := initial_state (Some (Json sample_document)) ∅.

(** What loading [promo_document] gives. *)
Definition promo_loaded : pyval :=
  PDict {[ "heroVideo" := PNone; "gallery" := PList [];
           "slots" := PDict (<["promo" := PNone]> default_slots) ]}.

(** What a request leaves behind, and what it answers. *)
Definition final_state {A} (o : outcome A) : state :=
  match o with
  | Ret _ st | Raise _ st | Blocked st => st
  end.

Definition returned {A} (o : outcome A) : option A :=
  match o with
  | Ret a _ => Some a
  | _ => None
  end.

(** The error of a request that does not pass the token dependency. *)
Definition gate_error (authorization : option string) : exn :=
  match authorization with
  | Some _ => HTTPException 401 "Unauthorized"
  | None => RequestValidationError
  end.

(** Uploads for the concrete runs: a video, and a part of zero bytes. *)
Definition video_upload : UploadFile := Build_UploadFile (Some "v.mp4") "VIDEO".
Definition empty_upload : UploadFile := Build_UploadFile (Some "a.png") "".

(** A run in which content.json holds bytes that are not JSON twice: at
    start-up, when an authorised client posts a hero video (which repairs
    the file), and again later, before the next read. *)
Definition garbage_at_startup : state := initial_state (Some Garbage) ∅.

Definition after_hero_update : state :=
  final_state (POST_hero_video local_config (Some "Bearer 123456") video_upload
                               garbage_at_startup).

Definition garbage_again : state := set_content_json (Some Garbage) after_hero_update.

(** A document on disk, local storage, nothing uploaded yet. *)
Definition fresh_document_on_disk : state := initial_state (Some (Json default_document)) ∅.

Definition default_with_hero (url : string) : pyval :=
  PDict {[ "heroVideo" := PStr url; "slots" := PDict default_slots; "gallery" := PList [] ]}.

(** A computation that leaves [DEFAULT_CONTENT] in the shape [default_ok]
    describes, however it ends. *)
Definition keeps_default_ok {A} (c : M A) : Prop :=
  forall st, default_ok st -> default_ok (final_state (c st)).

(** ** Further notions for the properties of the routes *)

(** The slots [load_content] backfills from: those of [DEFAULT_CONTENT] as
    it is at the time of the call. *)
Definition current_default_slots (st : state) : gmap string pyval :=
  match DEFAULT_CONTENT st with
  | PDict m => match m !! "slots" with Some (PDict s) => s | _ => ∅ end
  | _ => ∅
  end.

(** A persisted document the merge has nothing to add to: the three fields
    are there and the slots have every fixed key.  Nothing is asked of the
    values, nor of the gallery. *)
Definition complete (d : pyval) : bool :=
  match d with
  | PDict m =>
      match m !! "heroVideo", m !! "slots", m !! "gallery" with
      | Some _, Some (PDict s), Some _ => bool_decide (FIXED_SLOT_KEYS ⊆ dom s)
      | _, _, _ => false
      end
  | _ => false
  end.

(** [it["id"] == item_id] evaluates to false: the entry has an "id", and it
    is not that string. *)
Definition id_differs (id : string) (it : pyval) : bool :=
  match py_getitem it "id" with
  | inr v => negb (py_eq_str v id)
  | inl _ => false
  end.

(** A computation that hands [LOCK] back as it found it whenever it returns
    or raises. *)
Definition lock_neutral {A} (c : M A) : Prop :=
  forall st,
    match c st with
    | Ret _ st' | Raise _ st' => LOCK st' = LOCK st
    | Blocked _ => True
    end.

(** A call to the media backend that stores something. *)
Definition is_store_call (c : call) : bool :=
  match c with
  | CloudinaryUpload _ _ _ | LocalWrite _ _ => true
  | _ => false
  end.

Definition is_save_call (c : call) : bool :=
  match c with
  | Save _ => true
  | _ => false
  end.

(** A Cloudinary account that refuses every upload. *)
Definition failing_cloud_config : config :=
  Config "123456" true (fun _ _ _ => inl "quota exceeded") (fun _ => false) (fun _ => false)
         (fun n => Build_UUID ("00aa" ++ String (Ascii.ascii_of_nat (48 + n)) "")
                              ("00aa-" ++ String (Ascii.ascii_of_nat (48 + n)) ""))
         (fun v => match v with PStr s => Some s | _ => None end)
         flat_path no_slash.

(** A gallery in which two entries carry the same id, and one that has an
    entry without id in front. *)
Definition twin_fields : gmap string pyval :=
  {[ "heroVideo" := PNone; "slots" := PDict default_slots;
     "gallery" := PList [sample_item "a1" "damas"; sample_item "b2" "ninos";
                         sample_item "a1" "manicura"] ]}.

Definition twin_on_disk : state := initial_state (Some (Json (PDict twin_fields))) ∅.

Definition broken_fields : gmap string pyval :=
  {[ "heroVideo" := PNone; "slots" := PDict default_slots;
     "gallery" := PList [PDict {[ "url" := PStr "https://cdn/x.jpg" ]};
                         sample_item "a1" "damas"] ]}.

Definition broken_on_disk : state := initial_state (Some (Json (PDict broken_fields))) ∅.

(** The response a well-formed document is projected to: strings as they
    are, null as None. *)
Definition to_optional_str (v : pyval) : option string :=
  match v with
  | PStr s => Some s
  | _ => None
  end.

Definition field_str (m : gmap string pyval) (field : string) : string :=
  match m !! field with
  | Some (PStr s) => s
  | _ => ""
  end.

Definition GalleryItem_of (item : pyval) : GalleryItem.t :=
  match item with
  | PDict m =>
      GalleryItem.Make (field_str m "id") (field_str m "url") (field_str m "public_id")
                       (field_str m "category")
  | _ => GalleryItem.Make "" "" "" ""
  end.

(** A request after which content.json holds a well-formed document. *)
Definition leaves_well_formed {A} (o : outcome A) : Prop :=
  exists d, content_json (final_state o) = Some (Json d) /\ well_formed d = true.

(** ** What the module reads from the environment (lines 25-29 and 36) *)
Module Startup.

(** [os.environ]: the variables that are set, with their values. *)
Definition environ := gmap string string.

(** The truth value of what [os.environ.get(name)] returns: None and the
    empty string are false. *)
Definition truthy (v : option string) : bool :=
  match v with
  | Some s => negb (String.eqb s "")
  | None => false
  end.

(** [a and b]: [a] when it is false, else [b]. *)
Definition py_and (a b : option string) : option string :=
  if truthy a then b else a.

Definition USE_CLOUDINARY (env : environ) : bool :=
  truthy (py_and (py_and (env !! "CLOUDINARY_CLOUDNAME") (env !! "CLOUDINARY_APIKEY"))
                 (env !! "CLOUDINARY_APISECRET")).

Definition ADMIN_TOKEN (env : environ) : string :=
  default "123456" (env !! "ADMIN_TOKEN").

End Startup.

(** A variable that is set to something other than the empty string. *)
Definition is_set (env : Startup.environ) (name : string) : Prop :=
  exists s, env !! name = Some s /\ s <> "".

(** Environments for the concrete runs. *)
Definition full_environ : Startup.environ :=
  {[ "CLOUDINARY_CLOUDNAME" := "spot"; "CLOUDINARY_APIKEY" := "key";
     "CLOUDINARY_APISECRET" := "secret"; "ADMIN_TOKEN" := "s3cret" ]}.

Definition secret_config : config :=
  Config (Startup.ADMIN_TOKEN full_environ) (Startup.USE_CLOUDINARY full_environ)
         (fun _ _ _ => inl "unreachable") (fun _ => true) (fun _ => true)
         (fun n => Build_UUID "00aa" "00aa-") (fun _ => None) flat_path no_slash.

(** The answer of GET /api/content for the default document. *)
Definition default_response : ContentResponse.t :=
  ContentResponse.Make None (to_optional_str <$> default_slots) [].

(** * Properties *)

(** Closed equations between concrete maps and states are decided by
    evaluation. *)
Ltac by_evaluation :=
  match goal with
  | |- ?a = _ => vm_cast_no_check (@eq_refl _ a)
  end.

(** ** Dict and merge lemmas *)

Lemma foldl_setdefault_union (items : list (string * pyval)) (s : gmap string pyval) :
  foldl (fun acc kv => dict_setdefault kv.1 kv.2 acc) s items = s ∪ list_to_map items.
Proof.
  revert s. induction items as [|[k v] items IH]; intros s; cbn [foldl].
  - cbn. by rewrite (right_id_L ∅ (∪)).
  - rewrite IH. cbn [list_to_map foldr fst snd]. unfold dict_setdefault.
    apply map_eq. intros i. destruct (s !! k) as [x|] eqn:Hk.
    + rewrite !lookup_union. destruct (decide (i = k)) as [->|Hne].
      * rewrite Hk. by rewrite lookup_insert_eq; destruct (list_to_map items !! k).
      * by rewrite lookup_insert_ne.
    + rewrite !lookup_union. destruct (decide (i = k)) as [->|Hne].
      * rewrite Hk, !lookup_insert_eq. by destruct (list_to_map items !! k).
      * by rewrite !lookup_insert_ne.
Qed.

Lemma merge_step_present (m s : gmap string pyval) (kv : string * pyval) :
  m !! "slots" = Some (PDict s) ->
  merge_step (PDict m) kv = inr (PDict (<["slots" := PDict (dict_setdefault kv.1 kv.2 s)]> m)).
Proof.
  intros Hs. unfold merge_step. cbn [py_contains res_bind].
  rewrite bool_decide_eq_true_2 by (rewrite Hs; eauto).
  cbn [negb py_getitem res_bind]. rewrite Hs. reflexivity.
Qed.

Lemma merge_step_absent (m : gmap string pyval) (kv : string * pyval) :
  m !! "slots" = None ->
  merge_step (PDict m) kv = inr (PDict (<["slots" := PDict (dict_setdefault kv.1 kv.2 ∅)]> m)).
Proof.
  intros Hs. unfold merge_step. cbn [py_contains res_bind].
  rewrite bool_decide_eq_false_2 by (rewrite Hs; intros [? ?]; discriminate).
  cbn [negb py_setitem py_getitem res_bind]. rewrite lookup_insert_eq.
  cbn [py_setdefault res_bind py_setitem]. by rewrite insert_insert_eq.
Qed.

Lemma merge_step_bad_slots (m : gmap string pyval) (v : pyval) (kv : string * pyval) :
  m !! "slots" = Some v -> (forall s, v <> PDict s) ->
  merge_step (PDict m) kv = inl (AttributeError "setdefault").
Proof.
  intros Hs Hv. unfold merge_step. cbn [py_contains res_bind].
  rewrite bool_decide_eq_true_2 by (rewrite Hs; eauto).
  cbn [negb py_getitem res_bind]. rewrite Hs.
  destruct v; try reflexivity. by destruct (Hv m0).
Qed.

Lemma merge_step_not_dict (d : pyval) (kv : string * pyval) :
  (forall m, d <> PDict m) -> merge_step d kv = inl TypeError.
Proof.
  intros Hd. unfold merge_step. destruct d; cbn [py_contains res_bind]; try reflexivity.
  - by destruct (negb _).
  - by destruct (negb _).
  - by destruct (Hd m).
Qed.

Lemma merge_slots_present (items : list (string * pyval)) (m s : gmap string pyval) :
  m !! "slots" = Some (PDict s) ->
  merge_slots items (PDict m) = inr (PDict (<["slots" := PDict (s ∪ list_to_map items)]> m)).
Proof.
  rewrite <- foldl_setdefault_union. revert m s.
  induction items as [|kv items IH]; intros m s Hs; cbn [merge_slots foldl].
  - by rewrite insert_id.
  - rewrite (merge_step_present m s kv Hs). cbn [res_bind].
    rewrite (IH _ (dict_setdefault kv.1 kv.2 s)) by apply lookup_insert_eq.
    by rewrite insert_insert_eq.
Qed.

Lemma merge_slots_dict (items : list (string * pyval)) (m s : gmap string pyval) :
  items <> [] -> slots_view m = Some s ->
  merge_slots items (PDict m) = inr (PDict (<["slots" := PDict (s ∪ list_to_map items)]> m)).
Proof.
  intros Hne Hv. unfold slots_view in Hv.
  destruct (m !! "slots") as [v|] eqn:Hs.
  - destruct v; try discriminate. injection Hv as ->. by apply merge_slots_present.
  - injection Hv as <-. destruct items as [|kv items]; [done|].
    cbn [merge_slots]. rewrite (merge_step_absent m kv Hs). cbn [res_bind].
    rewrite (merge_slots_present items _ (dict_setdefault kv.1 kv.2 ∅)) by apply lookup_insert_eq.
    rewrite insert_insert_eq. do 3 f_equal.
    rewrite <- !foldl_setdefault_union. reflexivity.
Qed.

Lemma merge_defaults_dict (dslots m s : gmap string pyval) :
  dslots <> ∅ -> slots_view m = Some s ->
  merge_defaults (map_to_list dslots) (PDict m) = inr (PDict (merged dslots m s)).
Proof.
  intros Hne Hv. unfold merge_defaults.
  rewrite (merge_slots_dict _ m s) by (by rewrite ?map_to_list_empty_iff).
  rewrite list_to_map_to_list. cbn [res_bind py_contains]. unfold merged.
  set (m1 := <["slots" := PDict (s ∪ dslots)]> m).
  destruct (m1 !! "gallery") as [g|] eqn:Hg.
  - rewrite bool_decide_eq_true_2 by eauto. cbn [negb res_bind py_contains].
    destruct (m1 !! "heroVideo") as [h|] eqn:Hh.
    + by rewrite bool_decide_eq_true_2 by eauto.
    + by rewrite bool_decide_eq_false_2 by (intros [? ?]; discriminate).
  - rewrite bool_decide_eq_false_2 by (intros [? ?]; discriminate).
    cbn [negb res_bind py_setitem py_contains].
    destruct (<["gallery" := PList []]> m1 !! "heroVideo") as [h|] eqn:Hh.
    + by rewrite bool_decide_eq_true_2 by eauto.
    + by rewrite bool_decide_eq_false_2 by (intros [? ?]; discriminate).
Qed.

Lemma merge_slots_raises (items : list (string * pyval)) (d : pyval) :
  items <> [] ->
  (forall m, d = PDict m -> slots_view m = None) ->
  exists e, merge_slots items d = inl e.
Proof.
  intros Hne Hd. destruct items as [|kv items]; [done|]. cbn [merge_slots].
  destruct d as [| | | | | |m];
    try (rewrite merge_step_not_dict by (intros ?; discriminate); by eexists).
  specialize (Hd m eq_refl). unfold slots_view in Hd.
  destruct (m !! "slots") as [v|] eqn:Hs; [|discriminate].
  rewrite (merge_step_bad_slots m v kv Hs).
  - by eexists.
  - intros s ->. discriminate.
Qed.

Lemma merge_defaults_inv (dslots : gmap string pyval) (d d' : pyval) :
  dslots <> ∅ -> merge_defaults (map_to_list dslots) d = inr d' ->
  exists m s, d = PDict m /\ slots_view m = Some s /\ d' = PDict (merged dslots m s).
Proof.
  intros Hne Hm.
  assert (Hitems : map_to_list dslots <> []) by (by rewrite map_to_list_empty_iff).
  destruct d as [| | | | | |m].
  1-6: match type of Hm with
       | merge_defaults _ ?d = _ =>
           destruct (merge_slots_raises (map_to_list dslots) d Hitems) as [e He];
           [ intros ? ?; discriminate
           | unfold merge_defaults in Hm; rewrite He in Hm; discriminate ]
       end.
  destruct (slots_view m) as [s|] eqn:Hv.
  - exists m, s. rewrite (merge_defaults_dict dslots m s Hne Hv) in Hm.
    by injection Hm as <-.
  - destruct (merge_slots_raises (map_to_list dslots) (PDict m) Hitems) as [e He].
    + intros ? [= <-]. done.
    + unfold merge_defaults in Hm; rewrite He in Hm; discriminate.
Qed.

Lemma union_covered (s dslots : gmap string pyval) :
  dom dslots ⊆ dom s -> s ∪ dslots = s.
Proof.
  intros Hsub. apply map_eq. intros i. rewrite lookup_union.
  destruct (s !! i) as [x|] eqn:Hi.
  - by destruct (dslots !! i).
  - apply not_elem_of_dom in Hi.
    assert (Hd : i ∉ dom dslots) by set_solver.
    apply not_elem_of_dom in Hd. by rewrite Hd.
Qed.

Lemma merged_id (dslots m s : gmap string pyval) :
  m !! "slots" = Some (PDict s) -> dom dslots ⊆ dom s ->
  is_Some (m !! "gallery") -> is_Some (m !! "heroVideo") ->
  merged dslots m s = m.
Proof.
  intros Hs Hsub [g Hg] [h Hh]. unfold merged.
  rewrite (union_covered _ _ Hsub), (insert_id _ _ _ Hs), Hg, Hh. reflexivity.
Qed.

Lemma merged_slots (dslots m s : gmap string pyval) :
  merged dslots m s !! "slots" = Some (PDict (s ∪ dslots)).
Proof.
  unfold merged. set (m1 := <["slots" := PDict (s ∪ dslots)]> m).
  assert (H1 : m1 !! "slots" = Some (PDict (s ∪ dslots))) by apply lookup_insert_eq.
  destruct (m1 !! "gallery"); [destruct (m1 !! "heroVideo")|
    destruct (<["gallery" := PList []]> m1 !! "heroVideo")];
    rewrite ?lookup_insert_ne by done; done.
Qed.

Lemma merged_gallery (dslots m s : gmap string pyval) :
  merged dslots m s !! "gallery" = Some (default (PList []) (m !! "gallery")).
Proof.
  unfold merged. set (m1 := <["slots" := PDict (s ∪ dslots)]> m).
  assert (H1 : m1 !! "gallery" = m !! "gallery") by (by apply lookup_insert_ne).
  rewrite H1. destruct (m !! "gallery") as [g|] eqn:Hg.
  - destruct (m1 !! "heroVideo"); rewrite ?lookup_insert_ne by done; by rewrite H1.
  - destruct (<["gallery" := PList []]> m1 !! "heroVideo");
      rewrite ?lookup_insert_ne by done; by rewrite lookup_insert_eq.
Qed.

Lemma merged_heroVideo (dslots m s : gmap string pyval) :
  merged dslots m s !! "heroVideo" = Some (default PNone (m !! "heroVideo")).
Proof.
  unfold merged. set (m1 := <["slots" := PDict (s ∪ dslots)]> m).
  assert (H1 : m1 !! "heroVideo" = m !! "heroVideo") by (by apply lookup_insert_ne).
  destruct (m1 !! "gallery").
  - rewrite H1. destruct (m !! "heroVideo") eqn:Hh; [by rewrite H1|by rewrite lookup_insert_eq].
  - rewrite lookup_insert_ne by done. rewrite H1.
    destruct (m !! "heroVideo") eqn:Hh.
    + rewrite lookup_insert_ne by done. by rewrite H1.
    + by rewrite lookup_insert_eq.
Qed.

Lemma merged_twice (dslots m s : gmap string pyval) :
  merged dslots (merged dslots m s) (s ∪ dslots) = merged dslots m s.
Proof.
  apply merged_id.
  - apply merged_slots.
  - rewrite dom_union_L. set_solver.
  - rewrite merged_gallery. eauto.
  - rewrite merged_heroVideo. eauto.
Qed.

(** ** The content store on its three paths *)

Lemma relock (st : state) : LOCK st = false -> set_LOCK false (set_LOCK true st) = st.
Proof. destruct st; cbn. by intros ->. Qed.

Lemma default_ok_items (st : state) :
  default_ok st ->
  exists m s, DEFAULT_CONTENT st = PDict m /\ m !! "slots" = Some (PDict s) /\
              dom s = FIXED_SLOT_KEYS /\ s <> ∅ /\ merged s m s = m.
Proof.
  intros (m & s & Hd & Hs & Hdom & Hg & Hh). exists m, s. repeat split; try done.
  - intros ->. rewrite dom_empty_L in Hdom. unfold FIXED_SLOT_KEYS in Hdom. set_solver.
  - by apply merged_id.
Qed.

Lemma load_content_missing (dc : pyval) (u : gmap string string) (n : nat) (log : list call) :
  load_content (State None dc false u n log) = Blocked (State None dc true u n log).
Proof. reflexivity. Qed.

Lemma load_content_garbage (st : state) :
  LOCK st = false -> default_ok st -> content_json st = Some Garbage ->
  load_content st = Ret Shared st.
Proof.
  intros Hl Hok Hf. destruct (default_ok_items st Hok) as (m & s & Hd & Hs & Hdom & Hne & Hid).
  unfold load_content, with_LOCK, bind, get_state, read, lift, mutate. rewrite Hl.
  cbn [content_json set_LOCK]. rewrite Hf.
  cbn [DEFAULT_CONTENT set_LOCK deref]. rewrite Hd.
  cbn [py_getitem res_bind]. rewrite Hs.
  cbn [py_items res_bind DEFAULT_CONTENT set_LOCK deref]. rewrite Hd.
  rewrite (merge_defaults_dict s m s Hne) by (unfold slots_view; by rewrite Hs).
  rewrite Hid. destruct st; cbn in *; subst. reflexivity.
Qed.

Lemma load_content_json (st : state) (v : pyval) (m s : gmap string pyval) :
  LOCK st = false -> DEFAULT_CONTENT st = PDict m -> m !! "slots" = Some (PDict s) ->
  content_json st = Some (Json v) ->
  load_content st =
    match merge_defaults (map_to_list s) v with
    | inr d => Ret (Owned d) st
    | inl e => Raise e st
    end.
Proof.
  intros Hl Hd Hs Hf.
  unfold load_content, with_LOCK, bind, get_state, read, lift, mutate. rewrite Hl.
  cbn [content_json set_LOCK]. rewrite Hf.
  cbn [DEFAULT_CONTENT set_LOCK deref]. rewrite Hd.
  cbn [py_getitem res_bind]. rewrite Hs. cbn [py_items res_bind deref].
  destruct (merge_defaults (map_to_list s) v); by rewrite relock.
Qed.

Lemma VALID_SLOTS_fixed : VALID_SLOTS = FIXED_SLOT_KEYS.
Proof. by_evaluation. Qed.

Lemma default_ok_initial (file : option file_content) (dir : gmap string string) :
  default_ok (initial_state file dir).
Proof.
  exists {[ "heroVideo" := PNone; "slots" := PDict default_slots; "gallery" := PList [] ]},
         default_slots.
  repeat split; try (by_evaluation); vm_compute; eauto.
Qed.

Lemma well_formed_inv (d : pyval) :
  well_formed d = true ->
  exists m hero s g,
    d = PDict m /\ m !! "heroVideo" = Some hero /\ m !! "slots" = Some (PDict s) /\
    m !! "gallery" = Some (PList g) /\ dom s = FIXED_SLOT_KEYS /\
    forallb is_gallery_item g = true /\ NoDup (gallery_ids g).
Proof.
  destruct d as [| | | | | |m]; try discriminate. cbn [well_formed].
  destruct (m !! "heroVideo") as [hero|] eqn:Hh; [|discriminate].
  destruct (m !! "slots") as [[| | | | | |s]|] eqn:Hs; try discriminate.
  destruct (m !! "gallery") as [[| | | | |g|]|] eqn:Hg; try discriminate.
  rewrite !andb_true_iff, !bool_decide_eq_true.
  intros ((((_ & Hdom) & _) & Hitems) & Hnd). by exists m, hero, s, g.
Qed.

Lemma merge_defaults_well_formed (dslots : gmap string pyval) (d : pyval) :
  dom dslots = FIXED_SLOT_KEYS -> well_formed d = true ->
  merge_defaults (map_to_list dslots) d = inr d.
Proof.
  intros Hdom Hwf.
  destruct (well_formed_inv d Hwf) as (m & hero & s & g & -> & Hh & Hs & Hg & Hds & _).
  assert (Hne : dslots <> ∅).
  { intros ->. rewrite dom_empty_L in Hdom. unfold FIXED_SLOT_KEYS in Hdom. set_solver. }
  rewrite (merge_defaults_dict dslots m s Hne) by (unfold slots_view; by rewrite Hs).
  rewrite merged_id; eauto. by rewrite Hdom, Hds.
Qed.

(** ** The claims *)

(** C1 (as the code has it).  Whatever [load_content] returns has every
    fixed slot key, and keeps the slot keys the persisted file had besides:
    the key set of the returned slots is the fixed set united with the
    persisted slot keys, hence exactly the fixed set when the file carried
    no other slot key. *)
Theorem C1_load_slot_keys (st st' : state) (data : docref) :
  default_ok st -> load_content st = Ret data st' ->
  slot_keys (deref st' data) = Some (FIXED_SLOT_KEYS ∪ persisted_slot_keys st) /\
  (persisted_slot_keys st ⊆ FIXED_SLOT_KEYS ->
   slot_keys (deref st' data) = Some FIXED_SLOT_KEYS).
Proof.
  intros Hok Hload.
  assert (Hkeys : slot_keys (deref st' data) = Some (FIXED_SLOT_KEYS ∪ persisted_slot_keys st)).
  { destruct (LOCK st) eqn:Hl.
    { unfold load_content, with_LOCK in Hload. rewrite Hl in Hload. discriminate. }
    destruct (content_json st) as [[|v]|] eqn:Hf.
    - rewrite (load_content_garbage st Hl Hok Hf) in Hload. injection Hload as <- <-.
      destruct Hok as (m & s & Hd & Hs & Hdom & _). cbn [deref]. rewrite Hd.
      unfold slot_keys, persisted_slot_keys. rewrite Hs, Hf, Hdom. f_equal; set_solver.
    - destruct (default_ok_items st Hok) as (m & s & Hd & Hs & Hdom & Hne & _).
      rewrite (load_content_json st v m s Hl Hd Hs Hf) in Hload.
      destruct (merge_defaults (map_to_list s) v) as [e|d'] eqn:Hm; [discriminate|].
      injection Hload as <- <-.
      destruct (merge_defaults_inv s v d' Hne Hm) as (m0 & s0 & -> & Hv & ->).
      cbn [deref slot_keys]. rewrite merged_slots, dom_union_L, Hdom.
      unfold persisted_slot_keys. rewrite Hf. unfold slots_view in Hv.
      generalize FIXED_SLOT_KEYS. intros F.
      destruct (m0 !! "slots") as [[| | | | | |s1]|]; try discriminate;
        injection Hv as <-; f_equal; set_solver.
    - unfold load_content, with_LOCK, bind, get_state in Hload. rewrite Hl in Hload.
      cbn [content_json set_LOCK] in Hload. rewrite Hf in Hload.
      unfold save_content, with_LOCK in Hload. cbn in Hload. discriminate. }
  split; [done|]. intros Hsub. rewrite Hkeys. f_equal.
  revert Hsub. generalize (persisted_slot_keys st), FIXED_SLOT_KEYS. set_solver.
Qed.

(** C2 (what the code does).  With no content.json on disk, [load_content]
    takes [LOCK] and calls [save_content], which waits for the same lock:
    neither returns, nothing is written, and GET /api/content hangs with it. *)
Theorem C2_load_blocks_when_file_is_missing (cfg : config) (dc : pyval)
    (dir : gmap string string) (n : nat) (log : list call) :
  load_content (State None dc false dir n log) = Blocked (State None dc true dir n log) /\
  get_content cfg (State None dc false dir n log) = Blocked (State None dc true dir n log).
Proof. split; reflexivity. Qed.

(** C3.  Saving a well-formed document and loading it again returns that
    document, field for field. *)
Theorem C3_save_then_load (st : state) (d : pyval) :
  LOCK st = false -> default_ok st -> well_formed d = true ->
  save_content (Owned d) st = Ret tt (saved d st) /\
  load_content (saved d st) = Ret (Owned d) (saved d st).
Proof.
  intros Hl Hok Hwf. split.
  - unfold save_content, with_LOCK, bind, read, modify, saved. rewrite Hl.
    cbn [deref]. destruct st; cbn in *; subst. reflexivity.
  - destruct Hok as (m & s & Hd & Hs & Hdom & _).
    rewrite (load_content_json (saved d st) d m s); try done.
    by rewrite merge_defaults_well_formed.
Qed.

(** C5.  The merge of the defaults is the identity on a well-formed
    document, and merging the result of a merge changes nothing. *)
Theorem C5_merge_idempotent (dslots : gmap string pyval) (d : pyval) :
  dom dslots = FIXED_SLOT_KEYS ->
  (well_formed d = true -> merge_defaults (map_to_list dslots) d = inr d) /\
  (forall d', merge_defaults (map_to_list dslots) d = inr d' ->
              merge_defaults (map_to_list dslots) d' = inr d').
Proof.
  intros Hdom. split; [by apply merge_defaults_well_formed|].
  intros d' Hm.
  assert (Hne : dslots <> ∅).
  { intros ->. rewrite dom_empty_L in Hdom. unfold FIXED_SLOT_KEYS in Hdom. set_solver. }
  destruct (merge_defaults_inv dslots d d' Hne Hm) as (m & s & -> & Hv & ->).
  rewrite (merge_defaults_dict dslots _ (s ∪ dslots) Hne).
  - by rewrite merged_twice.
  - unfold slots_view. by rewrite merged_slots.
Qed.

Lemma C1_load_slot_keys_witness :
  slot_keys sample_document
  = Some (FIXED_SLOT_KEYS ∪ persisted_slot_keys (initial_state (Some (Json sample_document)) ∅)) /\
  (persisted_slot_keys (initial_state (Some (Json sample_document)) ∅) ⊆ FIXED_SLOT_KEYS ->
   slot_keys sample_document = Some FIXED_SLOT_KEYS).
Proof.
  apply (C1_load_slot_keys (initial_state (Some (Json sample_document)) ∅)
                           (initial_state (Some (Json sample_document)) ∅)
                           (Owned sample_document)).
  - apply default_ok_initial.
  - by_evaluation.
Defined.

(** C1 as stated fails: a slot key that the persisted file has beyond the
    fixed twelve is still there after the load. *)
Lemma C1_extra_slot_key_survives_load :
  load_content (initial_state (Some (Json promo_document)) ∅)
  = Ret (Owned promo_loaded) (initial_state (Some (Json promo_document)) ∅) /\
  slot_keys promo_loaded = Some (FIXED_SLOT_KEYS ∪ {["promo"]}) /\
  FIXED_SLOT_KEYS ∪ {["promo"]} <> FIXED_SLOT_KEYS.
Proof.
  split; [by_evaluation|]. split; [by_evaluation|].
  intros H.
  assert (Hin : "promo" ∈ FIXED_SLOT_KEYS).
  { rewrite <- H. apply elem_of_union_r. by apply elem_of_singleton. }
  revert Hin. apply (bool_decide_unpack _). vm_compute. exact I.
Qed.

Lemma C3_save_then_load_witness :
  save_content (Owned sample_document) (initial_state None ∅)
  = Ret tt (saved sample_document (initial_state None ∅)) /\
  load_content (saved sample_document (initial_state None ∅))
  = Ret (Owned sample_document) (saved sample_document (initial_state None ∅)).
Proof.
  apply (C3_save_then_load (initial_state None ∅) sample_document).
  - reflexivity.
  - apply default_ok_initial.
  - by_evaluation.
Defined.

Lemma C5_merge_idempotent_witness :
  (well_formed sample_document = true ->
   merge_defaults (map_to_list default_slots) sample_document = inr sample_document) /\
  (forall d', merge_defaults (map_to_list default_slots) promo_document = inr d' ->
              merge_defaults (map_to_list default_slots) d' = inr d').
Proof.
  split.
  - apply (C5_merge_idempotent default_slots sample_document). by_evaluation.
  - apply (C5_merge_idempotent default_slots promo_document). by_evaluation.
Defined.

(** A corrupt file and a pristine [DEFAULT_CONTENT]: the load returns the
    default document and leaves the file and the call log alone. *)
Lemma load_content_garbage_pristine (st : state) :
  LOCK st = false -> DEFAULT_CONTENT st = default_document ->
  content_json st = Some Garbage ->
  load_content st = Ret Shared st /\ deref st Shared = default_document.
Proof.
  intros Hl Hd Hf. split; [|exact Hd]. apply load_content_garbage; try done.
  destruct (default_ok_initial None ∅) as (m & s & Hm & H). exists m, s.
  split; [|exact H]. rewrite Hd. exact Hm.
Qed.

(** C4 (what the code does).  [load_content] answers a corrupt file with the
    object [DEFAULT_CONTENT] itself, and the handlers write into what they
    get: after one update made while the file was corrupt, a later load of
    a corrupt file returns the updated hero video instead of null.  The
    load itself leaves the corrupt file as it is. *)
Theorem C4_corrupt_load_returns_mutated_default :
  POST_hero_video local_config (Some "Bearer 123456") video_upload garbage_at_startup
  = Ret (PDict {[ "url" := PStr "/uploads/00aa0_v.mp4"; "public_id" := PStr "00aa0_v.mp4";
                  "message" := PStr "Hero video actualizado" ]}) after_hero_update /\
  DEFAULT_CONTENT after_hero_update = default_with_hero "/uploads/00aa0_v.mp4" /\
  load_content garbage_again = Ret Shared garbage_again /\
  content_json garbage_again = Some Garbage /\
  py_getitem (deref garbage_again Shared) "heroVideo" = inr (PStr "/uploads/00aa0_v.mp4").
Proof.
  split; [by_evaluation|]. split; [by_evaluation|]. split; [by_evaluation|].
  split; by_evaluation.
Qed.

(** C6.  A slot key outside the fixed set, or a category outside the five,
    is answered with a 400 before anything is stored or saved: the state,
    and with it the persisted document and the call log, is unchanged. *)
Theorem C6_invalid_key_or_category_rejected (cfg : config) (st : state) (file : UploadFile)
    (slot_key category : string) :
  slot_key ∉ FIXED_SLOT_KEYS -> category ∉ CATEGORIES ->
  upload_slot_image cfg slot_key file st
  = Raise (HTTPException 400 "slot_key inválido") st /\
  upload_gallery_image cfg category file st
  = Raise (HTTPException 400 "Categoría inválida") st /\
  POST_slot_image cfg (Some ("Bearer " ++ ADMIN_TOKEN cfg)) slot_key file st
  = Raise (HTTPException 400 "slot_key inválido") st /\
  POST_gallery cfg (Some ("Bearer " ++ ADMIN_TOKEN cfg)) category file st
  = Raise (HTTPException 400 "Categoría inválida") st.
Proof.
  intros Hk Hc.
  assert (Hslot : upload_slot_image cfg slot_key file st
                  = Raise (HTTPException 400 "slot_key inválido") st).
  { unfold upload_slot_image. rewrite VALID_SLOTS_fixed.
    by rewrite bool_decide_eq_false_2. }
  assert (Hgal : upload_gallery_image cfg category file st
                 = Raise (HTTPException 400 "Categoría inválida") st).
  { unfold upload_gallery_image. cbn [UploadFile_bool negb].
    by rewrite bool_decide_eq_false_2. }
  repeat split; try done.
  - unfold POST_slot_image, Depends_verify_token, verify_token, bind.
    rewrite String.eqb_refl. cbn [negb ret]. exact Hslot.
  - unfold POST_gallery, Depends_verify_token, verify_token, bind.
    rewrite String.eqb_refl. cbn [negb ret]. exact Hgal.
Qed.

Lemma C6_invalid_key_or_category_rejected_witness :
  upload_slot_image cloud_config "not_a_real_slot" video_upload fresh_document_on_disk
  = Raise (HTTPException 400 "slot_key inválido") fresh_document_on_disk /\
  upload_gallery_image cloud_config "invalid_category" video_upload fresh_document_on_disk
  = Raise (HTTPException 400 "Categoría inválida") fresh_document_on_disk /\
  POST_slot_image cloud_config (Some ("Bearer " ++ ADMIN_TOKEN cloud_config))
                  "not_a_real_slot" video_upload fresh_document_on_disk
  = Raise (HTTPException 400 "slot_key inválido") fresh_document_on_disk /\
  POST_gallery cloud_config (Some ("Bearer " ++ ADMIN_TOKEN cloud_config))
               "invalid_category" video_upload fresh_document_on_disk
  = Raise (HTTPException 400 "Categoría inválida") fresh_document_on_disk.
Proof.
  apply (C6_invalid_key_or_category_rejected cloud_config fresh_document_on_disk
           video_upload "not_a_real_slot" "invalid_category").
  - apply (bool_decide_unpack _). vm_compute. exact I.
  - apply (bool_decide_unpack _). vm_compute. exact I.
Defined.

(** C7 (what the code does).  The guard [if not file] never fires: an upload
    of zero bytes passes it in all three handlers, is written to the
    backend and is saved into the document. *)
Theorem C7_empty_upload_is_stored_and_saved :
  calls (final_state (upload_hero_video local_config empty_upload fresh_document_on_disk))
  = [ Save (default_with_hero "/uploads/00aa0_a.png"); LocalWrite "00aa0_a.png" "" ] /\
  returned (upload_hero_video local_config empty_upload fresh_document_on_disk)
  = Some (PDict {[ "url" := PStr "/uploads/00aa0_a.png"; "public_id" := PStr "00aa0_a.png";
                   "message" := PStr "Hero video actualizado" ]}) /\
  (exists doc, calls (final_state (upload_slot_image local_config "about_img" empty_upload
                                     fresh_document_on_disk))
               = [ Save doc; LocalWrite "00aa0_a.png" "" ]) /\
  (exists doc, calls (final_state (upload_gallery_image local_config "damas" empty_upload
                                     fresh_document_on_disk))
               = [ Save doc; LocalWrite "00aa0_a.png" "" ]).
Proof.
  split; [by_evaluation|]. split; [by_evaluation|].
  split; eexists; vm_compute; reflexivity.
Qed.

(** C8 as stated fails for a request without the header: it is turned away
    by the framework with a request-validation error (422), not by
    [verify_token] with a 401. *)
Lemma C8_missing_header_is_not_a_401 :
  POST_hero_video local_config None video_upload fresh_document_on_disk
  = Raise RequestValidationError fresh_document_on_disk /\
  RequestValidationError <> HTTPException 401 "Unauthorized".
Proof. split; [reflexivity|discriminate]. Qed.

(** C8 (as the code has it).  A mutating route runs its handler exactly when
    the Authorization header is the string "Bearer " followed by the
    configured token.  Any other request ends with an error and an unchanged
    state, so without a Store or Save call: a 401 when the header is there
    with another value, the framework's 422 when it is missing. *)
Theorem C8_auth_gate (cfg : config) (authorization : option string) (st : state)
    (file : UploadFile) (slot_key category id : string) :
  (authorization = Some ("Bearer " ++ ADMIN_TOKEN cfg) ->
   POST_hero_video cfg authorization file st = upload_hero_video cfg file st /\
   POST_slot_image cfg authorization slot_key file st = upload_slot_image cfg slot_key file st /\
   POST_gallery cfg authorization category file st = upload_gallery_image cfg category file st /\
   DELETE_gallery cfg authorization id st = delete_gallery_image cfg id st) /\
  (authorization <> Some ("Bearer " ++ ADMIN_TOKEN cfg) ->
   POST_hero_video cfg authorization file st = Raise (gate_error authorization) st /\
   POST_slot_image cfg authorization slot_key file st = Raise (gate_error authorization) st /\
   POST_gallery cfg authorization category file st = Raise (gate_error authorization) st /\
   DELETE_gallery cfg authorization id st = Raise (gate_error authorization) st).
Proof.
  split.
  - intros ->.
    unfold POST_hero_video, POST_slot_image, POST_gallery, DELETE_gallery,
      Depends_verify_token, verify_token, bind.
    rewrite String.eqb_refl. cbn [negb ret]. done.
  - intros Hne.
    unfold POST_hero_video, POST_slot_image, POST_gallery, DELETE_gallery,
      Depends_verify_token, verify_token, bind.
    destruct authorization as [a|]; [|done].
    destruct (String.eqb a ("Bearer " ++ ADMIN_TOKEN cfg)) eqn:He.
    + apply String.eqb_eq in He. by subst.
    + done.
Qed.

Lemma C8_auth_gate_witness :
  POST_hero_video local_config (Some "Bearer 12345") video_upload fresh_document_on_disk
  = Raise (HTTPException 401 "Unauthorized") fresh_document_on_disk /\
  DELETE_gallery local_config (Some "Bearer 123456") "a1" fresh_document_on_disk
  = delete_gallery_image local_config "a1" fresh_document_on_disk.
Proof.
  split.
  - apply (C8_auth_gate local_config (Some "Bearer 12345") fresh_document_on_disk
             video_upload "about_img" "damas" "a1").
    discriminate.
  - apply (C8_auth_gate local_config (Some "Bearer 123456") fresh_document_on_disk
             video_upload "about_img" "damas" "a1").
    reflexivity.
Defined.

(** C10 (what the code does).  Importing main.py stops at line 31 with
    [NameError]: [UPLOADS_DIR] is computed from [BASE_DIR], which is bound
    only at line 44. *)
Theorem C10_import_raises_NameError :
  ModuleInit.import_main = inl (31, ModuleInit.NameError "BASE_DIR").
Proof. by_evaluation. Qed.

(** With the assignment of line 44 in front of line 31 the import runs
    through, and [UPLOADS_DIR] is bound at the end. *)
Lemma reordered_import_succeeds :
  ModuleInit.binds_name "UPLOADS_DIR"
    (ModuleInit.exec ModuleInit.builtins ModuleInit.main_py_reordered) = true.
Proof. by_evaluation. Qed.

(** ** Deleting from the gallery *)

Lemma bind_Ret {A B} (c : M A) (k : A -> M B) (st st' : state) (a : A) :
  c st = Ret a st' -> bind c k st = k a st'.
Proof. intros H. unfold bind. by rewrite H. Qed.

Lemma bind_Raise {A B} (c : M A) (k : A -> M B) (st st' : state) (e : exn) :
  c st = Raise e st' -> bind c k st = Raise e st'.
Proof. intros H. unfold bind. by rewrite H. Qed.

Lemma is_gallery_item_id (item : pyval) :
  is_gallery_item item = true ->
  exists s, item_id item = Some s /\ py_getitem item "id" = inr (PStr s).
Proof.
  destruct item as [| | | | | |mi]; try discriminate. cbn [is_gallery_item item_id py_getitem].
  destruct (mi !! "id") as [[| | | |s| |]|]; try discriminate. eauto.
Qed.

Lemma item_id_getitem (item : pyval) (id : string) :
  item_id item = Some id -> py_getitem item "id" = inr (PStr id).
Proof.
  destruct item as [| | | | | |mi]; try discriminate. cbn [item_id py_getitem].
  destruct (mi !! "id") as [[| | | |s| |]|]; try discriminate. by intros [= ->].
Qed.

Lemma gallery_ids_cons (item : pyval) (g : list pyval) (s : string) :
  item_id item = Some s -> gallery_ids (item :: g) = s :: gallery_ids g.
Proof. intros H. unfold gallery_ids. cbn. by rewrite H. Qed.

Lemma gallery_ids_app (g1 g2 : list pyval) :
  gallery_ids (g1 ++ g2) = (gallery_ids g1 ++ gallery_ids g2)%list.
Proof. apply omap_app. Qed.

Lemma find_index_not_found (id : string) (i : nat) (g : list pyval) :
  forallb is_gallery_item g = true -> id ∉ gallery_ids g ->
  find_index id i g = inr None.
Proof.
  revert i. induction g as [|item g IH]; intros i Hall Hnot; [done|].
  cbn [forallb] in Hall. apply andb_true_iff in Hall as [Hitem Hall].
  destruct (is_gallery_item_id item Hitem) as (s & Hs & Hget).
  rewrite (gallery_ids_cons item g s Hs) in Hnot.
  apply not_elem_of_cons in Hnot as [Hne Hnot].
  cbn [find_index]. rewrite Hget. cbn [res_bind py_eq_str].
  rewrite (proj2 (String.eqb_neq s id)) by congruence. by apply IH.
Qed.

Lemma find_index_middle (id : string) (i : nat) (g1 g2 : list pyval) (item : pyval) :
  forallb is_gallery_item g1 = true -> id ∉ gallery_ids g1 -> item_id item = Some id ->
  find_index id i (g1 ++ item :: g2) = inr (Some (i + length g1)).
Proof.
  revert i. induction g1 as [|it g1 IH]; intros i Hall Hnot Hid.
  - cbn [app find_index length]. rewrite (item_id_getitem item id Hid).
    cbn [res_bind py_eq_str]. rewrite String.eqb_refl. by rewrite Nat.add_0_r.
  - cbn [forallb] in Hall. apply andb_true_iff in Hall as [Hitem Hall].
    destruct (is_gallery_item_id it Hitem) as (s & Hs & Hget).
    rewrite (gallery_ids_cons it g1 s Hs) in Hnot.
    apply not_elem_of_cons in Hnot as [Hne Hnot].
    cbn [app find_index length]. rewrite Hget. cbn [res_bind py_eq_str].
    rewrite (proj2 (String.eqb_neq s id)) by congruence.
    rewrite (IH (S i)) by done. do 2 f_equal. lia.
Qed.

Lemma gallery_split (id : string) (g : list pyval) :
  id ∈ gallery_ids g ->
  exists g1 item g2,
    g = (g1 ++ item :: g2)%list /\ item_id item = Some id /\ id ∉ gallery_ids g1.
Proof.
  induction g as [|it g IH]; intros Hin.
  - by apply elem_of_nil in Hin.
  - destruct (item_id it) as [s|] eqn:Hs.
    + rewrite (gallery_ids_cons it g s Hs) in Hin.
      destruct (decide (s = id)) as [->|Hne].
      * exists [], it, g. repeat split; try done. apply not_elem_of_nil.
      * apply elem_of_cons in Hin as [->|Hin]; [done|].
        destruct (IH Hin) as (g1 & item & g2 & -> & Hid & Hnot).
        exists (it :: g1), item, g2. repeat split; try done.
        rewrite (gallery_ids_cons it g1 s Hs). apply not_elem_of_cons. split; [congruence|done].
    + assert (Hin' : id ∈ gallery_ids g).
      { unfold gallery_ids in *. cbn in Hin. by rewrite Hs in Hin. }
      destruct (IH Hin') as (g1 & item & g2 & -> & Hid & Hnot).
      exists (it :: g1), item, g2. repeat split; try done.
      unfold gallery_ids in *. cbn. by rewrite Hs.
Qed.

Lemma well_formed_remove (m : gmap string pyval) (g1 g2 : list pyval) (item : pyval) (id : string) :
  well_formed (PDict m) = true -> m !! "gallery" = Some (PList (g1 ++ item :: g2)) ->
  item_id item = Some id ->
  well_formed (PDict (<["gallery" := PList (g1 ++ g2)]> m)) = true /\
  id ∉ gallery_ids (g1 ++ g2).
Proof.
  intros Hwf Hg Hid.
  destruct (well_formed_inv _ Hwf) as (m' & hero & s & g & [= <-] & Hh & Hs & Hg' & Hdom & Hall & Hnd).
  rewrite Hg in Hg'. injection Hg' as <-.
  rewrite gallery_ids_app, (gallery_ids_cons item g2 id Hid) in Hnd.
  apply list.NoDup_app in Hnd as (Hnd1 & Hdisj & Hnd2).
  apply list.NoDup_cons in Hnd2 as [Hnot2 Hnd2].
  rewrite forallb_app in Hall. apply andb_true_iff in Hall as [Hall1 Hall2].
  cbn [forallb] in Hall2. apply andb_true_iff in Hall2 as [_ Hall2].
  assert (Hnot : id ∉ gallery_ids (g1 ++ g2)).
  { rewrite gallery_ids_app. intros [Hin|Hin]%elem_of_app; [|done].
    apply (Hdisj id Hin). apply elem_of_cons. by left. }
  split; [|done].
  generalize Hwf. cbn [well_formed]. rewrite Hh, Hs, Hg.
  rewrite lookup_insert_ne by done. rewrite lookup_insert_ne by done.
  rewrite lookup_insert_eq, Hh, Hs.
  rewrite !andb_true_iff, !bool_decide_eq_true.
  intros ((((H1 & H2) & H3) & _) & _). repeat split; try done.
  - rewrite forallb_app. by rewrite Hall1, Hall2.
  - rewrite gallery_ids_app. apply list.NoDup_app. repeat split; try done.
    intros x Hx1 Hx2. apply (Hdisj x Hx1). apply elem_of_cons. by right.
Qed.

Lemma load_content_well_formed (st : state) (d : pyval) :
  LOCK st = false -> default_ok st -> content_json st = Some (Json d) ->
  well_formed d = true ->
  load_content st = Ret (Owned d) st.
Proof.
  intros Hl (m & s & Hd & Hs & Hdom & _) Hf Hwf.
  rewrite (load_content_json st d m s Hl Hd Hs Hf).
  by rewrite merge_defaults_well_formed.
Qed.

Lemma save_content_free (st : state) (d : pyval) :
  LOCK st = false -> save_content (Owned d) st = Ret tt (saved d st).
Proof.
  intros Hl. unfold save_content, with_LOCK, bind, read, modify, saved. rewrite Hl.
  cbn [deref]. destruct st; cbn in *; subst. reflexivity.
Qed.

(** The media deletion always returns, whatever the backend does; it can
    change the uploads directory, the call log and, through a reference that
    names it, the document file. *)
Lemma best_effort_delete_frame (cfg : config) (item : pyval) (st : state) :
  exists f dir log,
    best_effort_delete cfg item st
    = Ret tt (State f (DEFAULT_CONTENT st) (LOCK st) dir (uuid_count st) log).
Proof.
  destruct st as [f dc l dir n log].
  unfold best_effort_delete, try_pass, bind, lift, modify, get_state, raise, ret.
  destruct (USE_CLOUDINARY cfg).
  - destruct (py_getitem item "public_id") as [e|public_id]; [by eexists _, _, _|].
    cbn. destruct (cloudinary_destroy cfg public_id); by eexists _, _, _.
  - destruct (py_get item "public_id" (PStr "")) as [e|public_id]; [by eexists _, _, _|].
    destruct public_id as [| | | |fname| |]; try by eexists _, _, _.
    cbn. destruct (path_target cfg fname) as [name| |[|]]; cbn.
    + destruct (bool_decide _); [|by eexists _, _, _].
      cbn. destruct (unlink cfg fname); by eexists _, _, _.
    + destruct (bool_decide _); [|by eexists _, _, _].
      cbn. destruct (unlink cfg fname); by eexists _, _, _.
    + by eexists _, _, _.
    + by eexists _, _, _.
Qed.

Lemma delete_gallery_image_not_found (cfg : config) (st : state) (m : gmap string pyval)
    (g : list pyval) (id : string) :
  LOCK st = false -> default_ok st ->
  content_json st = Some (Json (PDict m)) -> well_formed (PDict m) = true ->
  m !! "gallery" = Some (PList g) -> id ∉ gallery_ids g ->
  delete_gallery_image cfg id st = Raise (HTTPException 404 "Imagen no encontrada") st.
Proof.
  intros Hl Hok Hf Hwf Hg Hnot.
  destruct (well_formed_inv _ Hwf) as (m' & hero & s & g' & [= <-] & _ & _ & Hg' & _ & Hall & _).
  rewrite Hg in Hg'. injection Hg' as <-.
  unfold delete_gallery_image.
  rewrite (bind_Ret _ _ st st (Owned (PDict m))) by (by apply load_content_well_formed).
  rewrite (bind_Ret _ _ st st (PDict m)) by reflexivity.
  rewrite (bind_Ret _ _ st st (PList g)) by (unfold lift; cbn [py_getitem]; by rewrite Hg).
  rewrite (bind_Ret _ _ st st g) by reflexivity.
  rewrite (bind_Ret _ _ st st None)
    by (unfold lift; by rewrite (find_index_not_found id 0 g Hall Hnot)).
  reflexivity.
Qed.

Lemma delete_gallery_image_found (cfg : config) (st : state) (m : gmap string pyval)
    (g1 g2 : list pyval) (item : pyval) (id : string) :
  LOCK st = false -> default_ok st ->
  content_json st = Some (Json (PDict m)) -> well_formed (PDict m) = true ->
  m !! "gallery" = Some (PList (g1 ++ item :: g2)) ->
  item_id item = Some id -> id ∉ gallery_ids g1 ->
  exists f dir log,
    delete_gallery_image cfg id st
    = Ret (PDict {[ "message" := PStr "Imagen eliminada"; "id" := PStr id ]})
          (saved (PDict (<["gallery" := PList (g1 ++ g2)]> m))
                 (State f (DEFAULT_CONTENT st) false dir (uuid_count st) log)).
Proof.
  intros Hl Hok Hf Hwf Hg Hid Hnot.
  destruct (well_formed_inv _ Hwf) as (m' & hero & s & g' & [= <-] & _ & _ & Hg' & _ & Hall & _).
  rewrite Hg in Hg'. injection Hg' as <-.
  rewrite forallb_app in Hall. apply andb_true_iff in Hall as [Hall1 _].
  destruct (best_effort_delete_frame cfg item st) as (f & dir & log & Hdel).
  rewrite Hl in Hdel. exists f, dir, log.
  unfold delete_gallery_image.
  rewrite (bind_Ret _ _ st st (Owned (PDict m))) by (by apply load_content_well_formed).
  rewrite (bind_Ret _ _ st st (PDict m)) by reflexivity.
  rewrite (bind_Ret _ _ st st (PList (g1 ++ item :: g2)))
    by (unfold lift; cbn [py_getitem]; by rewrite Hg).
  rewrite (bind_Ret _ _ st st (g1 ++ item :: g2)%list) by reflexivity.
  rewrite (bind_Ret _ _ st st (Some (0 + length g1)))
    by (unfold lift; by rewrite (find_index_middle id 0 g1 g2 item Hall1 Hnot Hid)).
  rewrite (bind_Ret _ _ st st item)
    by (unfold lift; cbn [py_index plus]; by rewrite list_lookup_middle).
  rewrite (bind_Ret _ _ _ _ tt Hdel).
  set (st1 := State f (DEFAULT_CONTENT st) false dir (uuid_count st) log).
  rewrite (bind_Ret _ _ st1 st1 (Owned (PDict (<["gallery" := PList (g1 ++ g2)]> m)))).
  - rewrite (bind_Ret _ _ st1 (saved (PDict (<["gallery" := PList (g1 ++ g2)]> m)) st1) tt)
      by (by apply save_content_free).
    reflexivity.
  - unfold mutate. cbn [deref py_getitem res_bind]. rewrite Hg.
    cbn [py_delitem res_bind py_setitem plus]. by rewrite delete_middle.
Qed.

(** ** [default_ok] holds in every state the requests reach *)

Lemma keeps_ret {A} (a : A) : keeps_default_ok (ret a).
Proof. intros st H. exact H. Qed.

Lemma keeps_raise {A} (e : exn) : keeps_default_ok (raise (A := A) e).
Proof. intros st H. exact H. Qed.

Lemma keeps_lift {A} (x : res A) : keeps_default_ok (lift x).
Proof. intros st H. unfold lift. by destruct x. Qed.

Lemma keeps_read (r : docref) : keeps_default_ok (read r).
Proof. intros st H. exact H. Qed.

Lemma keeps_get_state : keeps_default_ok get_state.
Proof. intros st H. exact H. Qed.

Lemma keeps_bind {A B} (c : M A) (k : A -> M B) :
  keeps_default_ok c -> (forall a, keeps_default_ok (k a)) -> keeps_default_ok (bind c k).
Proof.
  intros Hc Hk st H. unfold bind. specialize (Hc st H).
  destruct (c st) as [a st'|e st'|st']; cbn [final_state] in *; try done.
  by apply Hk.
Qed.

Lemma keeps_modify (f : state -> state) :
  (forall st, DEFAULT_CONTENT (f st) = DEFAULT_CONTENT st) -> keeps_default_ok (modify f).
Proof.
  intros Hf st (m & s & Hd & H). exists m, s. split; [|exact H].
  cbn [modify final_state]. by rewrite Hf.
Qed.

Lemma keeps_with_LOCK {A} (body : M A) :
  keeps_default_ok body -> keeps_default_ok (with_LOCK body).
Proof.
  intros Hb st H. unfold with_LOCK. destruct (LOCK st); [exact H|].
  assert (H' : default_ok (set_LOCK true st)) by exact H.
  specialize (Hb _ H'). by destruct (body (set_LOCK true st)).
Qed.

Lemma keeps_try_pass (body : M unit) :
  keeps_default_ok body -> keeps_default_ok (try_pass body).
Proof.
  intros Hb st H. unfold try_pass. specialize (Hb st H). by destruct (body st).
Qed.

Lemma keeps_mutate (r : docref) (f : pyval -> res pyval) :
  (forall st v, default_ok st -> f (DEFAULT_CONTENT st) = inr v ->
                default_ok (set_DEFAULT_CONTENT v st)) ->
  keeps_default_ok (mutate r f).
Proof.
  intros Hf st H. unfold mutate.
  destruct r as [|d]; cbn [deref].
  - destruct (f (DEFAULT_CONTENT st)) as [e|v] eqn:Hv; [exact H|]. by apply Hf.
  - by destruct (f d).
Qed.

Lemma keeps_save_content (data : docref) : keeps_default_ok (save_content data).
Proof.
  apply keeps_with_LOCK, keeps_bind; [apply keeps_read|].
  intros d. by apply keeps_modify.
Qed.

Lemma keeps_load_content : keeps_default_ok load_content.
Proof.
  intros st H. destruct (LOCK st) eqn:Hl.
  { unfold load_content, with_LOCK. by rewrite Hl. }
  destruct (content_json st) as [[|v]|] eqn:Hf.
  - by rewrite load_content_garbage.
  - destruct (default_ok_items st H) as (m & s & Hd & Hs & _).
    rewrite (load_content_json st v m s Hl Hd Hs Hf). by destruct (merge_defaults _ v).
  - destruct st as [f dc l dir n log]. cbn in Hl, Hf. subst.
    rewrite load_content_missing. exact H.
Qed.

Lemma set_heroVideo_ok (st : state) (url v : pyval) :
  default_ok st -> py_setitem (DEFAULT_CONTENT st) "heroVideo" url = inr v ->
  default_ok (set_DEFAULT_CONTENT v st).
Proof.
  intros (m & s & Hd & Hs & Hdom & Hg & Hh). rewrite Hd. cbn [py_setitem]. intros [= <-].
  exists (<["heroVideo" := url]> m), s. repeat split; try done.
  - by rewrite lookup_insert_ne.
  - by rewrite lookup_insert_ne.
  - rewrite lookup_insert_eq. eauto.
Qed.

Lemma set_slot_ok (st : state) (slot_key : string) (url v : pyval) :
  slot_key ∈ VALID_SLOTS -> default_ok st ->
  (let? slots := py_getitem (DEFAULT_CONTENT st) "slots" in
   let? slots := py_setitem slots slot_key url in
   py_setitem (DEFAULT_CONTENT st) "slots" slots)%res = inr v ->
  default_ok (set_DEFAULT_CONTENT v st).
Proof.
  rewrite VALID_SLOTS_fixed.
  intros Hk (m & s & Hd & Hs & Hdom & Hg & Hh). rewrite Hd. cbn [py_getitem res_bind].
  rewrite Hs. cbn [py_setitem res_bind]. intros [= <-].
  exists (<["slots" := PDict (<[slot_key := url]> s)]> m), (<[slot_key := url]> s).
  repeat split; try done.
  - apply lookup_insert_eq.
  - rewrite dom_insert_L, Hdom. revert Hk. generalize FIXED_SLOT_KEYS. set_solver.
  - by rewrite lookup_insert_ne.
  - by rewrite lookup_insert_ne.
Qed.

Lemma set_gallery_ok (st : state) (f : pyval -> res pyval) (v : pyval) :
  default_ok st ->
  (let? gallery := py_getitem (DEFAULT_CONTENT st) "gallery" in
   let? gallery := f gallery in
   py_setitem (DEFAULT_CONTENT st) "gallery" gallery)%res = inr v ->
  default_ok (set_DEFAULT_CONTENT v st).
Proof.
  intros (m & s & Hd & Hs & Hdom & [g Hg] & Hh). rewrite Hd. cbn [py_getitem res_bind].
  rewrite Hg. cbn [res_bind]. destruct (f g) as [e|g']; [discriminate|].
  cbn [py_setitem res_bind]. intros [= <-].
  exists (<["gallery" := g']> m), s. repeat split; try done.
  - by rewrite lookup_insert_ne.
  - rewrite lookup_insert_eq. eauto.
  - by rewrite lookup_insert_ne.
Qed.

Lemma keeps_uuid4 (cfg : config) : keeps_default_ok (uuid4 cfg).
Proof. intros st H. exact H. Qed.

Lemma keeps_store_upload (cfg : config) (file : UploadFile) (folder resource_type : string) :
  keeps_default_ok (store_upload cfg file folder resource_type).
Proof.
  unfold store_upload. destruct (USE_CLOUDINARY cfg).
  - apply keeps_bind; [by apply keeps_modify|]. intros _.
    destruct (cloudinary_upload cfg _ _ _); [apply keeps_raise|].
    apply keeps_bind; [apply keeps_lift|]. intros url.
    apply keeps_bind; [apply keeps_lift|]. intros public_id. apply keeps_ret.
  - apply keeps_bind; [apply keeps_uuid4|]. intros u.
    apply keeps_bind; [by apply keeps_modify|]. intros _.
    destruct (local_write_ok cfg _); [|apply keeps_raise].
    apply keeps_bind; [by apply keeps_modify|]. intros _. apply keeps_ret.
Qed.

Lemma keeps_best_effort_delete (cfg : config) (item : pyval) :
  keeps_default_ok (best_effort_delete cfg item).
Proof.
  intros st H. destruct (best_effort_delete_frame cfg item st) as (f & dir & log & ->).
  exact H.
Qed.

Lemma keeps_upload_hero_video (cfg : config) (file : UploadFile) :
  keeps_default_ok (upload_hero_video cfg file).
Proof.
  unfold upload_hero_video. cbn [UploadFile_bool negb].
  apply keeps_bind; [apply keeps_store_upload|]. intros stored.
  apply keeps_bind; [apply keeps_load_content|]. intros data.
  apply keeps_bind; [apply keeps_mutate; intros st v; apply set_heroVideo_ok|]. intros data'.
  apply keeps_bind; [apply keeps_save_content|]. intros _. apply keeps_ret.
Qed.

Lemma keeps_upload_slot_image (cfg : config) (slot_key : string) (file : UploadFile) :
  keeps_default_ok (upload_slot_image cfg slot_key file).
Proof.
  unfold upload_slot_image. destruct (bool_decide (slot_key ∈ VALID_SLOTS)) eqn:Hk;
    cbn [negb]; [|apply keeps_raise].
  apply bool_decide_eq_true in Hk. cbn [UploadFile_bool negb].
  apply keeps_bind; [apply keeps_store_upload|]. intros stored.
  apply keeps_bind; [apply keeps_load_content|]. intros data.
  apply keeps_bind; [apply keeps_mutate; intros st v; by apply set_slot_ok|]. intros data'.
  apply keeps_bind; [apply keeps_save_content|]. intros _. apply keeps_ret.
Qed.

Lemma keeps_upload_gallery_image (cfg : config) (category : string) (file : UploadFile) :
  keeps_default_ok (upload_gallery_image cfg category file).
Proof.
  unfold upload_gallery_image. cbn [UploadFile_bool negb].
  destruct (bool_decide (category ∈ CATEGORIES)); cbn [negb]; [|apply keeps_raise].
  apply keeps_bind; [apply keeps_store_upload|]. intros stored.
  apply keeps_bind; [apply keeps_uuid4|]. intros u.
  apply keeps_bind; [apply keeps_load_content|]. intros data.
  apply keeps_bind; [apply keeps_mutate; intros st v; apply set_gallery_ok|]. intros data'.
  apply keeps_bind; [apply keeps_save_content|]. intros _. apply keeps_ret.
Qed.

Lemma keeps_delete_gallery_image (cfg : config) (id : string) :
  keeps_default_ok (delete_gallery_image cfg id).
Proof.
  unfold delete_gallery_image.
  apply keeps_bind; [apply keeps_load_content|]. intros data.
  apply keeps_bind; [apply keeps_read|]. intros d.
  apply keeps_bind; [apply keeps_lift|]. intros gallery.
  apply keeps_bind; [apply keeps_lift|]. intros items.
  apply keeps_bind; [apply keeps_lift|]. intros [idx|]; [|apply keeps_raise].
  apply keeps_bind; [apply keeps_lift|]. intros item.
  apply keeps_bind; [apply keeps_best_effort_delete|]. intros _.
  apply keeps_bind;
    [apply keeps_mutate; intros st v; apply (set_gallery_ok st (fun g => py_delitem g idx))|].
  intros data'.
  apply keeps_bind; [apply keeps_save_content|]. intros _. apply keeps_ret.
Qed.

Lemma keeps_Depends_verify_token {A} (cfg : config) (authorization : option string)
    (handler : M A) :
  keeps_default_ok handler -> keeps_default_ok (Depends_verify_token cfg authorization handler).
Proof.
  intros Hh. unfold Depends_verify_token. destruct authorization as [a|]; [|apply keeps_raise].
  apply keeps_bind; [|by intros _].
  unfold verify_token. destruct (negb _); [apply keeps_raise|apply keeps_ret].
Qed.

(** Every route leaves [DEFAULT_CONTENT] a document with the fixed slot keys,
    so [default_ok] holds in every state a sequence of requests reaches from
    [initial_state]. *)
Lemma requests_keep_default_ok (cfg : config) (authorization : option string)
    (file : UploadFile) (slot_key category id : string) :
  keeps_default_ok (POST_hero_video cfg authorization file) /\
  keeps_default_ok (POST_slot_image cfg authorization slot_key file) /\
  keeps_default_ok (POST_gallery cfg authorization category file) /\
  keeps_default_ok (DELETE_gallery cfg authorization id) /\
  keeps_default_ok (get_content cfg) /\
  keeps_default_ok (get_gallery cfg).
Proof.
  repeat split.
  - apply keeps_Depends_verify_token, keeps_upload_hero_video.
  - apply keeps_Depends_verify_token, keeps_upload_slot_image.
  - apply keeps_Depends_verify_token, keeps_upload_gallery_image.
  - apply keeps_Depends_verify_token, keeps_delete_gallery_image.
  - unfold get_content. apply keeps_bind; [apply keeps_load_content|]. intros data.
    apply keeps_bind; [apply keeps_read|]. intros d.
    apply keeps_bind; [apply keeps_lift|]. intros items. apply keeps_lift.
  - unfold get_gallery. apply keeps_bind; [apply keeps_load_content|]. intros data.
    apply keeps_bind; [apply keeps_read|]. intros d. apply keeps_lift.
Qed.

(** * Further properties of the content store and the routes *)

(** ** Loading *)

Lemma current_default_slots_ok (st : state) (m s : gmap string pyval) :
  DEFAULT_CONTENT st = PDict m -> m !! "slots" = Some (PDict s) ->
  current_default_slots st = s.
Proof. intros Hd Hs. unfold current_default_slots. by rewrite Hd, Hs. Qed.

(** Loading a persisted dict keeps every value the file has and adds what is
    missing: the slots become the persisted slots united (persisted values
    first) with the slots [DEFAULT_CONTENT] has at that time, a missing
    gallery becomes the empty list, a missing hero video becomes None, and
    every other top-level entry is returned as it is.  Nothing is written. *)
Theorem load_content_keeps_persisted_values (st : state) (m s : gmap string pyval) :
  LOCK st = false -> default_ok st ->
  content_json st = Some (Json (PDict m)) -> slots_view m = Some s ->
  exists m',
    load_content st = Ret (Owned (PDict m')) st /\
    m' !! "slots" = Some (PDict (s ∪ current_default_slots st)) /\
    m' !! "gallery" = Some (default (PList []) (m !! "gallery")) /\
    m' !! "heroVideo" = Some (default PNone (m !! "heroVideo")) /\
    (forall k v, k <> "slots" -> m !! k = Some v -> m' !! k = Some v) /\
    (forall k v, s !! k = Some v -> (s ∪ current_default_slots st) !! k = Some v).
Proof.
  intros Hl Hok Hf Hv.
  destruct (default_ok_items st Hok) as (dm & ds & Hd & Hs & Hdom & Hne & _).
  exists (merged ds m s).
  rewrite (current_default_slots_ok st dm ds Hd Hs).
  split.
  { rewrite (load_content_json st (PDict m) dm ds Hl Hd Hs Hf).
    by rewrite (merge_defaults_dict ds m s Hne Hv). }
  split; [apply merged_slots|]. split; [apply merged_gallery|].
  split; [apply merged_heroVideo|]. split.
  - intros k v Hk Hmk.
    destruct (decide (k = "gallery")) as [->|Hg]; [by rewrite merged_gallery, Hmk|].
    destruct (decide (k = "heroVideo")) as [->|Hh]; [by rewrite merged_heroVideo, Hmk|].
    unfold merged.
    repeat (case_match; rewrite ?lookup_insert_ne by done); done.
  - intros k v Hk. by apply lookup_union_Some_l.
Qed.

Lemma load_content_keeps_persisted_values_witness :
  exists m',
    load_content (initial_state (Some (Json promo_document)) ∅)
    = Ret (Owned (PDict m')) (initial_state (Some (Json promo_document)) ∅) /\
    m' !! "slots"
    = Some (PDict ({[ "promo" := PNone ]}
                   ∪ current_default_slots (initial_state (Some (Json promo_document)) ∅))) /\
    m' !! "gallery"
    = Some (default (PList []) (({[ "slots" := PDict {[ "promo" := PNone ]} ]}
                                 : gmap string pyval) !! "gallery")) /\
    m' !! "heroVideo"
    = Some (default PNone (({[ "slots" := PDict {[ "promo" := PNone ]} ]}
                            : gmap string pyval) !! "heroVideo")) /\
    (forall k v, k <> "slots" ->
       ({[ "slots" := PDict {[ "promo" := PNone ]} ]} : gmap string pyval) !! k = Some v ->
       m' !! k = Some v) /\
    (forall k v, ({[ "promo" := PNone ]} : gmap string pyval) !! k = Some v ->
       ({[ "promo" := PNone ]}
        ∪ current_default_slots (initial_state (Some (Json promo_document)) ∅)) !! k = Some v).
Proof.
  apply (load_content_keeps_persisted_values
           (initial_state (Some (Json promo_document)) ∅)
           {[ "slots" := PDict {[ "promo" := PNone ]} ]} {[ "promo" := PNone ]}).
  - reflexivity.
  - apply default_ok_initial.
  - reflexivity.
  - by_evaluation.
Defined.

(** A persisted value that parses but is not a dict (a list, a string, a
    number, null) makes the load raise TypeError, and a dict whose "slots"
    is not a dict makes it raise AttributeError: the fallback to the defaults
    covers only what [json.load] itself rejects.  The state is unchanged. *)
Theorem load_content_raises_on_wrong_shape (st : state) (v : pyval) :
  LOCK st = false -> default_ok st -> content_json st = Some (Json v) ->
  ((forall m, v <> PDict m) -> load_content st = Raise TypeError st) /\
  (forall m x, v = PDict m -> m !! "slots" = Some x -> (forall s, x <> PDict s) ->
               load_content st = Raise (AttributeError "setdefault") st).
Proof.
  intros Hl Hok Hf.
  destruct (default_ok_items st Hok) as (dm & ds & Hd & Hs & Hdom & Hne & _).
  rewrite (load_content_json st v dm ds Hl Hd Hs Hf).
  assert (Hitems : map_to_list ds <> []) by (by rewrite map_to_list_empty_iff).
  destruct (map_to_list ds) as [|kv items] eqn:Hl'; [done|].
  split.
  - intros Hv. unfold merge_defaults. cbn [merge_slots].
    by rewrite (merge_step_not_dict v kv Hv).
  - intros m x -> Hx Hnd. unfold merge_defaults. cbn [merge_slots].
    by rewrite (merge_step_bad_slots m x kv Hx Hnd).
Qed.

Lemma load_content_raises_on_wrong_shape_witness :
  ((forall m, PList [] <> PDict m) ->
   load_content (initial_state (Some (Json (PList []))) ∅)
   = Raise TypeError (initial_state (Some (Json (PList []))) ∅)) /\
  (forall m x, PList [] = PDict m -> m !! "slots" = Some x -> (forall s, x <> PDict s) ->
               load_content (initial_state (Some (Json (PList []))) ∅)
               = Raise (AttributeError "setdefault") (initial_state (Some (Json (PList []))) ∅)).
Proof.
  apply (load_content_raises_on_wrong_shape (initial_state (Some (Json (PList []))) ∅) (PList [])).
  - reflexivity.
  - apply default_ok_initial.
  - reflexivity.
Defined.

(** While content.json exists, [load_content] never writes: whatever the file
    holds and however the call ends, the file, the uploads directory and the
    call log are as before. *)
Theorem load_content_never_writes (st : state) :
  is_Some (content_json st) ->
  content_json (final_state (load_content st)) = content_json st /\
  uploads (final_state (load_content st)) = uploads st /\
  calls (final_state (load_content st)) = calls st.
Proof.
  intros [file Hf]. unfold load_content, with_LOCK, bind, get_state, read, lift, mutate.
  destruct (LOCK st); [done|]. cbn [content_json set_LOCK]. rewrite Hf.
  destruct (py_getitem _ "slots") as [e|slots]; cbn [res_bind]; [done|].
  destruct (py_items slots) as [e|items]; [done|].
  destruct (merge_defaults items _) as [e|d]; [done|].
  by destruct file.
Qed.

Lemma load_content_never_writes_witness :
  content_json (final_state (load_content garbage_again)) = content_json garbage_again /\
  uploads (final_state (load_content garbage_again)) = uploads garbage_again /\
  calls (final_state (load_content garbage_again)) = calls garbage_again.
Proof.
  apply (load_content_never_writes garbage_again). exists Garbage. by_evaluation.
Defined.

(** ** Storing an upload *)

Lemma store_upload_frame (cfg : config) (file : UploadFile) (folder resource_type : string)
    (st : state) :
  match store_upload cfg file folder resource_type st with
  | Ret _ st1 | Raise _ st1 =>
      content_json st1 = content_json st /\ DEFAULT_CONTENT st1 = DEFAULT_CONTENT st /\
      LOCK st1 = LOCK st /\
      exists c, calls st1 = c :: calls st /\ is_store_call c = true
  | Blocked _ => False
  end.
Proof.
  destruct st as [f dc l dir n log].
  unfold store_upload, bind, modify, lift, uuid4, ret, raise.
  destruct (USE_CLOUDINARY cfg); cbn.
  - destruct (cloudinary_upload cfg _ _ _) as [e|result]; cbn; [by eauto 10|].
    destruct (result !! "secure_url"); cbn; by eauto 10.
  - destruct (local_write_ok cfg _); cbn; by eauto 10.
Qed.

Lemma store_upload_returns (cfg : config) (file : UploadFile) (folder resource_type : string)
    (st st1 : state) (r : pyval * pyval) :
  store_upload cfg file folder resource_type st = Ret r st1 ->
  content_json st1 = content_json st /\ DEFAULT_CONTENT st1 = DEFAULT_CONTENT st /\
  LOCK st1 = LOCK st /\ exists c, calls st1 = c :: calls st /\ is_store_call c = true.
Proof.
  intros H. pose proof (store_upload_frame cfg file folder resource_type st) as Hf.
  by rewrite H in Hf.
Qed.

Lemma default_ok_same (st st1 : state) :
  DEFAULT_CONTENT st1 = DEFAULT_CONTENT st -> default_ok st -> default_ok st1.
Proof. intros Heq (m & s & Hd & H). exists m, s. split; [by rewrite Heq|exact H]. Qed.

Lemma complete_inv (d : pyval) :
  complete d = true ->
  exists m s, d = PDict m /\ m !! "slots" = Some (PDict s) /\ FIXED_SLOT_KEYS ⊆ dom s /\
              is_Some (m !! "gallery") /\ is_Some (m !! "heroVideo").
Proof.
  destruct d as [| | | | | |m]; try discriminate. cbn [complete].
  destruct (m !! "heroVideo") as [hero|] eqn:Hh; [|discriminate].
  destruct (m !! "slots") as [[| | | | | |s]|] eqn:Hs; try discriminate.
  destruct (m !! "gallery") as [g|] eqn:Hg; [|discriminate].
  intros H%bool_decide_eq_true. exists m, s. eauto 10.
Qed.

Lemma well_formed_complete (d : pyval) : well_formed d = true -> complete d = true.
Proof.
  intros Hwf.
  destruct (well_formed_inv d Hwf) as (m & hero & s & g & -> & Hh & Hs & Hg & Hdom & _).
  cbn [complete]. rewrite Hh, Hs, Hg. apply bool_decide_eq_true. by rewrite Hdom.
Qed.

Lemma load_content_complete (st : state) (d : pyval) :
  LOCK st = false -> default_ok st -> content_json st = Some (Json d) ->
  complete d = true ->
  load_content st = Ret (Owned d) st.
Proof.
  intros Hl (dm & ds & Hd & Hs & Hdom & _) Hf Hc.
  destruct (complete_inv d Hc) as (m & s & -> & Hms & Hsub & Hg & Hh).
  rewrite (load_content_json st (PDict m) dm ds Hl Hd Hs Hf).
  assert (Hne : ds <> ∅).
  { intros ->. rewrite dom_empty_L in Hdom. unfold FIXED_SLOT_KEYS in Hdom. set_solver. }
  rewrite (merge_defaults_dict ds m s Hne) by (unfold slots_view; by rewrite Hms).
  rewrite merged_id; try done. by rewrite Hdom.
Qed.

Lemma load_content_missing_file (st : state) :
  LOCK st = false -> content_json st = None -> load_content st = Blocked (set_LOCK true st).
Proof.
  intros Hl Hf. destruct st as [f dc l dir n log]. cbn in Hl, Hf. subst.
  apply load_content_missing.
Qed.

(** ** The upload routes on a persisted document *)

Lemma upload_hero_video_updates_document_core (cfg : config) (st st1 : state)
    (m : gmap string pyval) (file : UploadFile) (url public_id : pyval) :
  LOCK st = false -> default_ok st ->
  content_json st = Some (Json (PDict m)) -> complete (PDict m) = true ->
  store_upload cfg file "thesecretspot/hero/api" "video" st = Ret (url, public_id) st1 ->
  upload_hero_video cfg file st
  = Ret (PDict {[ "url" := url; "public_id" := public_id;
                  "message" := PStr "Hero video actualizado" ]})
        (saved (PDict (<["heroVideo" := url]> m)) st1) /\
  exists c, calls (saved (PDict (<["heroVideo" := url]> m)) st1)
            = Save (PDict (<["heroVideo" := url]> m)) :: c :: calls st /\
            is_store_call c = true.
Proof.
  intros Hl Hok Hf Hc Hstore.
  destruct (store_upload_returns _ _ _ _ _ _ _ Hstore) as (Hf1 & Hd1 & Hl1 & c & Hc1 & Hsc).
  rewrite Hf in Hf1. rewrite Hl in Hl1. apply (default_ok_same st st1 Hd1) in Hok.
  split.
  - unfold upload_hero_video. cbn [UploadFile_bool negb].
    rewrite (bind_Ret _ _ st st1 (url, public_id) Hstore). cbn [fst snd].
    rewrite (bind_Ret _ _ st1 st1 (Owned (PDict m))) by (by apply load_content_complete).
    rewrite (bind_Ret _ _ st1 st1 (Owned (PDict (<["heroVideo" := url]> m)))) by reflexivity.
    rewrite (bind_Ret _ _ st1 (saved (PDict (<["heroVideo" := url]> m)) st1) tt)
      by (by apply save_content_free).
    reflexivity.
  - exists c. split; [|done]. unfold saved. cbn [calls log_call set_content_json]. by rewrite Hc1.
Qed.

(** POST /api/hero-video, once the backend has stored the file: the handler
    returns the stored url and reference, and the saved document is the
    persisted one with "heroVideo" replaced and nothing else changed.  The
    backend is called once, before the one save. *)
Theorem upload_hero_video_updates_document (cfg : config) (st st1 : state)
    (m : gmap string pyval) (file : UploadFile) (url public_id : pyval) :
  LOCK st = false -> default_ok st ->
  content_json st = Some (Json (PDict m)) -> complete (PDict m) = true ->
  store_upload cfg file "thesecretspot/hero/api" "video" st = Ret (url, public_id) st1 ->
  upload_hero_video cfg file st
  = Ret (PDict {[ "url" := url; "public_id" := public_id;
                  "message" := PStr "Hero video actualizado" ]})
        (saved (PDict (<["heroVideo" := url]> m)) st1) /\
  exists c, calls (saved (PDict (<["heroVideo" := url]> m)) st1)
            = Save (PDict (<["heroVideo" := url]> m)) :: c :: calls st /\
            is_store_call c = true.
Proof. intros; eapply upload_hero_video_updates_document_core; eassumption. Qed.

Lemma upload_hero_video_updates_document_witness :
  upload_hero_video local_config video_upload sample_on_disk
  = Ret (PDict {[ "url" := PStr "/uploads/00aa0_v.mp4"; "public_id" := PStr "00aa0_v.mp4";
                  "message" := PStr "Hero video actualizado" ]})
        (saved (PDict (<["heroVideo" := PStr "/uploads/00aa0_v.mp4"]> sample_fields))
               (final_state (store_upload local_config video_upload
                               "thesecretspot/hero/api" "video" sample_on_disk))) /\
  exists c,
    calls (saved (PDict (<["heroVideo" := PStr "/uploads/00aa0_v.mp4"]> sample_fields))
                 (final_state (store_upload local_config video_upload
                                 "thesecretspot/hero/api" "video" sample_on_disk)))
    = Save (PDict (<["heroVideo" := PStr "/uploads/00aa0_v.mp4"]> sample_fields))
        :: c :: calls sample_on_disk /\
    is_store_call c = true.
Proof.
  apply (upload_hero_video_updates_document local_config sample_on_disk).
  - reflexivity.
  - apply default_ok_initial.
  - reflexivity.
  - by_evaluation.
  - by_evaluation.
Defined.

Lemma upload_slot_image_updates_one_slot_core (cfg : config) (st st1 : state)
    (m s : gmap string pyval) (slot_key : string) (file : UploadFile)
    (url public_id : pyval) :
  slot_key ∈ FIXED_SLOT_KEYS ->
  LOCK st = false -> default_ok st ->
  content_json st = Some (Json (PDict m)) -> complete (PDict m) = true ->
  m !! "slots" = Some (PDict s) ->
  store_upload cfg file ("thesecretspot/slots/" ++ slot_key ++ "/api") "image" st
  = Ret (url, public_id) st1 ->
  upload_slot_image cfg slot_key file st
  = Ret (PDict {[ "slot_key" := PStr slot_key; "url" := url; "public_id" := public_id;
                  "message" := PStr "Imagen de sección actualizada" ]})
        (saved (PDict (<["slots" := PDict (<[slot_key := url]> s)]> m)) st1) /\
  dom (<[slot_key := url]> s) = dom s /\
  (forall k, k <> slot_key -> (<[slot_key := url]> s) !! k = s !! k).
Proof.
  intros Hk Hl Hok Hf Hc Hs Hstore.
  destruct (store_upload_returns _ _ _ _ _ _ _ Hstore) as (Hf1 & Hd1 & Hl1 & _).
  rewrite Hf in Hf1. rewrite Hl in Hl1. apply (default_ok_same st st1 Hd1) in Hok.
  destruct (complete_inv _ Hc) as (m0 & s0 & [= <-] & Hs0 & Hsub & _).
  rewrite Hs in Hs0. injection Hs0 as <-.
  split; [|split].
  - unfold upload_slot_image. rewrite VALID_SLOTS_fixed.
    rewrite bool_decide_eq_true_2 by done. cbn [UploadFile_bool negb].
    rewrite (bind_Ret _ _ st st1 (url, public_id) Hstore). cbn [fst snd].
    rewrite (bind_Ret _ _ st1 st1 (Owned (PDict m))) by (by apply load_content_complete).
    rewrite (bind_Ret _ _ st1 st1
               (Owned (PDict (<["slots" := PDict (<[slot_key := url]> s)]> m))))
      by (unfold mutate; cbn [deref py_getitem res_bind]; by rewrite Hs).
    rewrite (bind_Ret _ _ st1
               (saved (PDict (<["slots" := PDict (<[slot_key := url]> s)]> m)) st1) tt)
      by (by apply save_content_free).
    reflexivity.
  - rewrite dom_insert_L. revert Hk Hsub. generalize FIXED_SLOT_KEYS (dom s). set_solver.
  - intros k Hne. by rewrite lookup_insert_ne.
Qed.

(** POST /api/slot-image with a fixed slot key, once the backend has stored
    the file: the saved document is the persisted one with that slot set to
    the stored url; the slot key set is the same as before and every other
    slot keeps its value. *)
Theorem upload_slot_image_updates_one_slot (cfg : config) (st st1 : state)
    (m s : gmap string pyval) (slot_key : string) (file : UploadFile)
    (url public_id : pyval) :
  slot_key ∈ FIXED_SLOT_KEYS ->
  LOCK st = false -> default_ok st ->
  content_json st = Some (Json (PDict m)) -> complete (PDict m) = true ->
  m !! "slots" = Some (PDict s) ->
  store_upload cfg file ("thesecretspot/slots/" ++ slot_key ++ "/api") "image" st
  = Ret (url, public_id) st1 ->
  upload_slot_image cfg slot_key file st
  = Ret (PDict {[ "slot_key" := PStr slot_key; "url" := url; "public_id" := public_id;
                  "message" := PStr "Imagen de sección actualizada" ]})
        (saved (PDict (<["slots" := PDict (<[slot_key := url]> s)]> m)) st1) /\
  dom (<[slot_key := url]> s) = dom s /\
  (forall k, k <> slot_key -> (<[slot_key := url]> s) !! k = s !! k).
Proof. intros; eapply upload_slot_image_updates_one_slot_core; eassumption. Qed.

Lemma upload_slot_image_updates_one_slot_witness :
  upload_slot_image local_config "staff_3" video_upload fresh_document_on_disk
  = Ret (PDict {[ "slot_key" := PStr "staff_3"; "url" := PStr "/uploads/00aa0_v.mp4";
                  "public_id" := PStr "00aa0_v.mp4";
                  "message" := PStr "Imagen de sección actualizada" ]})
        (saved (PDict (<["slots" := PDict (<["staff_3" := PStr "/uploads/00aa0_v.mp4"]>
                                              default_slots)]>
                         {[ "heroVideo" := PNone; "slots" := PDict default_slots;
                            "gallery" := PList [] ]}))
               (final_state (store_upload local_config video_upload
                               "thesecretspot/slots/staff_3/api" "image"
                               fresh_document_on_disk))) /\
  dom (<["staff_3" := PStr "/uploads/00aa0_v.mp4"]> default_slots) = dom default_slots /\
  (forall k, k <> "staff_3" ->
     (<["staff_3" := PStr "/uploads/00aa0_v.mp4"]> default_slots) !! k = default_slots !! k).
Proof.
  apply (upload_slot_image_updates_one_slot local_config fresh_document_on_disk).
  - apply (bool_decide_unpack _). vm_compute. exact I.
  - reflexivity.
  - apply default_ok_initial.
  - reflexivity.
  - by_evaluation.
  - by_evaluation.
  - by_evaluation.
Defined.

Lemma upload_gallery_image_appends_core (cfg : config) (st st1 : state)
    (m : gmap string pyval) (g : list pyval) (category : string) (file : UploadFile)
    (url public_id : pyval) :
  category ∈ CATEGORIES ->
  LOCK st = false -> default_ok st ->
  content_json st = Some (Json (PDict m)) -> complete (PDict m) = true ->
  m !! "gallery" = Some (PList g) ->
  store_upload cfg file ("thesecretspot/gallery/" ++ category) "image" st
  = Ret (url, public_id) st1 ->
  upload_gallery_image cfg category file st
  = Ret (PDict {[ "item" := PDict {[ "id" := PStr (str (uuid4_source cfg (uuid_count st1)));
                                     "url" := url; "public_id" := public_id;
                                     "category" := PStr category ]};
                  "message" := PStr "Imagen añadida a galería" ]})
        (saved (PDict (<["gallery" :=
                          PList (g ++ [PDict {[ "id" := PStr (str (uuid4_source cfg (uuid_count st1)));
                                                "url" := url; "public_id" := public_id;
                                                "category" := PStr category ]}])]> m))
               (set_uuid_count (S (uuid_count st1)) st1)).
Proof.
  intros Hk Hl Hok Hf Hc Hg Hstore.
  destruct (store_upload_returns _ _ _ _ _ _ _ Hstore) as (Hf1 & Hd1 & Hl1 & _).
  rewrite Hf in Hf1. rewrite Hl in Hl1. apply (default_ok_same st st1 Hd1) in Hok.
  set (st2 := set_uuid_count (S (uuid_count st1)) st1).
  set (item := PDict {[ "id" := PStr (str (uuid4_source cfg (uuid_count st1)));
                        "url" := url; "public_id" := public_id;
                        "category" := PStr category ]}).
  unfold upload_gallery_image. cbn [UploadFile_bool negb].
  rewrite bool_decide_eq_true_2 by done. cbn [negb].
  rewrite (bind_Ret _ _ st st1 (url, public_id) Hstore). cbn [fst snd].
  rewrite (bind_Ret _ _ st1 st2 (uuid4_source cfg (uuid_count st1))) by reflexivity.
  fold item.
  rewrite (bind_Ret _ _ st2 st2 (Owned (PDict m)))
    by (apply load_content_complete; try done; by apply (default_ok_same st1)).
  rewrite (bind_Ret _ _ st2 st2 (Owned (PDict (<["gallery" := PList (g ++ [item])]> m))))
    by (unfold mutate; cbn [deref py_getitem res_bind]; by rewrite Hg).
  rewrite (bind_Ret _ _ st2 (saved (PDict (<["gallery" := PList (g ++ [item])]> m)) st2) tt)
    by (by apply save_content_free).
  reflexivity.
Qed.

(** POST /api/gallery with one of the five categories, once the backend has
    stored the file: the new item (a fresh uuid as id, the stored url and
    reference, the category) is appended behind the persisted gallery, whose
    items keep their places; the rest of the document is unchanged. *)
Theorem upload_gallery_image_appends (cfg : config) (st st1 : state)
    (m : gmap string pyval) (g : list pyval) (category : string) (file : UploadFile)
    (url public_id : pyval) :
  category ∈ CATEGORIES ->
  LOCK st = false -> default_ok st ->
  content_json st = Some (Json (PDict m)) -> complete (PDict m) = true ->
  m !! "gallery" = Some (PList g) ->
  store_upload cfg file ("thesecretspot/gallery/" ++ category) "image" st
  = Ret (url, public_id) st1 ->
  upload_gallery_image cfg category file st
  = Ret (PDict {[ "item" := PDict {[ "id" := PStr (str (uuid4_source cfg (uuid_count st1)));
                                     "url" := url; "public_id" := public_id;
                                     "category" := PStr category ]};
                  "message" := PStr "Imagen añadida a galería" ]})
        (saved (PDict (<["gallery" :=
                          PList (g ++ [PDict {[ "id" := PStr (str (uuid4_source cfg (uuid_count st1)));
                                                "url" := url; "public_id" := public_id;
                                                "category" := PStr category ]}])]> m))
               (set_uuid_count (S (uuid_count st1)) st1)).
Proof. intros; eapply upload_gallery_image_appends_core; eassumption. Qed.

Lemma upload_gallery_image_appends_witness :
  upload_gallery_image local_config "manicura" video_upload sample_on_disk
  = Ret (PDict {[ "item" := PDict {[ "id" := PStr "00aa-1";
                                     "url" := PStr "/uploads/00aa0_v.mp4";
                                     "public_id" := PStr "00aa0_v.mp4";
                                     "category" := PStr "manicura" ]};
                  "message" := PStr "Imagen añadida a galería" ]})
        (saved (PDict (<["gallery" :=
                          PList (sample_gallery
                                 ++ [PDict {[ "id" := PStr "00aa-1";
                                              "url" := PStr "/uploads/00aa0_v.mp4";
                                              "public_id" := PStr "00aa0_v.mp4";
                                              "category" := PStr "manicura" ]}])]>
                         sample_fields))
               (set_uuid_count 2
                  (final_state (store_upload local_config video_upload
                                  "thesecretspot/gallery/manicura" "image" sample_on_disk)))).
Proof.
  apply (upload_gallery_image_appends local_config sample_on_disk
           (final_state (store_upload local_config video_upload
                           "thesecretspot/gallery/manicura" "image" sample_on_disk))
           sample_fields sample_gallery "manicura" video_upload
           (PStr "/uploads/00aa0_v.mp4") (PStr "00aa0_v.mp4")).
  - apply (bool_decide_unpack _). vm_compute. exact I.
  - reflexivity.
  - apply default_ok_initial.
  - reflexivity.
  - by_evaluation.
  - by_evaluation.
  - by_evaluation.
Defined.

(** When Cloudinary refuses the upload, each upload route answers 500 with
    the text of the failure, and the only thing that happened is the one
    call to Cloudinary: the document is neither loaded nor saved, whatever
    state the store and the lock are in. *)
Theorem cloudinary_failure_aborts_upload (cfg : config) (st : state) (file : UploadFile)
    (slot_key category msg : string) :
  USE_CLOUDINARY cfg = true ->
  (forall folder resource_type,
     cloudinary_upload cfg (body file) folder resource_type = inl msg) ->
  slot_key ∈ FIXED_SLOT_KEYS -> category ∈ CATEGORIES ->
  upload_hero_video cfg file st
  = Raise (HTTPException 500 ("Cloudinary error: " ++ msg))
          (log_call (CloudinaryUpload (body file) "thesecretspot/hero/api" "video") st) /\
  upload_slot_image cfg slot_key file st
  = Raise (HTTPException 500 ("Cloudinary error: " ++ msg))
          (log_call (CloudinaryUpload (body file) ("thesecretspot/slots/" ++ slot_key ++ "/api")
                                      "image") st) /\
  upload_gallery_image cfg category file st
  = Raise (HTTPException 500 ("Cloudinary error: " ++ msg))
          (log_call (CloudinaryUpload (body file) ("thesecretspot/gallery/" ++ category)
                                      "image") st).
Proof.
  intros Hcloud Hfail Hk Hc.
  assert (Hstore : forall folder resource_type,
             store_upload cfg file folder resource_type st
             = Raise (HTTPException 500 ("Cloudinary error: " ++ msg))
                     (log_call (CloudinaryUpload (body file) folder resource_type) st)).
  { intros folder resource_type. unfold store_upload, bind, modify. rewrite Hcloud, Hfail.
    reflexivity. }
  split; [|split].
  - unfold upload_hero_video. cbn [UploadFile_bool negb].
    by rewrite (bind_Raise _ _ st _ _ (Hstore _ _)).
  - unfold upload_slot_image. rewrite VALID_SLOTS_fixed.
    rewrite bool_decide_eq_true_2 by done. cbn [UploadFile_bool negb].
    by rewrite (bind_Raise _ _ st _ _ (Hstore _ _)).
  - unfold upload_gallery_image. cbn [UploadFile_bool negb].
    rewrite bool_decide_eq_true_2 by done. cbn [negb].
    by rewrite (bind_Raise _ _ st _ _ (Hstore _ _)).
Qed.

Lemma cloudinary_failure_aborts_upload_witness :
  upload_hero_video failing_cloud_config video_upload (initial_state None ∅)
  = Raise (HTTPException 500 ("Cloudinary error: " ++ "quota exceeded"))
          (log_call (CloudinaryUpload (body video_upload) "thesecretspot/hero/api" "video")
                    (initial_state None ∅)) /\
  upload_slot_image failing_cloud_config "about_img" video_upload (initial_state None ∅)
  = Raise (HTTPException 500 ("Cloudinary error: " ++ "quota exceeded"))
          (log_call (CloudinaryUpload (body video_upload)
                                      ("thesecretspot/slots/" ++ "about_img" ++ "/api") "image")
                    (initial_state None ∅)) /\
  upload_gallery_image failing_cloud_config "damas" video_upload (initial_state None ∅)
  = Raise (HTTPException 500 ("Cloudinary error: " ++ "quota exceeded"))
          (log_call (CloudinaryUpload (body video_upload) ("thesecretspot/gallery/" ++ "damas")
                                      "image")
                    (initial_state None ∅)).
Proof.
  apply (cloudinary_failure_aborts_upload failing_cloud_config (initial_state None ∅)
           video_upload "about_img" "damas" "quota exceeded").
  - reflexivity.
  - reflexivity.
  - apply (bool_decide_unpack _). vm_compute. exact I.
  - apply (bool_decide_unpack _). vm_compute. exact I.
Defined.

Lemma save_content_any (data : docref) (st : state) :
  LOCK st = false -> save_content data st = Ret tt (saved (deref st data) st).
Proof.
  intros Hl. unfold save_content, with_LOCK, bind, read, modify, saved. rewrite Hl.
  destruct data, st; cbn in *; subst; reflexivity.
Qed.

Lemma bind_Blocked {A B} (c : M A) (k : A -> M B) (st st' : state) :
  c st = Blocked st' -> bind c k st = Blocked st'.
Proof. intros H. unfold bind. by rewrite H. Qed.

(** Without content.json every route that loads the document hangs on the
    lock.  The upload routes store the file first: the media is with the
    backend, the request never answers, and no document is ever written. *)
Theorem routes_hang_without_content_file (cfg : config) (st : state) (file : UploadFile)
    (slot_key category id : string) :
  LOCK st = false -> content_json st = None ->
  slot_key ∈ FIXED_SLOT_KEYS -> category ∈ CATEGORIES ->
  get_gallery cfg st = Blocked (set_LOCK true st) /\
  delete_gallery_image cfg id st = Blocked (set_LOCK true st) /\
  (forall r st1,
     store_upload cfg file "thesecretspot/hero/api" "video" st = Ret r st1 ->
     upload_hero_video cfg file st = Blocked (set_LOCK true st1)) /\
  (forall r st1,
     store_upload cfg file ("thesecretspot/slots/" ++ slot_key ++ "/api") "image" st = Ret r st1 ->
     upload_slot_image cfg slot_key file st = Blocked (set_LOCK true st1)) /\
  (forall r st1,
     store_upload cfg file ("thesecretspot/gallery/" ++ category) "image" st = Ret r st1 ->
     upload_gallery_image cfg category file st
     = Blocked (set_LOCK true (set_uuid_count (S (uuid_count st1)) st1))).
Proof.
  intros Hl Hf Hk Hc.
  pose proof (load_content_missing_file st Hl Hf) as Hload.
  split; [|split; [|split; [|split]]].
  - unfold get_gallery. by rewrite (bind_Blocked _ _ st _ Hload).
  - unfold delete_gallery_image. by rewrite (bind_Blocked _ _ st _ Hload).
  - intros r st1 Hstore.
    destruct (store_upload_returns _ _ _ _ _ _ _ Hstore) as (Hf1 & _ & Hl1 & _).
    rewrite Hf in Hf1. rewrite Hl in Hl1.
    unfold upload_hero_video. cbn [UploadFile_bool negb].
    rewrite (bind_Ret _ _ st st1 r Hstore).
    by rewrite (bind_Blocked _ _ st1 _ (load_content_missing_file st1 Hl1 Hf1)).
  - intros r st1 Hstore.
    destruct (store_upload_returns _ _ _ _ _ _ _ Hstore) as (Hf1 & _ & Hl1 & _).
    rewrite Hf in Hf1. rewrite Hl in Hl1.
    unfold upload_slot_image. rewrite VALID_SLOTS_fixed.
    rewrite bool_decide_eq_true_2 by done. cbn [UploadFile_bool negb].
    rewrite (bind_Ret _ _ st st1 r Hstore).
    by rewrite (bind_Blocked _ _ st1 _ (load_content_missing_file st1 Hl1 Hf1)).
  - intros r st1 Hstore.
    destruct (store_upload_returns _ _ _ _ _ _ _ Hstore) as (Hf1 & _ & Hl1 & _).
    rewrite Hf in Hf1. rewrite Hl in Hl1.
    unfold upload_gallery_image. cbn [UploadFile_bool negb].
    rewrite bool_decide_eq_true_2 by done. cbn [negb].
    rewrite (bind_Ret _ _ st st1 r Hstore).
    rewrite (bind_Ret _ _ st1 (set_uuid_count (S (uuid_count st1)) st1)
               (uuid4_source cfg (uuid_count st1))) by reflexivity.
    by rewrite (bind_Blocked _ _ _ _
                  (load_content_missing_file (set_uuid_count (S (uuid_count st1)) st1) Hl1 Hf1)).
Qed.

Lemma routes_hang_without_content_file_witness :
  upload_hero_video local_config video_upload (initial_state None ∅)
  = Blocked (set_LOCK true
               (final_state (store_upload local_config video_upload
                               "thesecretspot/hero/api" "video" (initial_state None ∅)))) /\
  uploads (final_state (upload_hero_video local_config video_upload (initial_state None ∅)))
  !! "00aa0_v.mp4" = Some "VIDEO".
Proof.
  split; [|by_evaluation].
  destruct (routes_hang_without_content_file local_config (initial_state None ∅) video_upload
              "about_img" "damas" "a1") as (_ & _ & Hhero & _).
  - reflexivity.
  - reflexivity.
  - apply (bool_decide_unpack _). vm_compute. exact I.
  - apply (bool_decide_unpack _). vm_compute. exact I.
  - apply (Hhero (PStr "/uploads/00aa0_v.mp4", PStr "00aa0_v.mp4")). by_evaluation.
Defined.

(** An update made while content.json holds bytes that [json.load] rejects
    (the file itself can be opened, for reading and for writing): the handler
    works on the object [DEFAULT_CONTENT] itself, so the file is replaced by
    the defaults with the update in them (whatever the file held is gone),
    and [DEFAULT_CONTENT] carries the update from then on. *)
Theorem update_on_corrupt_file_replaces_it (cfg : config) (st st1 : state)
    (dm : gmap string pyval) (file : UploadFile) (url public_id : pyval) :
  LOCK st = false -> default_ok st ->
  content_json st = Some Garbage -> DEFAULT_CONTENT st = PDict dm ->
  store_upload cfg file "thesecretspot/hero/api" "video" st = Ret (url, public_id) st1 ->
  upload_hero_video cfg file st
  = Ret (PDict {[ "url" := url; "public_id" := public_id;
                  "message" := PStr "Hero video actualizado" ]})
        (saved (PDict (<["heroVideo" := url]> dm))
               (set_DEFAULT_CONTENT (PDict (<["heroVideo" := url]> dm)) st1)) /\
  content_json (final_state (upload_hero_video cfg file st))
  = Some (Json (PDict (<["heroVideo" := url]> dm))) /\
  DEFAULT_CONTENT (final_state (upload_hero_video cfg file st))
  = PDict (<["heroVideo" := url]> dm).
Proof.
  intros Hl Hok Hf Hd Hstore.
  destruct (store_upload_returns _ _ _ _ _ _ _ Hstore) as (Hf1 & Hd1 & Hl1 & _).
  rewrite Hf in Hf1. rewrite Hl in Hl1. rewrite Hd in Hd1.
  assert (Hok1 : default_ok st1) by (apply (default_ok_same st); by rewrite ?Hd1, ?Hd).
  assert (Hrun : upload_hero_video cfg file st
                 = Ret (PDict {[ "url" := url; "public_id" := public_id;
                                 "message" := PStr "Hero video actualizado" ]})
                       (saved (PDict (<["heroVideo" := url]> dm))
                              (set_DEFAULT_CONTENT (PDict (<["heroVideo" := url]> dm)) st1))).
  { unfold upload_hero_video. cbn [UploadFile_bool negb].
    rewrite (bind_Ret _ _ st st1 (url, public_id) Hstore). cbn [fst snd].
    rewrite (bind_Ret _ _ st1 st1 Shared) by (by apply load_content_garbage).
    rewrite (bind_Ret _ _ st1 (set_DEFAULT_CONTENT (PDict (<["heroVideo" := url]> dm)) st1) Shared)
      by (unfold mutate; cbn [deref]; by rewrite Hd1).
    rewrite (bind_Ret _ _ _ _ tt
               (save_content_any Shared
                  (set_DEFAULT_CONTENT (PDict (<["heroVideo" := url]> dm)) st1) Hl1)).
    reflexivity. }
  rewrite Hrun. by repeat split.
Qed.

Lemma update_on_corrupt_file_replaces_it_witness :
  content_json (final_state (upload_hero_video local_config video_upload garbage_at_startup))
  = Some (Json (PDict (<["heroVideo" := PStr "/uploads/00aa0_v.mp4"]>
                         {[ "heroVideo" := PNone; "slots" := PDict default_slots;
                            "gallery" := PList [] ]}))) /\
  DEFAULT_CONTENT (final_state (upload_hero_video local_config video_upload garbage_at_startup))
  = PDict (<["heroVideo" := PStr "/uploads/00aa0_v.mp4"]>
             {[ "heroVideo" := PNone; "slots" := PDict default_slots; "gallery" := PList [] ]}).
Proof.
  apply (update_on_corrupt_file_replaces_it local_config garbage_at_startup
           (final_state (store_upload local_config video_upload
                           "thesecretspot/hero/api" "video" garbage_at_startup))
           {[ "heroVideo" := PNone; "slots" := PDict default_slots; "gallery" := PList [] ]}
           video_upload (PStr "/uploads/00aa0_v.mp4") (PStr "00aa0_v.mp4")).
  - reflexivity.
  - apply default_ok_initial.
  - reflexivity.
  - reflexivity.
  - by_evaluation.
Defined.

(** ** Deleting: the first match, and what stands before it *)

Lemma id_differs_step (id : string) (i : nat) (it : pyval) (rest : list pyval) :
  id_differs id it = true -> find_index id i (it :: rest) = find_index id (S i) rest.
Proof.
  unfold id_differs. cbn [find_index].
  destruct (py_getitem it "id") as [e|v]; [discriminate|]. cbn [res_bind].
  by destruct (py_eq_str v id).
Qed.

Lemma find_index_stops_at_first_match_core (id : string) (i : nat) (g1 g2 : list pyval)
    (x : pyval) :
  forallb (id_differs id) g1 = true ->
  (item_id x = Some id -> find_index id i (g1 ++ x :: g2) = inr (Some (i + length g1))) /\
  (forall e, py_getitem x "id" = inl e -> find_index id i (g1 ++ x :: g2) = inl e) /\
  find_index id i g1 = inr None.
Proof.
  revert i. induction g1 as [|it g1 IH]; intros i Hall.
  - split; [|split].
    + intros Hid. cbn [app find_index length]. rewrite (item_id_getitem x id Hid).
      cbn [res_bind py_eq_str]. by rewrite String.eqb_refl, Nat.add_0_r.
    + intros e He. cbn [app find_index]. by rewrite He.
    + reflexivity.
  - cbn [forallb] in Hall. apply andb_true_iff in Hall as [Hit Hall].
    destruct (IH (S i) Hall) as (H1 & H2 & H3).
    cbn [app length]. rewrite !(id_differs_step id i it) by done.
    split; [|split]; try done.
    intros Hid. rewrite (H1 Hid). do 2 f_equal. lia.
Qed.

(** The search of line 278 looks at the entries in order and stops at the
    first whose "id" equals the wanted one: it answers with that position
    whatever comes after it; it raises what [it["id"]] raises on an entry
    that stands before any match; and it answers None when every entry has
    another id. *)
Theorem find_index_stops_at_first_match (id : string) (i : nat) (g1 g2 : list pyval)
    (x : pyval) :
  forallb (id_differs id) g1 = true ->
  (item_id x = Some id -> find_index id i (g1 ++ x :: g2) = inr (Some (i + length g1))) /\
  (forall e, py_getitem x "id" = inl e -> find_index id i (g1 ++ x :: g2) = inl e) /\
  find_index id i g1 = inr None.
Proof. intros; eapply find_index_stops_at_first_match_core; eassumption. Qed.

Lemma find_index_stops_at_first_match_witness :
  (item_id (sample_item "b2" "ninos") = Some "b2" ->
   find_index "b2" 0 ([sample_item "a1" "damas"] ++ sample_item "b2" "ninos" :: [PNone])
   = inr (Some (0 + length [sample_item "a1" "damas"]))) /\
  (forall e, py_getitem (sample_item "b2" "ninos") "id" = inl e ->
     find_index "b2" 0 ([sample_item "a1" "damas"] ++ sample_item "b2" "ninos" :: [PNone])
     = inl e) /\
  find_index "b2" 0 [sample_item "a1" "damas"] = inr None.
Proof.
  apply (find_index_stops_at_first_match "b2" 0 [sample_item "a1" "damas"] [PNone]
           (sample_item "b2" "ninos")).
  by_evaluation.
Defined.

Lemma is_gallery_item_differs (id : string) (g : list pyval) :
  forallb is_gallery_item g = true -> id ∉ gallery_ids g ->
  forallb (id_differs id) g = true.
Proof.
  induction g as [|it g IH]; intros Hall Hnot; [done|].
  cbn [forallb] in *. apply andb_true_iff in Hall as [Hit Hall].
  destruct (is_gallery_item_id it Hit) as (s & Hs & Hget).
  rewrite (gallery_ids_cons it g s Hs) in Hnot.
  apply not_elem_of_cons in Hnot as [Hne Hnot].
  rewrite IH by done. unfold id_differs. rewrite Hget. cbn [py_eq_str].
  by rewrite (proj2 (String.eqb_neq s id)) by congruence.
Qed.

Lemma delete_gallery_image_at (cfg : config) (st : state) (m : gmap string pyval)
    (g1 g2 : list pyval) (item : pyval) (id : string) :
  LOCK st = false -> default_ok st ->
  content_json st = Some (Json (PDict m)) -> complete (PDict m) = true ->
  m !! "gallery" = Some (PList (g1 ++ item :: g2)) ->
  forallb (id_differs id) g1 = true -> item_id item = Some id ->
  exists f dir log,
    delete_gallery_image cfg id st
    = Ret (PDict {[ "message" := PStr "Imagen eliminada"; "id" := PStr id ]})
          (saved (PDict (<["gallery" := PList (g1 ++ g2)]> m))
                 (State f (DEFAULT_CONTENT st) false dir (uuid_count st) log)).
Proof.
  intros Hl Hok Hf Hc Hg Hall Hid.
  destruct (find_index_stops_at_first_match_core id 0 g1 g2 item Hall) as (Hfind & _ & _).
  destruct (best_effort_delete_frame cfg item st) as (f & dir & log & Hdel).
  rewrite Hl in Hdel. exists f, dir, log.
  unfold delete_gallery_image.
  rewrite (bind_Ret _ _ st st (Owned (PDict m))) by (by apply load_content_complete).
  rewrite (bind_Ret _ _ st st (PDict m)) by reflexivity.
  rewrite (bind_Ret _ _ st st (PList (g1 ++ item :: g2)))
    by (unfold lift; cbn [py_getitem]; by rewrite Hg).
  rewrite (bind_Ret _ _ st st (g1 ++ item :: g2)%list) by reflexivity.
  rewrite (bind_Ret _ _ st st (Some (0 + length g1))) by (unfold lift; by rewrite Hfind).
  rewrite (bind_Ret _ _ st st item)
    by (unfold lift; cbn [py_index plus]; by rewrite list_lookup_middle).
  rewrite (bind_Ret _ _ _ _ tt Hdel).
  set (st1 := State f (DEFAULT_CONTENT st) false dir (uuid_count st) log).
  rewrite (bind_Ret _ _ st1 st1 (Owned (PDict (<["gallery" := PList (g1 ++ g2)]> m)))).
  - rewrite (bind_Ret _ _ st1 (saved (PDict (<["gallery" := PList (g1 ++ g2)]> m)) st1) tt)
      by (by apply save_content_free).
    reflexivity.
  - unfold mutate. cbn [deref py_getitem res_bind]. rewrite Hg.
    cbn [py_delitem res_bind py_setitem plus]. by rewrite delete_middle.
Qed.

Lemma complete_set_gallery (m : gmap string pyval) (g : pyval) :
  complete (PDict m) = true -> complete (PDict (<["gallery" := g]> m)) = true.
Proof.
  intros Hc. destruct (complete_inv _ Hc) as (m0 & s & [= <-] & Hs & Hsub & _ & [h Hh]).
  cbn [complete]. rewrite lookup_insert_ne by done. rewrite lookup_insert_ne by done.
  rewrite lookup_insert_eq, Hh, Hs. by apply bool_decide_eq_true.
Qed.

(** DELETE removes the first entry whose id matches and only that one, also
    when ids repeat: with two entries of the same id, the first delete takes
    out the earlier one, and the same delete, repeated, succeeds again and
    takes out the later one. *)
Theorem delete_twice_with_duplicate_ids (cfg : config) (st : state) (m : gmap string pyval)
    (g1 g2 g3 : list pyval) (first second : pyval) (id : string) :
  LOCK st = false -> default_ok st ->
  content_json st = Some (Json (PDict m)) -> complete (PDict m) = true ->
  m !! "gallery" = Some (PList (g1 ++ first :: g2 ++ second :: g3)) ->
  forallb (id_differs id) g1 = true -> forallb (id_differs id) g2 = true ->
  item_id first = Some id -> item_id second = Some id ->
  exists st1 st2,
    delete_gallery_image cfg id st
    = Ret (PDict {[ "message" := PStr "Imagen eliminada"; "id" := PStr id ]}) st1 /\
    content_json st1
    = Some (Json (PDict (<["gallery" := PList (g1 ++ g2 ++ second :: g3)]> m))) /\
    delete_gallery_image cfg id st1
    = Ret (PDict {[ "message" := PStr "Imagen eliminada"; "id" := PStr id ]}) st2 /\
    content_json st2 = Some (Json (PDict (<["gallery" := PList (g1 ++ g2 ++ g3)]> m))).
Proof.
  intros Hl Hok Hf Hc Hg H1 H2 Hid1 Hid2.
  destruct (delete_gallery_image_at cfg st m g1 (g2 ++ second :: g3) first id)
    as (f1 & dir & log & Hdel1); try done.
  set (m1 := <["gallery" := PList (g1 ++ g2 ++ second :: g3)]> m) in *.
  set (st1 := saved (PDict m1) _) in Hdel1.
  destruct (delete_gallery_image_at cfg st1 m1 (g1 ++ g2) g3 second id)
    as (f2 & dir' & log' & Hdel2); try done.
  - by apply complete_set_gallery.
  - unfold m1. rewrite lookup_insert_eq. by rewrite <- app_assoc.
  - rewrite forallb_app. by rewrite H1, H2.
  - eexists st1, _. split; [exact Hdel1|]. split; [reflexivity|].
    split; [exact Hdel2|]. unfold saved, m1. cbn [content_json log_call set_content_json].
    by rewrite insert_insert_eq, <- app_assoc.
Qed.

Lemma delete_twice_with_duplicate_ids_witness :
  exists st1 st2,
    delete_gallery_image cloud_config "a1" twin_on_disk
    = Ret (PDict {[ "message" := PStr "Imagen eliminada"; "id" := PStr "a1" ]}) st1 /\
    content_json st1
    = Some (Json (PDict (<["gallery" := PList ([] ++ [sample_item "b2" "ninos"]
                                               ++ sample_item "a1" "manicura" :: [])]>
                           twin_fields))) /\
    delete_gallery_image cloud_config "a1" st1
    = Ret (PDict {[ "message" := PStr "Imagen eliminada"; "id" := PStr "a1" ]}) st2 /\
    content_json st2
    = Some (Json (PDict (<["gallery" := PList ([] ++ [sample_item "b2" "ninos"] ++ [])]>
                           twin_fields))).
Proof.
  apply (delete_twice_with_duplicate_ids cloud_config twin_on_disk twin_fields
           [] [sample_item "b2" "ninos"] [] (sample_item "a1" "damas")
           (sample_item "a1" "manicura") "a1").
  - reflexivity.
  - apply default_ok_initial.
  - reflexivity.
  - by_evaluation.
  - by_evaluation.
  - reflexivity.
  - by_evaluation.
  - by_evaluation.
  - by_evaluation.
Defined.

(** An entry that stands before any match and has no usable "id" (it is not
    a dict, or the key is missing) makes DELETE raise what the lookup raises,
    before anything is deleted or saved: the state is unchanged. *)
Theorem delete_raises_on_entry_without_id (cfg : config) (st : state)
    (m : gmap string pyval) (g1 g2 : list pyval) (bad : pyval) (id : string) (e : exn) :
  LOCK st = false -> default_ok st ->
  content_json st = Some (Json (PDict m)) -> complete (PDict m) = true ->
  m !! "gallery" = Some (PList (g1 ++ bad :: g2)) ->
  forallb (id_differs id) g1 = true -> py_getitem bad "id" = inl e ->
  delete_gallery_image cfg id st = Raise e st.
Proof.
  intros Hl Hok Hf Hc Hg Hall Hbad.
  destruct (find_index_stops_at_first_match_core id 0 g1 g2 bad Hall) as (_ & Hfind & _).
  unfold delete_gallery_image.
  rewrite (bind_Ret _ _ st st (Owned (PDict m))) by (by apply load_content_complete).
  rewrite (bind_Ret _ _ st st (PDict m)) by reflexivity.
  rewrite (bind_Ret _ _ st st (PList (g1 ++ bad :: g2)))
    by (unfold lift; cbn [py_getitem]; by rewrite Hg).
  rewrite (bind_Ret _ _ st st (g1 ++ bad :: g2)%list) by reflexivity.
  rewrite (bind_Raise _ _ st st e) by (unfold lift; by rewrite (Hfind e Hbad)).
  reflexivity.
Qed.

Lemma delete_raises_on_entry_without_id_witness :
  delete_gallery_image local_config "a1" broken_on_disk = Raise (KeyError "id") broken_on_disk.
Proof.
  apply (delete_raises_on_entry_without_id local_config broken_on_disk broken_fields
           [] [sample_item "a1" "damas"] (PDict {[ "url" := PStr "https://cdn/x.jpg" ]})
           "a1" (KeyError "id")).
  - reflexivity.
  - apply default_ok_initial.
  - reflexivity.
  - by_evaluation.
  - by_evaluation.
  - reflexivity.
  - by_evaluation.
Defined.

(** ** Deleting, on every document the load returns *)

Lemma load_content_Ret_inv (st st0 : state) (data : docref) :
  default_ok st -> load_content st = Ret data st0 ->
  st0 = st /\ LOCK st = false /\ complete (deref st data) = true.
Proof.
  intros Hok Hload. destruct (LOCK st) eqn:Hl.
  { unfold load_content, with_LOCK in Hload. rewrite Hl in Hload. discriminate. }
  destruct (content_json st) as [[|v]|] eqn:Hf.
  - rewrite (load_content_garbage st Hl Hok Hf) in Hload. injection Hload as <- <-.
    split; [done|]. split; [done|].
    destruct Hok as (m & s & Hd & Hs & Hdom & [g Hg] & [h Hh]). cbn [deref]. rewrite Hd.
    cbn [complete]. rewrite Hh, Hs, Hg. apply bool_decide_eq_true. by rewrite Hdom.
  - destruct (default_ok_items st Hok) as (m & s & Hd & Hs & Hdom & Hne & _).
    rewrite (load_content_json st v m s Hl Hd Hs Hf) in Hload.
    destruct (merge_defaults (map_to_list s) v) as [e|d'] eqn:Hm; [discriminate|].
    injection Hload as <- <-.
    destruct (merge_defaults_inv s v d' Hne Hm) as (m0 & s0 & -> & Hv & ->).
    split; [done|]. split; [done|].
    cbn [deref complete]. rewrite merged_heroVideo, merged_slots, merged_gallery.
    apply bool_decide_eq_true. rewrite dom_union_L, Hdom.
    generalize FIXED_SLOT_KEYS. set_solver.
  - rewrite (load_content_missing_file st Hl Hf) in Hload. discriminate.
Qed.

(** What the search of line 278 can meet in a list: only entries with
    another id; a first entry with the wanted id; or, before any match, an
    entry on which [it["id"]] raises. *)
Lemma gallery_cases (id : string) (g : list pyval) :
  forallb (id_differs id) g = true \/
  (exists g1 item g2,
     g = (g1 ++ item :: g2)%list /\ forallb (id_differs id) g1 = true /\
     item_id item = Some id) \/
  (exists g1 bad g2 e,
     g = (g1 ++ bad :: g2)%list /\ forallb (id_differs id) g1 = true /\
     py_getitem bad "id" = inl e).
Proof.
  induction g as [|it g IH]; [by left|].
  destruct (py_getitem it "id") as [e|v] eqn:Hget.
  { right. right. by exists [], it, g, e. }
  destruct (py_eq_str v id) eqn:Heq.
  { right. left. exists [], it, g. split; [done|]. split; [done|].
    destruct v as [| | | |s| |]; try discriminate. cbn [py_eq_str] in Heq.
    apply String.eqb_eq in Heq as ->.
    destruct it as [| | | | | |mi]; try discriminate. cbn [py_getitem item_id] in *.
    destruct (mi !! "id") as [x|]; [|discriminate]. by injection Hget as ->. }
  assert (Hit : id_differs id it = true) by (unfold id_differs; by rewrite Hget, Heq).
  destruct IH as [Hall|[(g1 & item & g2 & -> & Hall & Hid)|(g1 & bad & g2 & e & -> & Hall & He)]].
  - left. cbn [forallb]. by rewrite Hit, Hall.
  - right. left. exists (it :: g1), item, g2. cbn [forallb]. by rewrite Hit, Hall.
  - right. right. exists (it :: g1), bad, g2, e. cbn [forallb]. by rewrite Hit, Hall.
Qed.

Lemma getitem_error (v : pyval) (key : string) (e : exn) :
  py_getitem v key = inl e -> e = KeyError key \/ e = TypeError.
Proof.
  destruct v as [| | | | | |m]; cbn [py_getitem]; try (intros [= <-]; by right).
  destruct (m !! key); [discriminate|]. intros [= <-]. by left.
Qed.

Lemma delete_gallery_image_none (cfg : config) (st : state) (data : docref)
    (m : gmap string pyval) (g : list pyval) (id : string) :
  load_content st = Ret data st -> deref st data = PDict m ->
  m !! "gallery" = Some (PList g) -> forallb (id_differs id) g = true ->
  delete_gallery_image cfg id st = Raise (HTTPException 404 "Imagen no encontrada") st.
Proof.
  intros Hload Hd Hg Hall.
  destruct (find_index_stops_at_first_match_core id 0 g [] PNone Hall) as (_ & _ & Hfind).
  unfold delete_gallery_image.
  rewrite (bind_Ret _ _ st st data Hload).
  rewrite (bind_Ret _ _ st st (PDict m)) by (unfold read; by rewrite Hd).
  rewrite (bind_Ret _ _ st st (PList g)) by (unfold lift; cbn [py_getitem]; by rewrite Hg).
  rewrite (bind_Ret _ _ st st g) by reflexivity.
  rewrite (bind_Ret _ _ st st None) by (unfold lift; by rewrite Hfind).
  reflexivity.
Qed.

Lemma delete_gallery_image_bad (cfg : config) (st : state) (data : docref)
    (m : gmap string pyval) (g1 g2 : list pyval) (bad : pyval) (id : string) (e : exn) :
  load_content st = Ret data st -> deref st data = PDict m ->
  m !! "gallery" = Some (PList (g1 ++ bad :: g2)) ->
  forallb (id_differs id) g1 = true -> py_getitem bad "id" = inl e ->
  delete_gallery_image cfg id st = Raise e st.
Proof.
  intros Hload Hd Hg Hall Hbad.
  destruct (find_index_stops_at_first_match_core id 0 g1 g2 bad Hall) as (_ & Hfind & _).
  unfold delete_gallery_image.
  rewrite (bind_Ret _ _ st st data Hload).
  rewrite (bind_Ret _ _ st st (PDict m)) by (unfold read; by rewrite Hd).
  rewrite (bind_Ret _ _ st st (PList (g1 ++ bad :: g2)))
    by (unfold lift; cbn [py_getitem]; by rewrite Hg).
  rewrite (bind_Ret _ _ st st (g1 ++ bad :: g2)%list) by reflexivity.
  rewrite (bind_Raise _ _ st st e) by (unfold lift; by rewrite (Hfind e Hbad)).
  reflexivity.
Qed.

(** The state a successful delete leaves: the document saved, and
    [DEFAULT_CONTENT] changed with it when the document was that object. *)
Lemma delete_gallery_image_first (cfg : config) (st : state) (data : docref)
    (m : gmap string pyval) (g1 g2 : list pyval) (item : pyval) (id : string) :
  load_content st = Ret data st -> LOCK st = false -> deref st data = PDict m ->
  m !! "gallery" = Some (PList (g1 ++ item :: g2)) ->
  forallb (id_differs id) g1 = true -> item_id item = Some id ->
  exists f dir log,
    delete_gallery_image cfg id st
    = Ret (PDict {[ "message" := PStr "Imagen eliminada"; "id" := PStr id ]})
          (saved (PDict (<["gallery" := PList (g1 ++ g2)]> m))
                 (State f (match data with
                           | Shared => PDict (<["gallery" := PList (g1 ++ g2)]> m)
                           | Owned _ => DEFAULT_CONTENT st
                           end) false dir (uuid_count st) log)).
Proof.
  intros Hload Hl Hd Hg Hall Hid.
  destruct (find_index_stops_at_first_match_core id 0 g1 g2 item Hall) as (Hfind & _ & _).
  destruct (best_effort_delete_frame cfg item st) as (f & dir & log & Hdel).
  rewrite Hl in Hdel. exists f, dir, log.
  unfold delete_gallery_image.
  rewrite (bind_Ret _ _ st st data Hload).
  rewrite (bind_Ret _ _ st st (PDict m)) by (unfold read; by rewrite Hd).
  rewrite (bind_Ret _ _ st st (PList (g1 ++ item :: g2)))
    by (unfold lift; cbn [py_getitem]; by rewrite Hg).
  rewrite (bind_Ret _ _ st st (g1 ++ item :: g2)%list) by reflexivity.
  rewrite (bind_Ret _ _ st st (Some (0 + length g1))) by (unfold lift; by rewrite Hfind).
  rewrite (bind_Ret _ _ st st item)
    by (unfold lift; cbn [py_index plus]; by rewrite list_lookup_middle).
  rewrite (bind_Ret _ _ _ _ tt Hdel).
  set (st1 := State f (DEFAULT_CONTENT st) false dir (uuid_count st) log).
  set (m1 := <["gallery" := PList (g1 ++ g2)]> m).
  assert (Hd1 : deref st1 data = PDict m) by (by destruct data).
  destruct data as [|d].
  - rewrite (bind_Ret _ _ st1 (set_DEFAULT_CONTENT (PDict m1) st1) Shared).
    + rewrite (bind_Ret _ _ (set_DEFAULT_CONTENT (PDict m1) st1)
                 (saved (PDict m1) (set_DEFAULT_CONTENT (PDict m1) st1)) tt)
        by (by apply save_content_any).
      reflexivity.
    + unfold mutate. rewrite Hd1. cbn [py_getitem res_bind]. rewrite Hg.
      cbn [py_delitem res_bind py_setitem plus]. by rewrite delete_middle.
  - rewrite (bind_Ret _ _ st1 st1 (Owned (PDict m1))).
    + rewrite (bind_Ret _ _ st1 (saved (PDict m1) st1) tt)
        by (by apply (save_content_any (Owned (PDict m1)))).
      reflexivity.
    + unfold mutate. rewrite Hd1. cbn [py_getitem res_bind]. rewrite Hg.
      cbn [py_delitem res_bind py_setitem plus]. by rewrite delete_middle.
Qed.

(** C9 (as the code has it).  Take any state in which the load returns a
    document whose gallery is a list, and any behaviour of the media backend.
    If every entry carries an id other than the wanted one, DELETE fails with
    404 and leaves the state as it was.  If the first entry with the wanted
    id has only entries with other ids before it, DELETE removes that entry
    and no other, saves the document as its last call and returns the id; the
    same DELETE, repeated, fails with 404 exactly when every entry behind the
    removed one carries another id, as it does when ids are unique.  If an
    entry on which [it["id"]] raises stands before any match, DELETE raises
    that error, not a 404, and leaves the state as it was.  Every gallery is
    in one of the three cases. *)
Theorem C9_delete_gallery_image (cfg : config) (st st0 : state) (data : docref)
    (g : list pyval) (id : string) :
  default_ok st -> load_content st = Ret data st0 ->
  py_getitem (deref st0 data) "gallery" = inr (PList g) ->
  (forallb (id_differs id) g = true ->
   delete_gallery_image cfg id st = Raise (HTTPException 404 "Imagen no encontrada") st) /\
  (forall g1 item g2,
     g = (g1 ++ item :: g2)%list -> forallb (id_differs id) g1 = true ->
     item_id item = Some id ->
     exists st1 d1,
       delete_gallery_image cfg id st
       = Ret (PDict {[ "message" := PStr "Imagen eliminada"; "id" := PStr id ]}) st1 /\
       py_setitem (deref st0 data) "gallery" (PList (g1 ++ g2)) = inr d1 /\
       content_json st1 = Some (Json d1) /\
       head (calls st1) = Some (Save d1) /\
       (delete_gallery_image cfg id st1
        = Raise (HTTPException 404 "Imagen no encontrada") st1
        <-> forallb (id_differs id) g2 = true)) /\
  (forall g1 bad g2 e,
     g = (g1 ++ bad :: g2)%list -> forallb (id_differs id) g1 = true ->
     py_getitem bad "id" = inl e ->
     delete_gallery_image cfg id st = Raise e st) /\
  (forallb (id_differs id) g = true \/
   (exists g1 item g2,
      g = (g1 ++ item :: g2)%list /\ forallb (id_differs id) g1 = true /\
      item_id item = Some id) \/
   (exists g1 bad g2 e,
      g = (g1 ++ bad :: g2)%list /\ forallb (id_differs id) g1 = true /\
      py_getitem bad "id" = inl e)).
Proof.
  intros Hok Hload Hgal.
  destruct (load_content_Ret_inv st st0 data Hok Hload) as (-> & Hl & Hc).
  destruct (complete_inv _ Hc) as (m & s & Hd & Hs & Hsub & _ & Hh).
  rewrite Hd in Hgal. cbn [py_getitem] in Hgal.
  destruct (m !! "gallery") as [gv|] eqn:Hg; [|discriminate]. injection Hgal as ->.
  split; [|split; [|split]].
  - intros Hall. by apply (delete_gallery_image_none cfg st data m g id).
  - intros g1 item g2 -> Hall Hid.
    destruct (delete_gallery_image_first cfg st data m g1 g2 item id Hload Hl Hd Hg Hall Hid)
      as (f & dir & log & Hdel).
    set (m1 := <["gallery" := PList (g1 ++ g2)]> m) in *.
    set (st1 := saved (PDict m1) _) in Hdel.
    exists st1, (PDict m1). split; [exact Hdel|]. rewrite Hd.
    split; [reflexivity|]. split; [reflexivity|]. split; [reflexivity|].
    assert (Hc1 : complete (PDict m1) = true).
    { apply complete_set_gallery. by rewrite <- Hd. }
    assert (Hok1 : default_ok st1).
    { destruct data as [|d].
      - cbn [deref] in Hd. destruct Hok as (m' & s' & Hd' & Hs' & Hdom' & _ & Hh').
        rewrite Hd in Hd'. injection Hd' as <-.
        exists m1, s'. split; [reflexivity|]. unfold m1.
        split; [by rewrite lookup_insert_ne|]. split; [done|].
        split; [rewrite lookup_insert_eq; by eauto|by rewrite lookup_insert_ne].
      - by apply (default_ok_same st). }
    assert (Hload1 : load_content st1 = Ret (Owned (PDict m1)) st1).
    { by apply load_content_complete. }
    assert (Hg1 : m1 !! "gallery" = Some (PList (g1 ++ g2))) by apply lookup_insert_eq.
    split.
    + intros H404.
      destruct (gallery_cases id (g1 ++ g2))
        as [Hall'|[(h1 & it & h2 & Heq & Hh1 & Hit)|(h1 & bad & h2 & e & Heq & Hh1 & He)]].
      * rewrite forallb_app in Hall'. by apply andb_true_iff in Hall' as [_ ?].
      * rewrite Heq in Hg1.
        destruct (delete_gallery_image_first cfg st1 (Owned (PDict m1)) m1 h1 h2 it id)
          as (f' & dir' & log' & Hdel'); try done.
        rewrite Hdel' in H404. discriminate.
      * rewrite Heq in Hg1.
        rewrite (delete_gallery_image_bad cfg st1 (Owned (PDict m1)) m1 h1 h2 bad id e)
          in H404 by done.
        injection H404 as ->. by destruct (getitem_error _ _ _ He).
    + intros Hall2.
      apply (delete_gallery_image_none cfg st1 (Owned (PDict m1)) m1 (g1 ++ g2) id);
        try done.
      rewrite forallb_app. by rewrite Hall, Hall2.
  - intros g1 bad g2 e -> Hall He.
    by apply (delete_gallery_image_bad cfg st data m g1 g2 bad id e).
  - apply gallery_cases.
Qed.

(** C9 as stated fails where ids repeat, which nothing in the load rules
    out: with two entries of id "a1" on disk, DELETE of "a1" answers with the
    id, and the same DELETE again answers with the id once more instead of
    404, taking out the second entry. *)
Lemma C9_repeated_delete_is_no_404_on_duplicate_ids :
  load_content twin_on_disk = Ret (Owned (PDict twin_fields)) twin_on_disk /\
  twin_fields !! "gallery"
  = Some (PList [sample_item "a1" "damas"; sample_item "b2" "ninos";
                 sample_item "a1" "manicura"]) /\
  delete_gallery_image local_config "a1" twin_on_disk
  = Ret (PDict {[ "message" := PStr "Imagen eliminada"; "id" := PStr "a1" ]})
        (saved (PDict (<["gallery" := PList [sample_item "b2" "ninos";
                                             sample_item "a1" "manicura"]]> twin_fields))
               twin_on_disk) /\
  delete_gallery_image local_config "a1"
    (saved (PDict (<["gallery" := PList [sample_item "b2" "ninos";
                                         sample_item "a1" "manicura"]]> twin_fields))
           twin_on_disk)
  = Ret (PDict {[ "message" := PStr "Imagen eliminada"; "id" := PStr "a1" ]})
        (saved (PDict (<["gallery" := PList [sample_item "b2" "ninos"]]> twin_fields))
               (saved (PDict (<["gallery" := PList [sample_item "b2" "ninos";
                                                    sample_item "a1" "manicura"]]>
                                twin_fields))
                      twin_on_disk)).
Proof.
  split; [by_evaluation|]. split; [by_evaluation|]. split; by_evaluation.
Qed.

Lemma C9_delete_gallery_image_witness :
  exists st1 d1,
    delete_gallery_image local_config "b2" twin_on_disk
    = Ret (PDict {[ "message" := PStr "Imagen eliminada"; "id" := PStr "b2" ]}) st1 /\
    py_setitem (deref twin_on_disk (Owned (PDict twin_fields))) "gallery"
      (PList ([sample_item "a1" "damas"] ++ [sample_item "a1" "manicura"])) = inr d1 /\
    content_json st1 = Some (Json d1) /\
    head (calls st1) = Some (Save d1) /\
    (delete_gallery_image local_config "b2" st1
     = Raise (HTTPException 404 "Imagen no encontrada") st1
     <-> forallb (id_differs "b2") [sample_item "a1" "manicura"] = true).
Proof.
  assert (Hok : default_ok twin_on_disk) by apply default_ok_initial.
  assert (Hload : load_content twin_on_disk = Ret (Owned (PDict twin_fields)) twin_on_disk)
    by by_evaluation.
  assert (Hg : py_getitem (deref twin_on_disk (Owned (PDict twin_fields))) "gallery"
               = inr (PList [sample_item "a1" "damas"; sample_item "b2" "ninos";
                             sample_item "a1" "manicura"]))
    by by_evaluation.
  apply (proj1 (proj2 (C9_delete_gallery_image local_config twin_on_disk twin_on_disk
                         (Owned (PDict twin_fields)) _ "b2" Hok Hload Hg))
           [sample_item "a1" "damas"] (sample_item "b2" "ninos")
           [sample_item "a1" "manicura"]).
  - reflexivity.
  - by_evaluation.
  - by_evaluation.
Defined.

(** ** Adding and deleting again *)

Lemma saved_LOCK (d : pyval) (st : state) : LOCK (saved d st) = LOCK st.
Proof. reflexivity. Qed.

(** Adding a gallery image and then deleting it by the id the upload
    returned leaves the persisted document exactly as it was before the two
    requests, provided the fresh uuid is not already an id of the gallery. *)
Theorem add_then_delete_restores_document (cfg : config) (st st1 : state)
    (m : gmap string pyval) (g : list pyval) (category : string) (file : UploadFile)
    (url public_id : pyval) :
  category ∈ CATEGORIES ->
  LOCK st = false -> default_ok st ->
  content_json st = Some (Json (PDict m)) -> well_formed (PDict m) = true ->
  m !! "gallery" = Some (PList g) ->
  store_upload cfg file ("thesecretspot/gallery/" ++ category) "image" st
  = Ret (url, public_id) st1 ->
  str (uuid4_source cfg (uuid_count st1)) ∉ gallery_ids g ->
  exists resp st2 st3,
    upload_gallery_image cfg category file st = Ret resp st2 /\
    content_json st2 <> Some (Json (PDict m)) /\
    delete_gallery_image cfg (str (uuid4_source cfg (uuid_count st1))) st2
    = Ret (PDict {[ "message" := PStr "Imagen eliminada";
                    "id" := PStr (str (uuid4_source cfg (uuid_count st1))) ]}) st3 /\
    content_json st3 = Some (Json (PDict m)).
Proof.
  intros Hk Hl Hok Hf Hwf Hg Hstore Hfresh.
  pose proof (well_formed_complete _ Hwf) as Hc.
  destruct (well_formed_inv _ Hwf) as (m0 & hero & s & g0 & [= <-] & _ & _ & Hg0 & _ & Hall & _).
  rewrite Hg in Hg0. injection Hg0 as <-.
  pose proof (upload_gallery_image_appends_core cfg st st1 m g category file url public_id
                Hk Hl Hok Hf Hc Hg Hstore) as Hadd.
  destruct (store_upload_returns _ _ _ _ _ _ _ Hstore) as (Hf1 & Hd1 & Hl1 & _).
  set (new_id := str (uuid4_source cfg (uuid_count st1))) in *.
  set (item := PDict {[ "id" := PStr new_id; "url" := url; "public_id" := public_id;
                        "category" := PStr category ]}) in *.
  set (m2 := <["gallery" := PList (g ++ [item])]> m) in *.
  set (st2 := saved (PDict m2) _) in Hadd.
  destruct (delete_gallery_image_at cfg st2 m2 g [] item new_id) as (f3 & dir & log & Hdel).
  - unfold st2. rewrite saved_LOCK. cbn [LOCK set_uuid_count]. by rewrite Hl1, Hl.
  - apply (default_ok_same st); [|done]. unfold st2, saved. cbn. exact Hd1.
  - reflexivity.
  - by apply complete_set_gallery.
  - unfold m2. by rewrite lookup_insert_eq.
  - by apply is_gallery_item_differs.
  - unfold item. cbn [item_id]. by rewrite lookup_insert_eq.
  - eexists _, st2, _. split; [exact Hadd|]. split; [|split; [exact Hdel|]].
    + unfold st2, saved, m2. cbn [content_json log_call set_content_json].
      intros [= Heq].
      assert (Hlook : (<["gallery" := PList (g ++ [item])]> m) !! "gallery" = m !! "gallery")
        by (by rewrite Heq).
      rewrite lookup_insert_eq, Hg in Hlook. injection Hlook as Hlen.
      apply (f_equal length) in Hlen. rewrite length_app in Hlen. cbn in Hlen. lia.
    + unfold saved, m2. cbn [content_json log_call set_content_json].
      by rewrite app_nil_r, insert_insert_eq, (insert_id m "gallery" (PList g) Hg).
Qed.

Lemma add_then_delete_restores_document_witness :
  exists resp st2 st3,
    upload_gallery_image local_config "manicura" video_upload sample_on_disk = Ret resp st2 /\
    content_json st2 <> Some (Json (PDict sample_fields)) /\
    delete_gallery_image local_config
      (str (uuid4_source local_config
              (uuid_count (final_state (store_upload local_config video_upload
                                          "thesecretspot/gallery/manicura" "image"
                                          sample_on_disk))))) st2
    = Ret (PDict {[ "message" := PStr "Imagen eliminada";
                    "id" := PStr (str (uuid4_source local_config
                              (uuid_count (final_state (store_upload local_config video_upload
                                             "thesecretspot/gallery/manicura" "image"
                                             sample_on_disk))))) ]}) st3 /\
    content_json st3 = Some (Json (PDict sample_fields)).
Proof.
  apply (add_then_delete_restores_document local_config sample_on_disk
           (final_state (store_upload local_config video_upload
                           "thesecretspot/gallery/manicura" "image" sample_on_disk))
           sample_fields sample_gallery "manicura" video_upload
           (PStr "/uploads/00aa0_v.mp4") (PStr "00aa0_v.mp4")).
  - apply (bool_decide_unpack _). vm_compute. exact I.
  - reflexivity.
  - apply default_ok_initial.
  - reflexivity.
  - by_evaluation.
  - by_evaluation.
  - by_evaluation.
  - apply (bool_decide_unpack _). vm_compute. exact I.
Defined.

(** ** Reading *)

Lemma res_mapM_ok {A B} (f : A -> res B) (h : A -> B) (l : list A) :
  Forall (fun x => f x = inr (h x)) l -> res_mapM f l = inr (h <$> l).
Proof.
  induction 1 as [|x l Hx _ IH]; [done|].
  cbn [res_mapM]. rewrite Hx. cbn [res_bind]. rewrite IH. reflexivity.
Qed.

Lemma is_str_inv (o : option pyval) : is_str o = true -> exists s, o = Some (PStr s).
Proof. destruct o as [[| | | |s| |]|]; try discriminate. eauto. Qed.

Lemma GalleryItem_new_ok (cfg : config) (item : pyval) :
  (forall s, pydantic_str cfg (PStr s) = Some s) ->
  is_gallery_item item = true ->
  GalleryItem_new cfg item = inr (GalleryItem_of item).
Proof.
  intros Hp. destruct item as [| | | | | |m]; try discriminate.
  cbn [is_gallery_item]. rewrite !andb_true_iff. intros (((Hid & Hurl) & Hpid) & Hcat).
  destruct (is_str_inv _ Hid) as [s1 H1]. destruct (is_str_inv _ Hurl) as [s2 H2].
  destruct (is_str_inv _ Hpid) as [s3 H3].
  destruct (m !! "category") as [[| | | |s4| |]|] eqn:H4; try discriminate.
  unfold GalleryItem_new, GalleryItem_of, validate_str, field_str.
  rewrite H1, H2, H3, H4, !Hp. reflexivity.
Qed.

Lemma validate_optional_str_ok (cfg : config) (v : pyval) :
  (forall s, pydantic_str cfg (PStr s) = Some s) ->
  is_optional_str v = true ->
  validate_optional_str cfg v = inr (to_optional_str v).
Proof.
  intros Hp. destruct v; try discriminate; intros _; [done|].
  unfold validate_optional_str. by rewrite Hp.
Qed.

Lemma validate_slots_ok (cfg : config) (s : gmap string pyval) :
  (forall s, pydantic_str cfg (PStr s) = Some s) ->
  map_Forall (fun _ v => is_optional_str v = true) s ->
  validate_slots cfg (PDict s) = inr (to_optional_str <$> s).
Proof.
  intros Hp Hall. unfold validate_slots.
  rewrite (res_mapM_ok _ (prod_map id to_optional_str)).
  - cbn [res_bind]. by rewrite list_to_map_fmap, list_to_map_to_list.
  - apply list.Forall_forall. intros [k v] Hkv%elem_of_map_to_list.
    cbn [fst snd]. rewrite (validate_optional_str_ok cfg v Hp); [done|].
    by apply (Hall k v).
Qed.

Lemma well_formed_values (m s : gmap string pyval) (hero : pyval) :
  well_formed (PDict m) = true ->
  m !! "heroVideo" = Some hero -> m !! "slots" = Some (PDict s) ->
  is_optional_str hero = true /\ map_Forall (fun _ v => is_optional_str v = true) s.
Proof.
  cbn [well_formed]. intros Hwf Hh Hs. rewrite Hh, Hs in Hwf.
  destruct (m !! "gallery") as [[| | | | |g|]|]; try discriminate.
  rewrite !andb_true_iff, !bool_decide_eq_true in Hwf.
  by destruct Hwf as ((((H1 & _) & H3) & _) & _).
Qed.

Lemma get_content_projects_document_core (cfg : config) (st : state)
    (m s : gmap string pyval) (hero : pyval) (g : list pyval) :
  (forall x, pydantic_str cfg (PStr x) = Some x) ->
  LOCK st = false -> default_ok st ->
  content_json st = Some (Json (PDict m)) -> well_formed (PDict m) = true ->
  m !! "heroVideo" = Some hero -> m !! "slots" = Some (PDict s) ->
  m !! "gallery" = Some (PList g) ->
  get_content cfg st
  = Ret (ContentResponse.Make (to_optional_str hero) (to_optional_str <$> s)
                              (GalleryItem_of <$> g)) st /\
  get_gallery cfg st = Ret (GalleryItem_of <$> g) st.
Proof.
  intros Hp Hl Hok Hf Hwf Hh Hs Hg.
  destruct (well_formed_values m s hero Hwf Hh Hs) as [Hhero Hslots].
  destruct (well_formed_inv _ Hwf) as (m0 & hero0 & s0 & g0 & [= <-] & _ & _ & Hg0 & _ & Hall & _).
  rewrite Hg in Hg0. injection Hg0 as <-.
  assert (Hitems : res_mapM (GalleryItem_new cfg) g = inr (GalleryItem_of <$> g)).
  { apply res_mapM_ok. apply list.Forall_forall. intros item Hin.
    apply GalleryItem_new_ok; [done|].
    rewrite forallb_forall in Hall. apply Hall. by apply list_elem_of_In. }
  split.
  - unfold get_content.
    rewrite (bind_Ret _ _ st st (Owned (PDict m))) by (by apply load_content_well_formed).
    rewrite (bind_Ret _ _ st st (PDict m)) by reflexivity.
    rewrite (bind_Ret _ _ st st (GalleryItem_of <$> g))
      by (unfold lift; cbn [py_getitem res_bind]; rewrite Hg; cbn [res_bind py_iter];
          by rewrite Hitems).
    unfold lift. cbn [py_getitem res_bind]. rewrite Hh, Hs. cbn [res_bind].
    rewrite (validate_optional_str_ok cfg hero Hp Hhero). cbn [res_bind].
    by rewrite (validate_slots_ok cfg s Hp Hslots).
  - unfold get_gallery.
    rewrite (bind_Ret _ _ st st (Owned (PDict m))) by (by apply load_content_well_formed).
    rewrite (bind_Ret _ _ st st (PDict m)) by reflexivity.
    unfold lift. cbn [py_getitem res_bind]. rewrite Hg. cbn [res_bind py_iter].
    by rewrite Hitems.
Qed.

(** GET /api/content on a well-formed persisted document answers with that
    document: the hero video, every slot and every gallery item in order,
    null as None; GET /api/gallery answers with the same gallery.  Neither
    changes the state.  (Given that pydantic accepts a string for a field of
    type str as it is.) *)
Theorem get_content_projects_document (cfg : config) (st : state)
    (m s : gmap string pyval) (hero : pyval) (g : list pyval) :
  (forall x, pydantic_str cfg (PStr x) = Some x) ->
  LOCK st = false -> default_ok st ->
  content_json st = Some (Json (PDict m)) -> well_formed (PDict m) = true ->
  m !! "heroVideo" = Some hero -> m !! "slots" = Some (PDict s) ->
  m !! "gallery" = Some (PList g) ->
  get_content cfg st
  = Ret (ContentResponse.Make (to_optional_str hero) (to_optional_str <$> s)
                              (GalleryItem_of <$> g)) st /\
  get_gallery cfg st = Ret (GalleryItem_of <$> g) st.
Proof. intros; eapply get_content_projects_document_core; eassumption. Qed.

Lemma get_content_projects_document_witness :
  get_content local_config sample_on_disk
  = Ret (ContentResponse.Make
           (to_optional_str (PStr "https://cdn/x.mp4"))
           (to_optional_str <$> <["about_img" := PStr "https://cdn/about.jpg"]> default_slots)
           (GalleryItem_of <$> sample_gallery)) sample_on_disk /\
  get_gallery local_config sample_on_disk = Ret (GalleryItem_of <$> sample_gallery) sample_on_disk.
Proof.
  apply (get_content_projects_document local_config sample_on_disk sample_fields).
  - reflexivity.
  - reflexivity.
  - apply default_ok_initial.
  - reflexivity.
  - by_evaluation.
  - by_evaluation.
  - by_evaluation.
  - by_evaluation.
Defined.

(** ** Well-formedness of the persisted document is kept *)

Lemma store_upload_local (cfg : config) (file : UploadFile) (folder resource_type : string)
    (st : state) :
  USE_CLOUDINARY cfg = false ->
  (exists name st1,
     store_upload cfg file folder resource_type st
     = Ret (PStr ("/uploads/" ++ name), PStr name) st1 /\
     uuid_count st1 = S (uuid_count st) /\
     uploads st1 !! name = Some (body file)) \/
  (exists st1,
     store_upload cfg file folder resource_type st = Raise OSError st1 /\
     content_json st1 = content_json st).
Proof.
  intros Hlocal. unfold store_upload, bind, uuid4, modify, ret, raise. rewrite Hlocal.
  destruct (local_write_ok cfg _).
  - left. eexists _, _. split; [reflexivity|]. split; [reflexivity|].
    cbn. apply lookup_insert_eq.
  - right. eexists. split; reflexivity.
Qed.

Lemma well_formed_set_hero (m : gmap string pyval) (u : string) :
  well_formed (PDict m) = true -> well_formed (PDict (<["heroVideo" := PStr u]> m)) = true.
Proof.
  cbn [well_formed]. rewrite lookup_insert_eq.
  rewrite lookup_insert_ne by done. rewrite lookup_insert_ne by done.
  destruct (m !! "heroVideo") as [hero|]; [|discriminate].
  destruct (m !! "slots") as [[| | | | | |s]|]; try discriminate.
  destruct (m !! "gallery") as [[| | | | |g|]|]; try discriminate.
  rewrite !andb_true_iff. intros ((((_ & H2) & H3) & H4) & H5). by repeat split.
Qed.

Lemma well_formed_set_slot (m s : gmap string pyval) (slot_key u : string) :
  well_formed (PDict m) = true -> m !! "slots" = Some (PDict s) ->
  slot_key ∈ FIXED_SLOT_KEYS ->
  well_formed (PDict (<["slots" := PDict (<[slot_key := PStr u]> s)]> m)) = true.
Proof.
  cbn [well_formed]. intros Hwf Hs Hk. rewrite Hs in Hwf. rewrite lookup_insert_eq.
  rewrite lookup_insert_ne by done. rewrite lookup_insert_ne by done.
  destruct (m !! "heroVideo") as [hero|]; [|discriminate].
  destruct (m !! "gallery") as [[| | | | |g|]|]; try discriminate.
  rewrite !andb_true_iff, !bool_decide_eq_true in *.
  destruct Hwf as ((((H1 & H2) & H3) & H4) & H5). repeat split; try done.
  - rewrite dom_insert_L, H2. revert Hk. generalize FIXED_SLOT_KEYS. set_solver.
  - by apply map_Forall_insert_2.
Qed.

Lemma well_formed_append (m : gmap string pyval) (g : list pyval) (item : pyval) (id : string) :
  well_formed (PDict m) = true -> m !! "gallery" = Some (PList g) ->
  is_gallery_item item = true -> item_id item = Some id -> id ∉ gallery_ids g ->
  well_formed (PDict (<["gallery" := PList (g ++ [item])]> m)) = true.
Proof.
  cbn [well_formed]. intros Hwf Hg Hitem Hid Hfresh. rewrite Hg in Hwf.
  rewrite lookup_insert_ne by done. rewrite lookup_insert_ne by done.
  rewrite lookup_insert_eq.
  destruct (m !! "heroVideo") as [hero|]; [|discriminate].
  destruct (m !! "slots") as [[| | | | | |s]|]; try discriminate.
  rewrite !andb_true_iff, !bool_decide_eq_true in *.
  destruct Hwf as ((((H1 & H2) & H3) & H4) & H5). repeat split; try done.
  - rewrite forallb_app, H4. cbn [forallb]. by rewrite Hitem.
  - rewrite gallery_ids_app, (gallery_ids_cons item [] id Hid).
    apply list.NoDup_app. repeat split; try done.
    + intros x Hx [->|Hin%elem_of_nil]%elem_of_cons; done.
    + apply NoDup_singleton.
Qed.

Lemma local_item_ok (name id category : string) :
  category ∈ CATEGORIES ->
  is_gallery_item (PDict {[ "id" := PStr id; "url" := PStr ("/uploads/" ++ name);
                            "public_id" := PStr name; "category" := PStr category ]}) = true /\
  item_id (PDict {[ "id" := PStr id; "url" := PStr ("/uploads/" ++ name);
                    "public_id" := PStr name; "category" := PStr category ]}) = Some id.
Proof.
  intros Hc. cbn [is_gallery_item item_id].
  rewrite lookup_insert_eq.
  rewrite (lookup_insert_ne _ "id" "url") by done. rewrite lookup_insert_eq.
  rewrite (lookup_insert_ne _ "id" "public_id") by done.
  rewrite (lookup_insert_ne _ "url" "public_id") by done. rewrite lookup_insert_eq.
  rewrite (lookup_insert_ne _ "id" "category") by done.
  rewrite (lookup_insert_ne _ "url" "category") by done.
  rewrite (lookup_insert_ne _ "public_id" "category") by done.
  rewrite lookup_singleton_eq. cbn [is_str andb].
  by rewrite bool_decide_eq_true_2.
Qed.

(** With local storage, the four mutating handlers keep the persisted
    document well-formed, whatever their arguments: the slot key set stays
    the fixed one, hero video and slots stay strings or null, and the gallery
    ids stay pairwise different, provided the uuid the next gallery upload
    draws is not yet an id of the gallery. *)
Theorem local_handlers_keep_document_well_formed (cfg : config) (st : state)
    (m : gmap string pyval) (g : list pyval) (file : UploadFile)
    (slot_key category id : string) :
  USE_CLOUDINARY cfg = false ->
  LOCK st = false -> default_ok st ->
  content_json st = Some (Json (PDict m)) -> well_formed (PDict m) = true ->
  m !! "gallery" = Some (PList g) ->
  str (uuid4_source cfg (S (uuid_count st))) ∉ gallery_ids g ->
  leaves_well_formed (upload_hero_video cfg file st) /\
  leaves_well_formed (upload_slot_image cfg slot_key file st) /\
  leaves_well_formed (upload_gallery_image cfg category file st) /\
  leaves_well_formed (delete_gallery_image cfg id st).
Proof.
  intros Hlocal Hl Hok Hf Hwf Hg Hfresh.
  pose proof (well_formed_complete _ Hwf) as Hc.
  destruct (well_formed_inv _ Hwf) as (m0 & hero & s & g0 & [= <-] & Hh & Hs & _).
  split; [|split; [|split]].
  - destruct (store_upload_local cfg file "thesecretspot/hero/api" "video" st Hlocal)
      as [(name & st1 & Hstore & _)|(st1 & Hstore & Hf1)].
    + destruct (upload_hero_video_updates_document_core cfg st st1 m file _ _
                  Hl Hok Hf Hc Hstore) as [Hrun _].
      rewrite Hrun. eexists. split; [reflexivity|]. by apply well_formed_set_hero.
    + unfold upload_hero_video. cbn [UploadFile_bool negb].
      rewrite (bind_Raise _ _ st st1 OSError Hstore). exists (PDict m).
      split; [|done]. cbn [final_state]. by rewrite Hf1.
  - destruct (decide (slot_key ∈ FIXED_SLOT_KEYS)) as [Hk|Hk].
    + destruct (store_upload_local cfg file ("thesecretspot/slots/" ++ slot_key ++ "/api")
                  "image" st Hlocal) as [(name & st1 & Hstore & _)|(st1 & Hstore & Hf1)].
      * destruct (upload_slot_image_updates_one_slot_core cfg st st1 m s slot_key file _ _
                    Hk Hl Hok Hf Hc Hs Hstore) as [Hrun _].
        rewrite Hrun. eexists. split; [reflexivity|]. by apply well_formed_set_slot.
      * unfold upload_slot_image. rewrite VALID_SLOTS_fixed.
        rewrite bool_decide_eq_true_2 by done. cbn [UploadFile_bool negb].
        rewrite (bind_Raise _ _ st st1 OSError Hstore). exists (PDict m).
        split; [|done]. cbn [final_state]. by rewrite Hf1.
    + unfold upload_slot_image. rewrite VALID_SLOTS_fixed.
      rewrite bool_decide_eq_false_2 by done. by exists (PDict m).
  - destruct (decide (category ∈ CATEGORIES)) as [Hk|Hk].
    + destruct (store_upload_local cfg file ("thesecretspot/gallery/" ++ category)
                  "image" st Hlocal) as [(name & st1 & Hstore & Hn & _)|(st1 & Hstore & Hf1)].
      * rewrite (upload_gallery_image_appends_core cfg st st1 m g category file _ _
                   Hk Hl Hok Hf Hc Hg Hstore).
        eexists. split; [reflexivity|]. rewrite Hn.
        destruct (local_item_ok name (str (uuid4_source cfg (S (uuid_count st)))) category Hk)
          as [Hitem Hid].
        by apply (well_formed_append m g _ _ Hwf Hg Hitem Hid).
      * unfold upload_gallery_image. cbn [UploadFile_bool negb].
        rewrite bool_decide_eq_true_2 by done. cbn [negb].
        rewrite (bind_Raise _ _ st st1 OSError Hstore). exists (PDict m).
        split; [|done]. cbn [final_state]. by rewrite Hf1.
    + unfold upload_gallery_image. cbn [UploadFile_bool negb].
      rewrite bool_decide_eq_false_2 by done. by exists (PDict m).
  - destruct (decide (id ∈ gallery_ids g)) as [Hin|Hnot].
    + destruct (gallery_split id g Hin) as (g1 & item & g2 & -> & Hid & Hnot).
      destruct (delete_gallery_image_found cfg st m g1 g2 item id) as (f1 & dir & log & Hdel);
        try done.
      rewrite Hdel. eexists. split; [reflexivity|].
      by destruct (well_formed_remove m g1 g2 item id Hwf Hg Hid).
    + rewrite (delete_gallery_image_not_found cfg st m g id) by done. by exists (PDict m).
Qed.

Lemma local_handlers_keep_document_well_formed_witness :
  leaves_well_formed (upload_hero_video local_config video_upload sample_on_disk) /\
  leaves_well_formed (upload_slot_image local_config "staff_1" video_upload sample_on_disk) /\
  leaves_well_formed (upload_gallery_image local_config "damas" video_upload sample_on_disk) /\
  leaves_well_formed (delete_gallery_image local_config "b2" sample_on_disk).
Proof.
  apply (local_handlers_keep_document_well_formed local_config sample_on_disk sample_fields
           sample_gallery).
  - reflexivity.
  - reflexivity.
  - apply default_ok_initial.
  - reflexivity.
  - by_evaluation.
  - by_evaluation.
  - apply (bool_decide_unpack _). vm_compute. exact I.
Defined.

(** The scenario of the specification: once the hero video is uploaded and
    the backend has returned a url, GET /api/content answers with that url
    as heroVideo. *)
Theorem hero_video_then_get_content (cfg : config) (st st1 : state)
    (m : gmap string pyval) (file : UploadFile) (u : string) (public_id : pyval) :
  (forall x, pydantic_str cfg (PStr x) = Some x) ->
  LOCK st = false -> default_ok st ->
  content_json st = Some (Json (PDict m)) -> well_formed (PDict m) = true ->
  store_upload cfg file "thesecretspot/hero/api" "video" st = Ret (PStr u, public_id) st1 ->
  exists resp,
    get_content cfg (final_state (upload_hero_video cfg file st))
    = Ret resp (final_state (upload_hero_video cfg file st)) /\
    ContentResponse.heroVideo resp = Some u.
Proof.
  intros Hp Hl Hok Hf Hwf Hstore.
  pose proof (well_formed_complete _ Hwf) as Hc.
  destruct (upload_hero_video_updates_document_core cfg st st1 m file _ _ Hl Hok Hf Hc Hstore)
    as [Hrun _].
  destruct (store_upload_returns _ _ _ _ _ _ _ Hstore) as (_ & Hd1 & Hl1 & _).
  rewrite Hrun. cbn [final_state].
  pose proof (well_formed_set_hero m u Hwf) as Hwf'.
  destruct (well_formed_inv _ Hwf') as (m2 & hero & s & g & [= <-] & Hh & Hs & Hg & _).
  destruct (get_content_projects_document_core cfg
              (saved (PDict (<["heroVideo" := PStr u]> m)) st1)
              (<["heroVideo" := PStr u]> m) s hero g) as [Hget _]; try done.
  - rewrite saved_LOCK. by rewrite Hl1.
  - apply (default_ok_same st); [|done]. exact Hd1.
  - rewrite Hget. eexists. split; [reflexivity|]. cbn [ContentResponse.heroVideo].
    rewrite lookup_insert_eq in Hh. by injection Hh as <-.
Qed.

Lemma hero_video_then_get_content_witness :
  exists resp,
    get_content cloud_config (final_state (upload_hero_video cloud_config video_upload
                                             sample_on_disk))
    = Ret resp (final_state (upload_hero_video cloud_config video_upload sample_on_disk)) /\
    ContentResponse.heroVideo resp = Some "https://cdn/thesecretspot/hero/api".
Proof.
  apply (hero_video_then_get_content cloud_config sample_on_disk
           (final_state (store_upload cloud_config video_upload
                           "thesecretspot/hero/api" "video" sample_on_disk))
           sample_fields video_upload "https://cdn/thesecretspot/hero/api"
           (PStr "thesecretspot/hero/api")).
  - reflexivity.
  - reflexivity.
  - apply default_ok_initial.
  - reflexivity.
  - by_evaluation.
  - by_evaluation.
Defined.

(** ** The lock is handed back *)

Lemma ln_ret {A} (a : A) : lock_neutral (ret a).
Proof. intros st. reflexivity. Qed.

Lemma ln_raise {A} (e : exn) : lock_neutral (raise (A := A) e).
Proof. intros st. reflexivity. Qed.

Lemma ln_lift {A} (x : res A) : lock_neutral (lift x).
Proof. intros st. unfold lift. by destruct x. Qed.

Lemma ln_read (r : docref) : lock_neutral (read r).
Proof. intros st. reflexivity. Qed.

Lemma ln_bind {A B} (c : M A) (k : A -> M B) :
  lock_neutral c -> (forall a, lock_neutral (k a)) -> lock_neutral (bind c k).
Proof.
  intros Hc Hk st. unfold bind. specialize (Hc st).
  destruct (c st) as [a st'|e st'|st']; try done.
  specialize (Hk a st'). destruct (k a st'); try done; congruence.
Qed.

Lemma ln_with_LOCK {A} (body : M A) : lock_neutral (with_LOCK body).
Proof.
  intros st. unfold with_LOCK. destruct (LOCK st) eqn:Hl; [done|].
  by destruct (body (set_LOCK true st)).
Qed.

Lemma ln_mutate (r : docref) (f : pyval -> res pyval) : lock_neutral (mutate r f).
Proof. intros st. unfold mutate. destruct (f (deref st r)); [done|]. by destruct r. Qed.

Lemma ln_store_upload (cfg : config) (file : UploadFile) (folder resource_type : string) :
  lock_neutral (store_upload cfg file folder resource_type).
Proof.
  intros st. pose proof (store_upload_frame cfg file folder resource_type st) as H.
  destruct (store_upload cfg file folder resource_type st); try done; by destruct H as (_ & _ & ? & _).
Qed.

Lemma ln_best_effort_delete (cfg : config) (item : pyval) :
  lock_neutral (best_effort_delete cfg item).
Proof.
  intros st. by destruct (best_effort_delete_frame cfg item st) as (f & dir & log & ->).
Qed.

Lemma ln_Depends_verify_token {A} (cfg : config) (authorization : option string)
    (handler : M A) :
  lock_neutral handler -> lock_neutral (Depends_verify_token cfg authorization handler).
Proof.
  intros Hh. unfold Depends_verify_token. destruct authorization as [a|]; [|apply ln_raise].
  apply ln_bind; [|by intros _].
  unfold verify_token. destruct (negb _); [apply ln_raise|apply ln_ret].
Qed.

(** No route keeps the lock: whenever a request returns or raises, [LOCK]
    is in the state the request found it in, so free if it was free, also
    when the handler raised in the middle. *)
Theorem routes_hand_back_the_lock (cfg : config) (authorization : option string)
    (file : UploadFile) (slot_key category id : string) :
  lock_neutral (POST_hero_video cfg authorization file) /\
  lock_neutral (POST_slot_image cfg authorization slot_key file) /\
  lock_neutral (POST_gallery cfg authorization category file) /\
  lock_neutral (DELETE_gallery cfg authorization id) /\
  lock_neutral (get_content cfg) /\
  lock_neutral (get_gallery cfg).
Proof.
  assert (Hload : lock_neutral load_content) by apply ln_with_LOCK.
  assert (Hsave : forall data, lock_neutral (save_content data))
    by (intros data; apply ln_with_LOCK).
  split; [|split; [|split; [|split; [|split]]]].
  - apply ln_Depends_verify_token. unfold upload_hero_video. cbn [UploadFile_bool negb].
    apply ln_bind; [apply ln_store_upload|]. intros stored.
    apply ln_bind; [done|]. intros data.
    apply ln_bind; [apply ln_mutate|]. intros data'.
    apply ln_bind; [done|]. intros _. apply ln_ret.
  - apply ln_Depends_verify_token. unfold upload_slot_image.
    destruct (negb _); [apply ln_raise|]. cbn [UploadFile_bool negb].
    apply ln_bind; [apply ln_store_upload|]. intros stored.
    apply ln_bind; [done|]. intros data.
    apply ln_bind; [apply ln_mutate|]. intros data'.
    apply ln_bind; [done|]. intros _. apply ln_ret.
  - apply ln_Depends_verify_token. unfold upload_gallery_image. cbn [UploadFile_bool negb].
    destruct (negb _); [apply ln_raise|].
    apply ln_bind; [apply ln_store_upload|]. intros stored.
    apply ln_bind; [by intros st|]. intros u.
    apply ln_bind; [done|]. intros data.
    apply ln_bind; [apply ln_mutate|]. intros data'.
    apply ln_bind; [done|]. intros _. apply ln_ret.
  - apply ln_Depends_verify_token. unfold delete_gallery_image.
    apply ln_bind; [done|]. intros data.
    apply ln_bind; [apply ln_read|]. intros d.
    apply ln_bind; [apply ln_lift|]. intros gallery.
    apply ln_bind; [apply ln_lift|]. intros items.
    apply ln_bind; [apply ln_lift|]. intros [idx|]; [|apply ln_raise].
    apply ln_bind; [apply ln_lift|]. intros item.
    apply ln_bind; [apply ln_best_effort_delete|]. intros _.
    apply ln_bind; [apply ln_mutate|]. intros data'.
    apply ln_bind; [done|]. intros _. apply ln_ret.
  - unfold get_content. apply ln_bind; [done|]. intros data.
    apply ln_bind; [apply ln_read|]. intros d.
    apply ln_bind; [apply ln_lift|]. intros items. apply ln_lift.
  - unfold get_gallery. apply ln_bind; [done|]. intros data.
    apply ln_bind; [apply ln_read|]. intros d. apply ln_lift.
Qed.

Lemma requests_keep_default_ok_witness :
  default_ok (final_state (POST_slot_image local_config (Some "Bearer 123456") "about_img"
                                           video_upload garbage_at_startup)).
Proof.
  apply (requests_keep_default_ok local_config (Some "Bearer 123456") video_upload
           "about_img" "damas" "a1").
  apply default_ok_initial.
Defined.

(** ** The media deletion *)

(** The deletion of the media never fails and never blocks, whatever the
    item looks like and whatever the backend does; it leaves
    [DEFAULT_CONTENT], the lock and the uuid counter alone, and with
    Cloudinary also the document file and the uploads directory.  With local
    storage the stored reference is joined to UPLOADS_DIR as a path: when it names
    an uploaded file (as "f" and "./f" do), that file is removed if it is
    there and [unlink] succeeds, and nothing else changes; when it names
    content.json (as "../content.json" does), the document file is removed if
    [unlink] succeeds; any other path leaves both as they were. *)
Theorem best_effort_delete_never_fails (cfg : config) (item : pyval) (st : state) :
  (exists st', best_effort_delete cfg item st = Ret tt st' /\
               DEFAULT_CONTENT st' = DEFAULT_CONTENT st /\
               LOCK st' = LOCK st /\ uuid_count st' = uuid_count st /\
               (content_json st' = content_json st \/ content_json st' = None) /\
               (USE_CLOUDINARY cfg = true ->
                content_json st' = content_json st /\ uploads st' = uploads st)) /\
  (forall fname,
     USE_CLOUDINARY cfg = false ->
     py_get item "public_id" (PStr "") = inr (PStr fname) ->
     match path_target cfg fname with
     | UploadedFile name =>
         content_json (final_state (best_effort_delete cfg item st)) = content_json st /\
         uploads (final_state (best_effort_delete cfg item st))
         = if bool_decide (is_Some (uploads st !! name)) && unlink cfg fname
           then delete name (uploads st) else uploads st
     | ContentFile =>
         uploads (final_state (best_effort_delete cfg item st)) = uploads st /\
         content_json (final_state (best_effort_delete cfg item st))
         = if unlink cfg fname then None else content_json st
     | OtherPath _ =>
         content_json (final_state (best_effort_delete cfg item st)) = content_json st /\
         uploads (final_state (best_effort_delete cfg item st)) = uploads st
     end).
Proof.
  split.
  - destruct st as [f dc l dir n log].
    unfold best_effort_delete, try_pass, bind, lift, modify, get_state, raise, ret.
    destruct (USE_CLOUDINARY cfg).
    + destruct (py_getitem item "public_id") as [e|public_id]; cbn;
        [|destruct (cloudinary_destroy cfg public_id)];
        (eexists; split; [reflexivity|]; cbn; split_and!; [done|done|done|by left|done]).
    + destruct (py_get item "public_id" (PStr "")) as [e|public_id];
        [eexists; split; [reflexivity|]; cbn; split_and!; [done|done|done|by left|done]|].
      destruct public_id as [| | | |fname| |];
        try (eexists; split; [reflexivity|]; cbn; split_and!; [done|done|done|by left|done]).
      cbn. destruct (path_target cfg fname) as [name| |[|]]; cbn.
      * destruct (bool_decide _); cbn; [destruct (unlink cfg fname)|];
          (eexists; split; [reflexivity|]; cbn; split_and!; [done|done|done|by left|done]).
      * destruct (bool_decide _); cbn; [destruct (unlink cfg fname)|];
          (eexists; split; [reflexivity|]; cbn; split_and!;
           [done|done|done|by (left + right)|done]).
      * eexists; split; [reflexivity|]; cbn; split_and!; [done|done|done|by left|done].
      * eexists; split; [reflexivity|]; cbn; split_and!; [done|done|done|by left|done].
  - intros fname Hlocal Hget. destruct st as [f dc l dir n log].
    unfold best_effort_delete, try_pass, bind, lift, get_state, modify, raise, ret.
    rewrite Hlocal, Hget. cbn.
    destruct (path_target cfg fname) as [name| |[|]]; cbn; try done.
    + destruct (bool_decide _); cbn; [|done]. by destruct (unlink cfg fname).
    + case_bool_decide as Hf; cbn.
      * by destruct (unlink cfg fname).
      * split; [done|]. destruct f as [c|]; [by destruct Hf|]. by destruct (unlink cfg fname).
Qed.

Lemma best_effort_delete_never_fails_witness :
  (content_json (final_state (best_effort_delete local_config
                                (sample_item "./00aa0_v.mp4" "damas") after_hero_update))
   = content_json after_hero_update /\
   uploads (final_state (best_effort_delete local_config
                           (sample_item "./00aa0_v.mp4" "damas") after_hero_update))
   = if bool_decide (is_Some (uploads after_hero_update !! "00aa0_v.mp4"))
        && unlink local_config "./00aa0_v.mp4"
     then delete "00aa0_v.mp4" (uploads after_hero_update)
     else uploads after_hero_update) /\
  (uploads (final_state (best_effort_delete local_config
                           (sample_item "../content.json" "damas") after_hero_update))
   = uploads after_hero_update /\
   content_json (final_state (best_effort_delete local_config
                                (sample_item "../content.json" "damas") after_hero_update))
   = if unlink local_config "../content.json" then None
     else content_json after_hero_update).
Proof.
  split.
  - apply (proj2 (best_effort_delete_never_fails local_config
                    (sample_item "./00aa0_v.mp4" "damas") after_hero_update)
             "./00aa0_v.mp4").
    + reflexivity.
    + by_evaluation.
  - apply (proj2 (best_effort_delete_never_fails local_config
                    (sample_item "../content.json" "damas") after_hero_update)
             "../content.json").
    + reflexivity.
    + by_evaluation.
Defined.

(** ** Start-up *)

Lemma truthy_is_set (env : Startup.environ) (name : string) :
  Startup.truthy (env !! name) = true <-> is_set env name.
Proof.
  unfold Startup.truthy, is_set. destruct (env !! name) as [s|].
  - rewrite negb_true_iff, String.eqb_neq. split; [by eauto|]. by intros (s' & [= <-] & H).
  - split; [discriminate|]. by intros (s' & H & _).
Qed.

(** Cloudinary is used exactly when the three credentials are all set to
    something other than the empty string; a missing or empty one selects
    local storage. *)
Theorem cloudinary_needs_all_three_credentials (env : Startup.environ) :
  Startup.USE_CLOUDINARY env = true <->
  is_set env "CLOUDINARY_CLOUDNAME" /\ is_set env "CLOUDINARY_APIKEY" /\
  is_set env "CLOUDINARY_APISECRET".
Proof.
  rewrite <- !truthy_is_set. unfold Startup.USE_CLOUDINARY, Startup.py_and.
  destruct (Startup.truthy (env !! "CLOUDINARY_CLOUDNAME")) eqn:H1.
  - destruct (Startup.truthy (env !! "CLOUDINARY_APIKEY")) eqn:H2.
    + tauto.
    + rewrite H2. split; [discriminate|]. by intros (_ & ? & _).
  - rewrite H1, H1. split; [discriminate|]. by intros (? & _).
Qed.

(** The token the routes accept is the value of ADMIN_TOKEN when the variable
    is set, and "123456" only when it is not: with the variable unset the
    header "Bearer 123456" passes [verify_token]; with it set to another
    value that header is turned away with 401. *)
Theorem default_token_only_when_unset (cfg : config) (env : Startup.environ) (st : state) :
  ADMIN_TOKEN cfg = Startup.ADMIN_TOKEN env ->
  (env !! "ADMIN_TOKEN" = None -> verify_token cfg "Bearer 123456" st = Ret tt st) /\
  (forall t, env !! "ADMIN_TOKEN" = Some t ->
     verify_token cfg ("Bearer " ++ t) st = Ret tt st /\
     (t <> "123456" ->
      verify_token cfg "Bearer 123456" st = Raise (HTTPException 401 "Unauthorized") st)).
Proof.
  intros Hcfg. unfold verify_token, Startup.ADMIN_TOKEN in *. rewrite Hcfg. split.
  - intros ->. reflexivity.
  - intros t ->. cbn [default]. split.
    + by rewrite String.eqb_refl.
    + intros Hne. rewrite (proj2 (String.eqb_neq _ _)); [done|].
      cbn. intros [= Heq]. by apply Hne.
Qed.

Lemma cloudinary_needs_all_three_credentials_witness :
  Startup.USE_CLOUDINARY full_environ = true.
Proof.
  apply (cloudinary_needs_all_three_credentials full_environ).
  split; [|split].
  - exists "spot". split; [by_evaluation|discriminate].
  - exists "key". split; [by_evaluation|discriminate].
  - exists "secret". split; [by_evaluation|discriminate].
Defined.

Lemma default_token_only_when_unset_witness :
  verify_token secret_config ("Bearer " ++ "s3cret") fresh_document_on_disk
  = Ret tt fresh_document_on_disk /\
  ("s3cret" <> "123456" ->
   verify_token secret_config "Bearer 123456" fresh_document_on_disk
   = Raise (HTTPException 401 "Unauthorized") fresh_document_on_disk).
Proof.
  apply (default_token_only_when_unset secret_config full_environ fresh_document_on_disk).
  - reflexivity.
  - by_evaluation.
Defined.

(** ** A corrupt file before any update, and updates one after the other *)

(** As long as no handler has written into [DEFAULT_CONTENT], a corrupt
    content.json is answered with the defaults: the load returns the default
    document, GET /api/content answers heroVideo None, every slot None and an
    empty gallery, GET /api/gallery answers the empty list, and neither
    touches the state (the corrupt file stays). *)
Theorem corrupt_file_reads_as_defaults (cfg : config) (st : state) :
  LOCK st = false -> DEFAULT_CONTENT st = default_document ->
  content_json st = Some Garbage ->
  (exists data, load_content st = Ret data st /\ deref st data = default_document) /\
  get_content cfg st = Ret default_response st /\
  get_gallery cfg st = Ret [] st /\
  (forall k, ContentResponse.slots default_response !! k
             = if bool_decide (k ∈ FIXED_SLOT_KEYS) then Some None else None).
Proof.
  intros Hl Hd Hf.
  destruct (load_content_garbage_pristine st Hl Hd Hf) as [Hload Hderef].
  split; [by exists Shared|]. split; [|split].
  - unfold get_content.
    rewrite (bind_Ret _ _ st st Shared Hload).
    rewrite (bind_Ret _ _ st st default_document) by (unfold read; by rewrite Hderef).
    rewrite (bind_Ret _ _ st st []) by reflexivity.
    unfold lift.
    assert (Hslots : validate_slots cfg (PDict default_slots)
                     = inr (to_optional_str <$> default_slots)).
    { unfold validate_slots.
      rewrite (res_mapM_ok _ (prod_map id to_optional_str)).
      - cbn [res_bind]. by rewrite list_to_map_fmap, list_to_map_to_list.
      - apply list.Forall_forall. intros [k v] Hkv%elem_of_map_to_list.
        cbn [fst snd].
        assert (Hv : v = PNone).
        { revert Hkv. unfold default_slots.
          repeat (rewrite lookup_insert; case_decide; [by intros [= <-]|]).
          rewrite lookup_singleton. case_decide; [by intros [= <-]|discriminate]. }
        by subst. }
    change (py_getitem default_document "heroVideo") with (@inr exn _ PNone).
    change (py_getitem default_document "slots") with (@inr exn _ (PDict default_slots)).
    cbn [res_bind validate_optional_str]. by rewrite Hslots.
  - unfold get_gallery.
    rewrite (bind_Ret _ _ st st Shared Hload).
    by rewrite (bind_Ret _ _ st st default_document) by (unfold read; by rewrite Hderef).
  - intros k. cbn [default_response ContentResponse.slots]. rewrite lookup_fmap.
    unfold default_slots, FIXED_SLOT_KEYS.
    repeat (rewrite lookup_insert; case_decide;
            [subst; by rewrite bool_decide_eq_true_2 by set_solver|]).
    rewrite lookup_singleton.
    case_decide; [subst; by rewrite bool_decide_eq_true_2 by set_solver|].
    cbn. by rewrite bool_decide_eq_false_2 by set_solver.
Qed.

Lemma corrupt_file_reads_as_defaults_witness :
  (exists data, load_content garbage_at_startup = Ret data garbage_at_startup /\
                deref garbage_at_startup data = default_document) /\
  get_content local_config garbage_at_startup = Ret default_response garbage_at_startup /\
  get_gallery local_config garbage_at_startup = Ret [] garbage_at_startup /\
  (forall k, ContentResponse.slots default_response !! k
             = if bool_decide (k ∈ FIXED_SLOT_KEYS) then Some None else None).
Proof.
  apply (corrupt_file_reads_as_defaults local_config garbage_at_startup); reflexivity.
Defined.

Lemma complete_set_slots (m s : gmap string pyval) (k : string) (v : pyval) :
  complete (PDict m) = true -> m !! "slots" = Some (PDict s) ->
  complete (PDict (<["slots" := PDict (<[k := v]> s)]> m)) = true.
Proof.
  intros Hc Hs. destruct (complete_inv _ Hc) as (m0 & s0 & [= <-] & Hs0 & Hsub & [g Hg] & [h Hh]).
  rewrite Hs in Hs0. injection Hs0 as <-.
  cbn [complete]. rewrite lookup_insert_eq.
  rewrite lookup_insert_ne by done. rewrite lookup_insert_ne by done. rewrite Hh, Hg.
  apply bool_decide_eq_true. rewrite dom_insert_L.
  revert Hsub. generalize FIXED_SLOT_KEYS (dom s). set_solver.
Qed.

(** Two slot uploads one after the other: the document saved at the end has
    both urls, the later one on top, so an earlier update of another slot is
    still there and a second update of the same slot replaces the first. *)
Theorem slot_uploads_accumulate (cfg : config) (st st1 st2 : state)
    (m s : gmap string pyval) (k1 k2 : string) (file1 file2 : UploadFile)
    (url1 pid1 url2 pid2 : pyval) :
  k1 ∈ FIXED_SLOT_KEYS -> k2 ∈ FIXED_SLOT_KEYS ->
  LOCK st = false -> default_ok st ->
  content_json st = Some (Json (PDict m)) -> complete (PDict m) = true ->
  m !! "slots" = Some (PDict s) ->
  store_upload cfg file1 ("thesecretspot/slots/" ++ k1 ++ "/api") "image" st
  = Ret (url1, pid1) st1 ->
  store_upload cfg file2 ("thesecretspot/slots/" ++ k2 ++ "/api") "image"
               (saved (PDict (<["slots" := PDict (<[k1 := url1]> s)]> m)) st1)
  = Ret (url2, pid2) st2 ->
  content_json (final_state (bind (upload_slot_image cfg k1 file1)
                                  (fun _ => upload_slot_image cfg k2 file2) st))
  = Some (Json (PDict (<["slots" := PDict (<[k2 := url2]> (<[k1 := url1]> s))]> m))) /\
  (<[k2 := url2]> (<[k1 := url1]> s)) !! k2 = Some url2 /\
  (k1 <> k2 -> (<[k2 := url2]> (<[k1 := url1]> s)) !! k1 = Some url1).
Proof.
  intros Hk1 Hk2 Hl Hok Hf Hc Hs Hstore1 Hstore2.
  destruct (upload_slot_image_updates_one_slot_core cfg st st1 m s k1 file1 url1 pid1
              Hk1 Hl Hok Hf Hc Hs Hstore1) as [Hrun1 _].
  destruct (store_upload_returns _ _ _ _ _ _ _ Hstore1) as (_ & Hd1 & Hl1 & _).
  set (m1 := <["slots" := PDict (<[k1 := url1]> s)]> m) in *.
  assert (Hl2 : LOCK (saved (PDict m1) st1) = false) by (rewrite saved_LOCK; by rewrite Hl1).
  assert (Hok2 : default_ok (saved (PDict m1) st1))
    by (apply (default_ok_same st); [exact Hd1|exact Hok]).
  assert (Hc2 : complete (PDict m1) = true) by (by apply complete_set_slots).
  assert (Hs2 : m1 !! "slots" = Some (PDict (<[k1 := url1]> s))) by apply lookup_insert_eq.
  destruct (upload_slot_image_updates_one_slot_core cfg (saved (PDict m1) st1) st2 m1
              (<[k1 := url1]> s) k2 file2 url2 pid2 Hk2 Hl2 Hok2 eq_refl Hc2 Hs2 Hstore2)
    as [Hrun2 _].
  split; [|split].
  - rewrite (bind_Ret _ _ _ _ _ Hrun1), Hrun2. unfold m1.
    cbn [final_state saved content_json log_call set_content_json].
    by rewrite insert_insert_eq.
  - apply lookup_insert_eq.
  - intros Hne. rewrite lookup_insert_ne by done. apply lookup_insert_eq.
Qed.

Lemma slot_uploads_accumulate_witness :
  content_json (final_state (bind (upload_slot_image local_config "staff_1" video_upload)
                                  (fun _ => upload_slot_image local_config "staff_2" empty_upload)
                                  sample_on_disk))
  = Some (Json (PDict (<["slots" :=
                          PDict (<["staff_2" := PStr "/uploads/00aa1_a.png"]>
                                   (<["staff_1" := PStr "/uploads/00aa0_v.mp4"]>
                                      (<["about_img" := PStr "https://cdn/about.jpg"]>
                                         default_slots)))]> sample_fields))) /\
  (<["staff_2" := PStr "/uploads/00aa1_a.png"]>
     (<["staff_1" := PStr "/uploads/00aa0_v.mp4"]>
        (<["about_img" := PStr "https://cdn/about.jpg"]> default_slots))) !! "staff_2"
  = Some (PStr "/uploads/00aa1_a.png") /\
  ("staff_1" <> "staff_2" ->
   (<["staff_2" := PStr "/uploads/00aa1_a.png"]>
      (<["staff_1" := PStr "/uploads/00aa0_v.mp4"]>
         (<["about_img" := PStr "https://cdn/about.jpg"]> default_slots))) !! "staff_1"
   = Some (PStr "/uploads/00aa0_v.mp4")).
Proof.
  apply (slot_uploads_accumulate local_config sample_on_disk
           (final_state (store_upload local_config video_upload
                           "thesecretspot/slots/staff_1/api" "image" sample_on_disk))
           (final_state (store_upload local_config empty_upload
                           "thesecretspot/slots/staff_2/api" "image"
                           (saved (PDict (<["slots" :=
                                     PDict (<["staff_1" := PStr "/uploads/00aa0_v.mp4"]>
                                              (<["about_img" := PStr "https://cdn/about.jpg"]>
                                                 default_slots))]> sample_fields))
                                  (final_state (store_upload local_config video_upload
                                     "thesecretspot/slots/staff_1/api" "image" sample_on_disk)))))
           sample_fields (<["about_img" := PStr "https://cdn/about.jpg"]> default_slots)
           "staff_1" "staff_2" video_upload empty_upload
           (PStr "/uploads/00aa0_v.mp4") (PStr "00aa0_v.mp4")
           (PStr "/uploads/00aa1_a.png") (PStr "00aa1_a.png")).
  - apply (bool_decide_unpack _). vm_compute. exact I.
  - apply (bool_decide_unpack _). vm_compute. exact I.
  - reflexivity.
  - apply default_ok_initial.
  - reflexivity.
  - by_evaluation.
  - by_evaluation.
  - by_evaluation.
  - by_evaluation.
Defined.
